(** * datman: checklist / blacklist metadata, dashboard reconciliation and
    the ENIGMA-DTI submission driver

  A shallow embedding of
    - [datman/utils.py]     (checklist.csv / blacklist.csv read-modify-write),
    - [datman/dashboard.py] (session / scan / link upserts),
    - [bin/dm-proc-enigma.py] (batch file, queue submission, dry-run),
  followed by the properties proved about them.

  Python 2 semantics are assumed throughout ([str] is a byte string,
  [dict] iteration order is unspecified, [open(path, 'r')] does no
  newline translation). *)

From Stdlib Require Import ZArith Ascii String List.
From stdpp Require Import base option list gmap strings pretty sorting fin_maps.

Local Open Scope Z_scope.
Local Open Scope stdpp_scope.

(** ** Python string primitives *)

Module Py.

(** Truth value of a [str]: the empty string is false. *)
Definition truthy (s : string) : bool := negb (String.eqb s "").

(** Truth value of an optional [str] argument ([None] or [''] are false). *)
Definition otruthy (o : option string) : bool :=
  match o with Some s => truthy s | None => false end.

(** [c in ' \t\n\r\x0b\x0c'], the bytes [str.isspace] accepts. *)
Definition is_space (c : ascii) : bool := Ascii.is_space c.

(** [s.split()]: maximal runs of non-whitespace bytes. *)
Fixpoint split_go (w : string) (s : string) : list string :=
  match s with
  | "" => if String.eqb w "" then [] else [w]
  | String c s' =>
      if is_space c
      then (if String.eqb w "" then split_go "" s' else w :: split_go "" s')
      else split_go (w +:+ String c "") s'
  end.
Definition split (s : string) : list string := split_go "" s.

(** [sep.join(l)]. *)
Definition join (sep : string) (l : list string) : string := String.concat sep l.

(** [s.lstrip()], [s.rstrip()], [s.strip()]. *)
Fixpoint lstrip (s : string) : string :=
  match s with
  | "" => ""
  | String c s' => if is_space c then lstrip s' else s
  end.
Fixpoint rstrip (s : string) : string :=
  match s with
  | "" => ""
  | String c s' =>
      let r := rstrip s' in
      if String.eqb r "" && is_space c then "" else String c r
  end.
Definition strip (s : string) : string := rstrip (lstrip s).

(** [s.startswith(p)] and [p in s]. *)
Definition startswith (s p : string) : bool := String.prefix p s.
Fixpoint contains (needle hay : string) : bool :=
  String.prefix needle hay ||
  match hay with
  | "" => false
  | String _ hay' => contains needle hay'
  end.

(** [s.replace(old, new)] for a non-empty [old]: leftmost, non-overlapping
    occurrences.  [skip] counts the bytes of a match still to be dropped. *)
Fixpoint replace_go (old new : string) (skip : nat) (s : string) : string :=
  match s with
  | "" => ""
  | String c s' =>
      match skip with
      | S k => replace_go old new k s'
      | O =>
          if String.prefix old s
          then new +:+ replace_go old new (String.length old - 1) s'
          else String c (replace_go old new 0 s')
      end
  end.
(** For an empty [old] Python puts [new] around every byte. *)
Fixpoint intersperse_str (new s : string) : string :=
  match s with
  | "" => new
  | String c s' => new +:+ String c (intersperse_str new s')
  end.
Definition replace (s old new : string) : string :=
  if String.eqb old "" then intersperse_str new s else replace_go old new 0 s.

(** [f.readlines()] on the content of a file: lines keep their ["\n"]. *)
Fixpoint readlines_go (cur : string) (s : string) : list string :=
  match s with
  | "" => if String.eqb cur "" then [] else [cur]
  | String c s' =>
      if Ascii.eqb c "010"
      then (cur +:+ String c "") :: readlines_go "" s'
      else readlines_go (cur +:+ String c "") s'
  end.
Definition readlines (content : string) : list string := readlines_go "" content.

(** [f.writelines(lines)]: the lines are written one after the other. *)
Definition writelines (lines : list string) : string := String.concat "" lines.

(** [re.split(',|\s', s)]: every single comma or whitespace byte is a
    separator; adjacent separators give empty fields. *)
Definition is_sep (c : ascii) : bool := Ascii.eqb c "," || is_space c.
Fixpoint re_split_go (cur : string) (s : string) : list string :=
  match s with
  | "" => [cur]
  | String c s' =>
      if is_sep c then cur :: re_split_go "" s'
      else re_split_go (cur +:+ String c "") s'
  end.
Definition re_split (s : string) : list string := re_split_go "" s.

(** Split at the last occurrence of byte [c]: [s = a ++ c :: b], no [c] in [b]. *)
Fixpoint rsplit1 (c : ascii) (s : string) : option (string * string) :=
  match s with
  | "" => None
  | String x s' =>
      match rsplit1 c s' with
      | Some (a, b) => Some (String x a, b)
      | None => if Ascii.eqb x c then Some ("", s') else None
      end
  end.

(** Leading dots of a file name and what follows them. *)
Fixpoint span_dots (s : string) : string * string :=
  match s with
  | String "." s' => let '(d, r) := span_dots s' in (String "." d, r)
  | _ => ("", s)
  end.

(** [os.path.splitext(p)] (posixpath): the extension starts at the last dot
    of the last path component, leading dots of that component not counting. *)
Definition splitext (p : string) : string * string :=
  let '(dir, base) :=
    match rsplit1 "/" p with
    | Some (a, b) => (a +:+ "/", b)
    | None => ("", p)
    end in
  let '(dots, rest) := span_dots base in
  match rsplit1 "." rest with
  | Some (a, b) => (dir +:+ dots +:+ a, "." +:+ b)
  | None => (p, "")
  end.

(** [os.path.join(a, b)] (posixpath). *)
Definition endswith_slash (a : string) : bool :=
  match rsplit1 "/" a with Some (_, "") => true | _ => false end.
Definition path_join (a b : string) : string :=
  if String.prefix "/" b then b
  else if String.eqb a "" || endswith_slash a then a +:+ b
  else a +:+ "/" +:+ b.

(** [os.path.basename(p)]. *)
Definition basename (p : string) : string :=
  match rsplit1 "/" p with Some (_, b) => b | None => p end.

(** [sorted(l)] on a list of [str]: byte-wise lexicographic order. *)
Definition sorted (l : list string) : list string := merge_sort String.le l.

(** Every byte of [s] satisfies [p]. *)
Fixpoint str_forall (p : ascii → bool) (s : string) : bool :=
  match s with
  | "" => true
  | String c s' => p c && str_forall p s'
  end.

Definition nonspace (c : ascii) : bool := negb (is_space c).

(** A word: not empty, no whitespace. *)
Definition is_word (s : string) : bool :=
  negb (String.eqb s "") && str_forall nonspace s.

(** The last byte of a non-empty string is not whitespace. *)
Fixpoint ends_nonspace (s : string) : bool :=
  match s with
  | "" => false
  | String c "" => nonspace c
  | String _ s' => ends_nonspace s'
  end.

(** [s.endswith(suf)]. *)
Fixpoint endswith (s suf : string) : bool :=
  String.eqb s suf ||
  match s with
  | "" => false
  | String _ s' => endswith s' suf
  end.

(** [s[:n]] and [s[n:]] for [n >= 0]. *)
Fixpoint str_take (n : nat) (s : string) : string :=
  match n, s with
  | S n', String c s' => String c (str_take n' s')
  | _, _ => ""
  end.
Fixpoint str_drop (n : nat) (s : string) : string :=
  match n, s with
  | S n', String _ s' => str_drop n' s'
  | _, _ => s
  end.

(** [s[:-n]] and [s[-n:]] for [n > 0]. *)
Definition drop_end (n : nat) (s : string) : string := str_take (String.length s - n) s.
Definition take_end (n : nat) (s : string) : string := str_drop (String.length s - n) s.

(** [s.split(sep)] for a separator of one byte: the fields between the
    separators, at least one. *)
Fixpoint split_sep_go (c : ascii) (cur s : string) : list string :=
  match s with
  | "" => [cur]
  | String x s' =>
      if Ascii.eqb x c then cur :: split_sep_go c "" s'
      else split_sep_go c (cur +:+ String x "") s'
  end.
Definition split_sep (c : ascii) (s : string) : list string := split_sep_go c "" s.

(** [s.rstrip(c)] for one byte [c]. *)
Fixpoint rstrip_char (c : ascii) (s : string) : string :=
  match s with
  | "" => ""
  | String x s' =>
      let r := rstrip_char c s' in
      if String.eqb r "" && Ascii.eqb x c then "" else String x r
  end.

(** [os.path.split(p)] (posixpath): the head loses its trailing slashes
    unless it is made of slashes only. *)
Definition os_path_split (p : string) : string * string :=
  let '(head, tail) :=
    match rsplit1 "/" p with
    | Some (a, b) => (a +:+ "/", b)
    | None => ("", p)
    end in
  (if truthy head && negb (str_forall (λ c, Ascii.eqb c "/") head)
   then rstrip_char "/" head else head,
   tail).

(** Every byte of [s] replaced by the string [f] gives for it, and the
    number of bytes of [s] that satisfy [p]. *)
Fixpoint str_bind (f : ascii → string) (s : string) : string :=
  match s with
  | "" => ""
  | String c s' => f c +:+ str_bind f s'
  end.
Fixpoint str_count (p : ascii → bool) (s : string) : nat :=
  match s with
  | "" => 0
  | String c s' => (if p c then 1 else 0) + str_count p s'
  end.

End Py.

(** ** Exceptions, results and the effect monad *)

Inductive exn : Type :=
  | MetadataException (msg : string)
  | DashboardException (msg : string)
  | ParseException
  | IOError (msg : string)
  | KeyError (key : string)
  | TypeError (msg : string)
  | ValueError (msg : string)
  | UnboundLocalError (var : string)
  | AttributeError (msg : string)
  | SystemExit (code : string)
  | RecursionError.

(** [str(e)]. *)
Definition exn_str (e : exn) : string :=
  match e with
  | MetadataException m | DashboardException m | IOError m
  | TypeError m | ValueError m | AttributeError m | SystemExit m => m
  | ParseException => ""
  | KeyError k => "'" +:+ k +:+ "'"
  | UnboundLocalError v =>
      "local variable '" +:+ v +:+ "' referenced before assignment"
  | RecursionError => "maximum recursion depth exceeded"
  end.

Inductive res (A : Type) : Type :=
  | Ok (a : A)
  | Raise (e : exn).
Arguments Ok {A} a.
Arguments Raise {A} e.

(** What one [open(path, 'w')] + [writelines] does: it succeeds, or it fails
  and leaves the file untouched ([None]) or with some residue. *)
Inductive write_result : Type :=
  | WriteOk
  | WriteFails (residue : option string).

Inductive event : Type :=
  | EvLog (level msg : string)
  | EvWrite (path : string) (ok : bool)
  | EvSleep (wait : nat).

(** The part of the outside world [datman.utils] touches: the files (path to
  content), the outcome of the coming write attempts (a write past the end of
  the list succeeds), the coming values of [random.uniform(0, 10)] (in
  milliseconds) and what happened so far, oldest first. *)
Record world : Type := World {
  files : gmap string string;
  io : list write_result;
  waits : list nat;
  trace : list event
}.

(** State and exception monad over a world [W]: a computation returns a value
  or raises, and in both cases leaves a world behind. *)
Definition St (W A : Type) : Type := W → res A * W.

Global Instance St_ret {W} : MRet (St W) := λ A a w, (Ok a, w).
Global Instance St_bind {W} : MBind (St W) := λ A B k m w,
  match m w with
  | (Ok a, w') => k a w'
  | (Raise e, w') => (Raise e, w')
  end.

Definition raise {W A} (e : exn) : St W A := λ w, (Raise e, w).

(** [try: body  except: handler] (every exception is caught). *)
Definition try_except {W A} (body : St W A) (handler : exn → St W A) : St W A := λ w,
  match body w with
  | (Ok a, w') => (Ok a, w')
  | (Raise e, w') => handler e w'
  end.

Definition lift {W A} (r : res A) : St W A := λ w, (r, w).

Abbreviation M := (St world).

Definition emit (ev : event) : M unit := λ w,
  (Ok (), World (files w) (io w) (waits w) (trace w ++ [ev])).

Definition log_error (msg : string) : M unit := emit (EvLog "ERROR" msg).
Definition log_info (msg : string) : M unit := emit (EvLog "INFO" msg).

(** [with open(path, 'r') as f: f.read()]. *)
Definition open_read (path : string) : M string := λ w,
  match files w !! path with
  | Some content => (Ok content, w)
  | None =>
      (Raise (IOError ("[Errno 2] No such file or directory: '" +:+ path +:+ "'")), w)
  end.

(** [with open(path, 'w') as f: f.writelines(lines)], [true] when no
  exception came out of it. *)
Definition open_write (path : string) (lines : list string) : M bool := λ w,
  match io w with
  | [] =>
      (Ok true, World (<[path := Py.writelines lines]> (files w)) [] (waits w)
                      (trace w ++ [EvWrite path true]))
  | WriteOk :: rest =>
      (Ok true, World (<[path := Py.writelines lines]> (files w)) rest (waits w)
                      (trace w ++ [EvWrite path true]))
  | WriteFails residue :: rest =>
      (Ok false,
       World (match residue with
              | Some r => <[path := r]> (files w)
              | None => files w
              end) rest (waits w) (trace w ++ [EvWrite path false]))
  end.

(** [random.uniform(0, 10)]. *)
Definition random_uniform : M nat := λ w,
  match waits w with
  | [] => (Ok 0%nat, w)
  | t :: rest => (Ok t, World (files w) (io w) rest (trace w))
  end.

(** [time.sleep(wait_time)]. *)
Definition sleep (wait : nat) : M unit := emit (EvSleep wait).

(** ** datman/utils.py: checklist and blacklist files *)

(** What [read_checklist] / [read_blacklist] return: the whole mapping, one
  comment, or [None]. *)
Inductive meta_value : Type :=
  | Entries (d : gmap string string)
  | Comment (c : string)
  | PyNone.

(** Truth value of a [dict]. *)
Definition dict_truthy {V} (d : gmap string V) : bool :=
  negb (bool_decide (d = ∅)).

(** ** Interfaces of the modules that are not part of the sources at hand *)

(** [datman.scanid]: identifiers and their parsers.  [scanid_parse s = None]
  stands for [ParseException]. *)
Class Scanid : Type := {
  ident : Type;
  scanid_parse : string → option ident;
  scanid_parse_filename : string → option (ident * string * string * string);
  scanid_is_phantom : string → bool;
  ident_str : ident → string;
  ident_site : ident → string;
  ident_session : ident → option string;
  get_full_subjectid_with_timepoint : ident → string;
  get_full_subjectid_with_timepoint_session : ident → string
}.

(** The order in which a [for key in d] loop visits a dictionary is some
  enumeration of its items; [stack_depth] is the number of nested calls the
  interpreter still allows when an update function reaches
  [write_metadata]. *)
Class Interpreter : Type := {
  dict_items : gmap string string → list (string * string);
  dict_items_perm : ∀ d, dict_items d ≡ₚ map_to_list d;
  stack_depth : nat
}.

Module Utils.

(** [datman.config], as [datman.utils] uses it. *)
Class Config : Type := {
  cfg : Type;
  datman_config : option string → res cfg;
  get_path : cfg → string → res string
}.

(** [dashboard.dash_found], and the dashboard-backed halves of the four entry
  points, whose callees ([dashboard.get_session], [get_project],
  [get_subject], [get_scan], [get_default_user]) are not in the sources. *)
Class DashBackend `{Config} : Type := {
  dash_found : bool;
  _fetch_checklist : option string → option string → option cfg → M meta_value;
  _fetch_blacklist :
    option string → option string → option string → option cfg → M meta_value;
  _update_qc_reviewers : gmap string string → M unit;
  _update_scan_checklist : gmap string string → M unit
}.

Section Utils.

Context `{Scanid} `{DashBackend} `{Interpreter}.

Definition locate_metadata (filename : string) (study subject : option string)
    (config : option cfg) (path : option string) : M string :=
  if negb (Py.otruthy path || Py.otruthy study || bool_decide (is_Some config)
           || Py.otruthy subject)
  then raise (MetadataException
         ("Can't locate metadata file " +:+ filename +:+ " without either "
          +:+ "1) a full path to the file 2) a study or subject ID or "
          +:+ "3) a datman.config object"))
  else
    if Py.otruthy path then mret (default "" path)
    else
      config ← match config with
               | Some c => mret c
               | None =>
                   let given_study :=
                     if Py.otruthy subject then subject else study in
                   lift (datman_config given_study)
               end;
      meta ← lift (get_path config "meta");
      mret (Py.path_join meta filename).

(** The loop of [_parse_checklist] over the lines still to be read. *)
Fixpoint parse_checklist_lines (lines : list string) (subject : option string)
    (entries : option (gmap string string)) : M meta_value :=
  match lines with
  | [] => mret (match entries with Some d => Entries d | None => PyNone end)
  | line :: rest =>
      match Py.split line with
      | [] => parse_checklist_lines rest subject entries
      | field0 :: fields =>
          let subid := (Py.splitext (Py.replace field0 "qc_" "")).1 in
          match scanid_parse subid with
          | None =>
              log_error ("Found malformed subject ID " +:+ subid
                         +:+ " in checklist. Ignoring.");;
              parse_checklist_lines rest subject entries
          | Some _ =>
              if match entries with
                 | Some d => dict_truthy d && bool_decide (is_Some (d !! subid))
                 | None => false
                 end
              then
                log_info ("Found duplicate checklist entries for " +:+ subid
                          +:+ ". Ignoring all except the first entry found.");;
                parse_checklist_lines rest subject entries
              else
                let comment := Py.strip (Py.join " " fields) in
                if Py.otruthy subject then
                  if bool_decide (Some subid ≠ subject)
                  then parse_checklist_lines rest subject entries
                  else mret (Comment comment)
                else
                  match entries with
                  | Some d =>
                      parse_checklist_lines rest subject (Some (<[subid := comment]> d))
                  | None =>
                      raise (TypeError
                        "'NoneType' object does not support item assignment")
                  end
          end
      end
  end.

Definition _parse_checklist (checklist : string) (subject : option string)
    : M meta_value :=
  let entries := if Py.otruthy subject then None else Some ∅ in
  parse_checklist_lines (Py.readlines checklist) subject entries.

Definition read_checklist (study subject : option string) (config : option cfg)
    (path : option string) : M meta_value :=
  if negb (Py.otruthy study || Py.otruthy subject || bool_decide (is_Some config)
           || Py.otruthy path)
  then raise (MetadataException
         ("Can't read dashboard checklist "
          +:+ "contents without either 1) a subject or study ID 2) a "
          +:+ "datman.config object or 3) a full path to the checklist"))
  else
    ident ← (if Py.otruthy subject
             then match scanid_parse (default "" subject) with
                  | Some i => mret (Some i)
                  | None => raise ParseException
                  end
             else mret None);
    if dash_found && negb (Py.otruthy path) then
      let subject :=
        match ident with
        | Some i => Some (get_full_subjectid_with_timepoint_session i)
        | None => subject
        end in
      try_except (_fetch_checklist subject study config)
        (λ e, raise (MetadataException
           ("Can't retrieve checklist information "
            +:+ "from dashboard database. Reason - " +:+ exn_str e)))
    else
      log_info ("Dashboard not found, attempting to find a checklist "
                +:+ "metadata file instead.");;
      checklist_path ← locate_metadata "checklist.csv" study subject config path;
      let subject :=
        match ident with
        | Some i => Some (get_full_subjectid_with_timepoint i)
        | None => subject
        end in
      try_except
        (checklist ← open_read checklist_path;
         _parse_checklist checklist subject)
        (λ e, raise (MetadataException
           ("Failed to read checklist file "
            +:+ checklist_path +:+ ". Reason - " +:+ exn_str e))).

(** [write_metadata(lines, path, retry=3)].  The function retries by calling
    itself; [depth] is the number of nested calls the interpreter still
    allows. *)
Fixpoint write_metadata (depth : nat) (lines : list string) (path : string)
    (retry : Z) : M unit :=
  match depth with
  | O => raise RecursionError
  | S depth' =>
      if bool_decide (retry = 0)
      then raise (MetadataException ("Failed to update " +:+ path))
      else
        ok ← open_write path lines;
        if ok : bool then mret ()
        else
          log_error ("Failed to write metadata file " +:+ path
                     +:+ ". Tries remaining - " +:+ pretty retry);;
          wait_time ← random_uniform;
          sleep wait_time;;
          write_metadata depth' lines path (retry - 1)
  end.

(** The default value of [retry]. *)
Definition default_retry : Z := 3.

(** The merge loop of [update_checklist]; [todo] is what [for subject in
    entries] has still to visit.  Note that [entries] is looked up under the
    re-formatted subject ID. *)
Fixpoint merge_checklist (todo : list (string * string))
    (entries old_entries : gmap string string) : res (gmap string string) :=
  match todo with
  | [] => Ok old_entries
  | (subject, _) :: rest =>
      match scanid_parse subject with
      | None =>
          Raise (MetadataException
            ("Attempt to add invalid subject ID " +:+ subject +:+ " to "
             +:+ "QC checklist"))
      | Some ident =>
          let subject := get_full_subjectid_with_timepoint ident in
          match entries !! subject with
          | None => Raise (KeyError subject)
          | Some comment =>
              merge_checklist rest entries (<[subject := comment]> old_entries)
          end
      end
  end.

Definition checklist_line (item : string * string) : string :=
  "qc_" +:+ item.1 +:+ ".html " +:+ item.2 +:+ "
".

Definition update_checklist (entries : gmap string string)
    (study : option string) (config : option cfg) (path : option string)
    : M unit :=
  if dash_found && negb (Py.otruthy path) then _update_qc_reviewers entries
  else
    checklist_path ← locate_metadata "checklist.csv" study None config path;
    old ← read_checklist None None None (Some checklist_path);
    match old with
    | Entries old_entries =>
        old_entries ← lift (merge_checklist (dict_items entries) entries old_entries);
        let lines := checklist_line <$> dict_items old_entries in
        write_metadata stack_depth (Py.sorted lines) checklist_path default_retry
    | _ => raise (TypeError "object does not support item assignment")
    end.

(** The loop of [_parse_blacklist]. *)
Fixpoint parse_blacklist_lines (lines : list string) (scan subject : option string)
    (entries : option (gmap string string)) : M meta_value :=
  match lines with
  | [] => mret (match entries with Some d => Entries d | None => PyNone end)
  | line :: rest =>
      match Py.re_split (Py.strip line) with
      | [] =>
          (* [re.split] never returns an empty list *)
          log_info ("Ignoring malformed line: " +:+ line);;
          parse_blacklist_lines rest scan subject entries
      | scan_name :: comment =>
          match scanid_parse_filename scan_name with
          | None =>
              log_info ("Ignoring malformed line: " +:+ line);;
              parse_blacklist_lines rest scan subject entries
          | Some _ =>
              let comment := Py.strip (Py.join " " comment) in
              if String.eqb scan_name "series"
              then parse_blacklist_lines rest scan subject entries
              else if Py.otruthy scan then
                if bool_decide (Some scan_name = scan)
                then mret (Comment comment)
                else parse_blacklist_lines rest scan subject entries
              else if Py.otruthy subject
                      && negb (Py.startswith scan_name (default "" subject))
              then parse_blacklist_lines rest scan subject entries
              else if match entries with
                      | Some d => dict_truthy d && bool_decide (is_Some (d !! scan_name))
                      | None => false
                      end
              then
                log_info ("Found duplicate blacklist entries for " +:+ scan_name
                          +:+ ". Ignoring all except the first entry found.");;
                parse_blacklist_lines rest scan subject entries
              else
                match entries with
                | Some d =>
                    parse_blacklist_lines rest scan subject
                      (Some (<[scan_name := comment]> d))
                | None =>
                    raise (TypeError
                      "'NoneType' object does not support item assignment")
                end
          end
      end
  end.

Definition _parse_blacklist (blacklist : string) (scan subject : option string)
    : M meta_value :=
  let entries := if Py.otruthy scan then None else Some ∅ in
  parse_blacklist_lines (Py.readlines blacklist) scan subject entries.

Definition read_blacklist (study scan subject : option string)
    (config : option cfg) (path : option string) : M meta_value :=
  if dash_found && negb (Py.otruthy path)
  then _fetch_blacklist scan subject study config
  else
    let continue_with (scan tmp_sub : option string) : M meta_value :=
      blacklist_path ← locate_metadata "blacklist.csv" study tmp_sub config path;
      try_except
        (blacklist ← open_read blacklist_path;
         _parse_blacklist blacklist scan subject)
        (λ e, raise (MetadataException
           ("Failed to read checklist file " +:+ blacklist_path
            +:+ ". Reason - " +:+ exn_str e))) in
    if Py.otruthy scan then
      match scanid_parse_filename (default "" scan) with
      | None =>
          log_error ("Invalid scan name: " +:+ default "" scan);;
          mret PyNone
      | Some (ident, tag, series, descr) =>
          let tmp_sub := get_full_subjectid_with_timepoint_session ident in
          let scan := Py.join "_" [ident_str ident; tag; series; descr] in
          continue_with (Some scan) (Some tmp_sub)
      end
    else continue_with scan subject.

(** The merge loop of [update_blacklist]. *)
Fixpoint merge_blacklist (todo : list (string * string))
    (old_entries : gmap string string) : M (gmap string string) :=
  match todo with
  | [] => mret old_entries
  | (scan_name, reason) :: rest =>
      match scanid_parse_filename scan_name with
      | None =>
          raise (MetadataException
            ("Attempt to add invalid scan name " +:+ scan_name +:+ " "
             +:+ "to blacklist"))
      | Some _ =>
          if negb (Py.truthy reason) then
            log_error ("Can't add blacklist entry with empty comment. "
                       +:+ "Skipping " +:+ scan_name);;
            merge_blacklist rest old_entries
          else merge_blacklist rest (<[scan_name := reason]> old_entries)
      end
  end.

Definition blacklist_line (item : string * string) : string :=
  item.1 +:+ " " +:+ item.2 +:+ "
".

Definition blacklist_header : string := "series" +:+ String "009" "reason
".

Definition update_blacklist (entries : gmap string string)
    (study : option string) (config : option cfg) (path : option string)
    : M unit :=
  if dash_found && negb (Py.otruthy path) then _update_scan_checklist entries
  else
    blacklist_path ← locate_metadata "blacklist.csv" study None config path;
    old ← read_blacklist None None None None (Some blacklist_path);
    match old with
    | Entries old_entries =>
        old_entries ← merge_blacklist (dict_items entries) old_entries;
        let lines := blacklist_line <$> dict_items old_entries in
        let new_list := blacklist_header :: Py.sorted lines in
        write_metadata stack_depth new_list blacklist_path default_retry
    | _ => raise (TypeError "object does not support item assignment")
    end.

(** The loop of [get_subject_metadata] over the blacklisted scan names. *)
Fixpoint collect_blacklisted (todo : list (string * string))
    (all_qc : gmap string (list string)) : M (gmap string (list string)) :=
  match todo with
  | [] => mret all_qc
  | (bl_entry, _) :: rest =>
      match scanid_parse_filename bl_entry with
      | None =>
          log_error ("Malformed scan name " +:+ bl_entry +:+ " found in blacklist. "
                     +:+ "Ignoring.");;
          collect_blacklisted rest all_qc
      | Some (ident, _, _, _) =>
          let subid := get_full_subjectid_with_timepoint ident in
          match all_qc !! subid with
          | None =>
              log_error (subid +:+ " has blacklisted series " +:+ bl_entry
                         +:+ " but does not "
                         +:+ "appear in QC checklist. Ignoring blacklist entry");;
              collect_blacklisted rest all_qc
          | Some scans =>
              collect_blacklisted rest (<[subid := scans ++ [bl_entry]]> all_qc)
          end
      end
  end.

(** [{subid: [] for subid in checklist if checklist[subid]}]. *)
Definition signed_off (checklist : gmap string string) : gmap string (list string) :=
  (λ _, []) <$> filter (λ kv, Py.truthy kv.2 = true) checklist.

Definition get_subject_metadata (config : option cfg) (study : option string)
    : M (gmap string (list string)) :=
  config ← match config with
           | Some c => mret c
           | None =>
               if negb (Py.otruthy study)
               then raise (MetadataException
                      ("A study name or config object must be "
                       +:+ "given to locate study metadata."))
               else lift (datman_config study)
           end;
  checklist ← read_checklist None None (Some config) None;
  blacklist ← read_blacklist None None None (Some config) None;
  match checklist, blacklist with
  | Entries checklist, Entries blacklist =>
      collect_blacklisted (dict_items blacklist) (signed_off checklist)
  | _, _ => raise (TypeError "object is not iterable")
  end.

End Utils.

(** *** File names and paths *)

Definition get_extension (path : string) : string :=
  if Py.endswith path ".tar.gz" then ".tar.gz"
  else if Py.endswith path ".nii.gz" then ".nii.gz"
  else (Py.splitext path).2.

(** The loop of [splitext] over the special extensions. *)
Fixpoint splitext_special (exts : list string) (path : string) : string * string :=
  match exts with
  | [] => Py.splitext path
  | ext :: rest =>
      if Py.endswith path ext
      then (Py.drop_end (String.length ext) path, Py.take_end (String.length ext) path)
      else splitext_special rest path
  end.
Definition splitext (path : string) : string * string :=
  splitext_special [".nii.gz"; ".mnc.gz"] path.

(** The test of [filter_niftis], and the function. *)
Definition named_nifti (x : string) : bool :=
  String.eqb "nii.gz" (Py.join "." (tail (Py.split_sep "." x)))
  || String.eqb "nii" (Py.join "." (tail (Py.split_sep "." x))).
Definition filter_niftis (candidates : list string) : list string :=
  filter (λ x, named_nifti x = true) candidates.

(** The loop of [split_path]; [None] when [fuel] rounds were not enough.
    Every round but the last takes at least one byte off [dirname], so one
    round more than the path has bytes is enough. *)
Fixpoint split_path_loop (fuel : nat) (dirname : string) (path_split : list string)
    : option (list string) :=
  match fuel with
  | O => None
  | S fuel' =>
      let '(dirname, leaf) := Py.os_path_split dirname in
      if Py.truthy leaf then split_path_loop fuel' dirname (leaf :: path_split)
      else Some path_split
  end.
Definition split_path (path : string) : option (list string) :=
  split_path_loop (S (String.length path)) path [].

(** *** What the statements about [datman.utils] speak about *)

(** Nothing but the log differs between two worlds. *)
Definition same_files (w w' : world) : Prop :=
  files w' = files w ∧ io w' = io w ∧ waits w' = waits w.

(** The events of [n] failed attempts of [write_metadata] in a row, the first
  with [retry] tries remaining. *)
Fixpoint failed_attempts (path : string) (retry : Z) (waits : list nat) (n : nat)
    : list event :=
  match n with
  | O => []
  | S n =>
      [EvWrite path false;
       EvLog "ERROR" ("Failed to write metadata file " +:+ path
                      +:+ ". Tries remaining - " +:+ pretty retry);
       EvSleep (default 0%nat (head waits))]
      ++ failed_attempts path (retry - 1) (tail waits) n
  end.

Definition write_attempts (tr : list event) : list bool :=
  omap (λ e, match e with EvWrite _ ok => Some ok | _ => None end) tr.
Definition sleeps (tr : list event) : list nat :=
  omap (λ e, match e with EvSleep t => Some t | _ => None end) tr.

(** The blacklist after an update: the entries of the delta that have a
  reason, over the old ones. *)
Definition blacklist_merge (entries old : gmap string string) : gmap string string :=
  filter (λ kv, Py.truthy kv.2 = true) entries ∪ old.

Definition skip_message (scan_name : string) : event :=
  EvLog "ERROR" ("Can't add blacklist entry with empty comment. "
                 +:+ "Skipping " +:+ scan_name).



(** A comment the reader hands back unchanged: words separated by single
  spaces. *)
Definition normalized (c : string) : bool :=
  String.eqb (Py.strip (Py.join " " (Py.split c))) c.


(** The non-empty fields between the slashes of a path. *)
Definition components (p : string) : list string :=
  filter (λ s, Py.truthy s = true) (Py.split_sep "/" p).

(** What a look-up of one key gives for the dictionary [d] of the file. *)
Definition comment_of (d : gmap string string) (k : string) : meta_value :=
  match d !! k with
  | Some c => Comment c
  | None => PyNone
  end.

Section Observations.

Context `{Scanid}.


(** What [_parse_checklist] puts in a dictionary. *)
Definition entry_ok (old : gmap string string) : Prop :=
  ∀ k v, old !! k = Some v → is_Some (scanid_parse k) ∧ normalized v = true.


(** The subject a blacklisted scan name belongs to. *)
Definition subject_of (bl_entry : string) : option string :=
  match scanid_parse_filename bl_entry with
  | Some (i, _, _, _) => Some (get_full_subjectid_with_timepoint i)
  | None => None
  end.

Definition malformed_message (bl_entry : string) : event :=
  EvLog "ERROR" ("Malformed scan name " +:+ bl_entry +:+ " found in blacklist. "
                 +:+ "Ignoring.").
Definition orphan_message (subid bl_entry : string) : event :=
  EvLog "ERROR" (subid +:+ " has blacklisted series " +:+ bl_entry
                 +:+ " but does not "
                 +:+ "appear in QC checklist. Ignoring blacklist entry").

(** What the loop of [get_subject_metadata] logs for one blacklist entry. *)
Definition complaint (all_qc : gmap string (list string)) (bl_entry : string)
    : option event :=
  match subject_of bl_entry with
  | None => Some (malformed_message bl_entry)
  | Some subid =>
      match all_qc !! subid with
      | None => Some (orphan_message subid bl_entry)
      | Some _ => None
      end
  end.

(** The scan names of [todo] that belong to [subid], in order. *)
Definition scans_of (todo : list string) (subid : string) : list string :=
  filter (λ e, subject_of e = Some subid) todo.

End Observations.

End Utils.

(** ** datman/dashboard.py: sessions, scans and their links *)

Module Dashboard.

Record datetime : Type := { year : Z; month : Z; day : Z }.

(** The [date] local of [get_add_session]: [None], the string it was given,
    or the [datetime] made from it. *)
Inductive pydate : Type :=
  | DateNone
  | DateStr (s : string)
  | DateTime (d : datetime).

Record Site : Type := { site_name : string }.
Record ScanType : Type := { scantype_name : string }.
Record Study : Type := {
  study_id : Z;
  nickname : string;
  sites : list Site;
  scantypes : list ScanType
}.
Record Session : Type := {
  session_id : option Z;
  session_name : string;
  session_study : Z;
  session_site : option Site;
  session_date : pydate;
  is_repeated : option bool;
  repeat_count : option Z;
  is_phantom : option bool;
  cl_comment : option string
}.
Record Scan : Type := {
  scan_id : option Z;
  scan_name : string;
  series_number : option string;
  scantype : option ScanType;
  description : option string;
  repeat_number : option Z;
  bl_comment : option string
}.
Record Session_Scan : Type := {
  link_scan_id : option Z;
  link_session_id : option Z;
  is_primary : option bool;
  link_scan_name : option string
}.

Global Instance datetime_eq_dec : EqDecision datetime.
Proof. solve_decision. Defined.
Global Instance pydate_eq_dec : EqDecision pydate.
Proof. solve_decision. Defined.
Global Instance Site_eq_dec : EqDecision Site.
Proof. solve_decision. Defined.
Global Instance ScanType_eq_dec : EqDecision ScanType.
Proof. solve_decision. Defined.
Global Instance Session_eq_dec : EqDecision Session.
Proof. solve_decision. Defined.
Global Instance Scan_eq_dec : EqDecision Scan.
Proof. solve_decision. Defined.
Global Instance Session_Scan_eq_dec : EqDecision Session_Scan.
Proof. solve_decision. Defined.

(** The rows of the database, the outcome of the coming flushes and commits
    (past the end of the list they succeed), the next primary key, and the
    log. *)
Record db : Type := Db {
  studies : list Study;
  sessions : list Session;
  scans : list Scan;
  links : list Session_Scan;
  scantype_rows : list ScanType;
  db_ok : list bool;
  next_id : Z;
  dlog : list (string * string)
}.

Abbreviation D := (St db).

Definition log (level msg : string) : D unit := λ w,
  (Ok (), Db (studies w) (sessions w) (scans w) (links w) (scantype_rows w)
             (db_ok w) (next_id w) (dlog w ++ [(level, msg)])).

(** One flush or commit: the oracle says whether the database accepts it. *)
Definition db_attempt : D bool := λ w,
  match db_ok w with
  | [] => (Ok true, w)
  | ok :: rest =>
      (Ok ok, Db (studies w) (sessions w) (scans w) (links w) (scantype_rows w)
                 rest (next_id w) (dlog w))
  end.

(** A fresh primary key. *)
Definition fresh_id : D Z := λ w,
  (Ok (next_id w),
   Db (studies w) (sessions w) (scans w) (links w) (scantype_rows w)
      (db_ok w) (next_id w + 1) (dlog w)).

Definition get_db : D db := λ w, (Ok w, w).

(** Write a row: replace the row with the same primary key, or append. *)
Definition upsert {A} (key : A → option Z) (row : A) (rows : list A) : list A :=
  if bool_decide (Exists (λ r, key r = key row ∧ is_Some (key row)) rows)
  then (λ r, if bool_decide (key r = key row) then row else r) <$> rows
  else rows ++ [row].

Definition put_session (s : Session) : D unit := λ w,
  (Ok (), Db (studies w) (upsert session_id s (sessions w)) (scans w) (links w)
             (scantype_rows w) (db_ok w) (next_id w) (dlog w)).
Definition put_scan (s : Scan) : D unit := λ w,
  (Ok (), Db (studies w) (sessions w) (upsert scan_id s (scans w)) (links w)
             (scantype_rows w) (db_ok w) (next_id w) (dlog w)).
Definition put_link (l : Session_Scan) : D unit := λ w,
  (Ok (), Db (studies w) (sessions w) (scans w) (links w ++ [l])
             (scantype_rows w) (db_ok w) (next_id w) (dlog w)).

(** [db.session.commit()] of the changes made since the last commit: all of
    them are written, or the commit raises and none is. *)
Definition commit (changes : D unit) : D unit :=
  ok ← db_attempt;
  if ok : bool then changes
  else raise (IOError "sqlalchemy.exc.SQLAlchemyError").

(** What [get_add_session] hands back: a session, [None], or (when no study
    is set) the exception object it returns instead of raising. *)
Inductive session_ret : Type :=
  | RetSession (s : Session)
  | RetNone
  | RetException (e : exn).

Definition pydate_truthy (d : pydate) : bool :=
  match d with
  | DateNone => false
  | DateStr s => Py.truthy s
  | DateTime _ => true
  end.

Definition set_session_date (d : pydate) (s : Session) : Session :=
  {| session_id := session_id s; session_name := session_name s;
     session_study := session_study s; session_site := session_site s;
     session_date := d; is_repeated := is_repeated s;
     repeat_count := repeat_count s; is_phantom := is_phantom s;
     cl_comment := cl_comment s |}.
Definition set_session_id (i : Z) (s : Session) : Session :=
  {| session_id := Some i; session_name := session_name s;
     session_study := session_study s; session_site := session_site s;
     session_date := session_date s; is_repeated := is_repeated s;
     repeat_count := repeat_count s; is_phantom := is_phantom s;
     cl_comment := cl_comment s |}.
Definition set_cl_comment (c : option string) (s : Session) : Session :=
  {| session_id := session_id s; session_name := session_name s;
     session_study := session_study s; session_site := session_site s;
     session_date := session_date s; is_repeated := is_repeated s;
     repeat_count := repeat_count s; is_phantom := is_phantom s;
     cl_comment := c |}.
Definition set_scan_id (i : Z) (s : Scan) : Scan :=
  {| scan_id := Some i; scan_name := scan_name s;
     series_number := series_number s; scantype := scantype s;
     description := description s; repeat_number := repeat_number s;
     bl_comment := bl_comment s |}.
Definition set_bl_comment (c : option string) (s : Scan) : Scan :=
  {| scan_id := scan_id s; scan_name := scan_name s;
     series_number := series_number s; scantype := scantype s;
     description := description s; repeat_number := repeat_number s;
     bl_comment := c |}.

(** ['{}'.format(x)] for an optional string. *)
Definition fmt_opt (o : option string) : string := default "None" o.

(** Where the first half of [get_add_session] ends: with an early [return],
    or at the checklist check with [dashboard_session] bound or not. *)
Inductive flow : Type :=
  | Return (r : session_ret)
  | Continue (dashboard_session : option Session).

(** [int], [datetime] and the two checks of [datman.utils] the class calls. *)
Class DashEnv : Type := {
  py_int : string → option Z;
  strptime : string → option datetime;
  strftime : datetime → string;
  check_checklist : string → string → res (option string);
  check_blacklist : string → string → res (option string)
}.

Section Dashboard.

Context `{Scanid} `{DashEnv}.

(** [Session.query.filter(Session.study == study).filter(Session.name == name)]. *)
Definition session_query (w : db) (study : Study) (name : string) : list Session :=
  filter (λ s, session_study s = study_id study ∧ session_name s = name) (sessions w).

(** [db.session.commit()] in [get_add_session]: the session object, if there
    is one, is written with the attributes it has by now; a new one gets its
    primary key. *)
Definition commit_session (dashboard_session : option Session) : D (option Session) :=
  ok ← db_attempt;
  if ok : bool then
    match dashboard_session with
    | None => mret None
    | Some s =>
        s ← match session_id s with
            | Some _ => mret s
            | None => i ← fresh_id; mret (set_session_id i s)
            end;
        put_session s;;
        mret (Some s)
    end
  else raise (IOError "sqlalchemy.exc.SQLAlchemyError").

Definition get_add_session (self_study : option Study) (session_name : string)
    (date : option string) (create : bool) : D session_ret :=
  match self_study with
  | None =>
      log "ERROR" "Study not set";;
      mret (RetException (DashboardException "Study not set"))
  | Some study =>
  match scanid_parse session_name with
  | None =>
      log "ERROR" ("Invalid session:" +:+ session_name);;
      raise (DashboardException ("Invalid session name:" +:+ session_name))
  | Some ident =>
  let dashboard_site :=
    filter (λ site, site_name site = ident_site ident) (sites study) in
  match dashboard_site with
  | [] =>
      log "ERROR" ("Invalid site:" +:+ ident_site ident +:+ " in session:"
                   +:+ session_name);;
      raise (DashboardException "Invalid site")
  | site0 :: _ =>
  date ← (if Py.otruthy date then
            match strptime (default "" date) with
            | Some d => mret (DateTime d)
            | None =>
                log "ERROR" ("Invalid date:" +:+ default "" date +:+ " for session:"
                             +:+ session_name);;
                raise (DashboardException "Invalid date")
            end
          else mret (match date with Some s => DateStr s | None => DateNone end));
  w ← get_db;
  let qry := session_query w study session_name in
  fl ←
    (if bool_decide (length qry = 1%nat) then
       log "INFO" ("Found session:" +:+ session_name);;
       match head qry with
       | None => mret (Continue None)
       | Some dashboard_session =>
           if pydate_truthy date then
             db_session_date ←
               match session_date dashboard_session with
               | DateTime d => mret (strftime d)
               | _ =>
                   log "DEBUG" ("Failed parsing db_date for session:"
                                +:+ session_name);;
                   mret ""
               end;
             xnat_session_date ←
               match date with
               | DateTime d => mret (strftime d)
               | _ =>
                   log "DEBUG" "Failed parsing xnat date for session";;
                   mret ""
               end;
             if negb (String.eqb db_session_date xnat_session_date) then
               log "DEBUG" ("Updating date for session:" +:+ session_name);;
               mret (Continue (Some (set_session_date date dashboard_session)))
             else mret (Continue (Some dashboard_session))
           else mret (Continue (Some dashboard_session))
       end
     else if bool_decide (length qry < 1)%nat then
       log "INFO" ("Session:" +:+ session_name +:+ " doesnt exist");;
       if create then
         log "DEBUG" ("Creating session:" +:+ session_name);;
         mret (Continue (Some
           {| session_id := None; session_name := session_name;
              session_study := study_id study; session_site := Some site0;
              session_date := date; is_repeated := Some false;
              repeat_count := Some 1;
              is_phantom :=
                if scanid_is_phantom session_name then Some true else None;
              cl_comment := None |}))
       else mret (Return RetNone)
     else mret (Continue None));
  match fl with
  | Return r => mret r
  | Continue dashboard_session =>
      (* check for checklist comments; [None] is an unbound [cl_comment] *)
      cl ← match check_checklist session_name (nickname study) with
           | Ok c => mret (Some c)
           | Raise (ValueError m) =>
               log "ERROR" ("Failed to check checklist for session:"
                            +:+ session_name +:+ " with error:" +:+ m);;
               mret None
           | Raise e => raise e
           end;
      dashboard_session ←
        match cl with
        | None => raise (UnboundLocalError "cl_comment")
        | Some c =>
            if Py.otruthy c then
              match dashboard_session with
              | None => raise (UnboundLocalError "dashboard_session")
              | Some s =>
                  if bool_decide (c ≠ cl_comment s)
                  then mret (Some (set_cl_comment c s))
                  else mret (Some s)
              end
            else mret dashboard_session
        end;
      committed ←
        try_except
          (s ← commit_session dashboard_session; mret (Some s))
          (λ e,
             log "ERROR" ("An error occured adding session:" +:+ session_name
                          +:+ " to the database Error:" +:+ exn_str e);;
             mret None);
      match committed with
      | None => mret RetNone
      | Some None => raise (UnboundLocalError "dashboard_session")
      | Some (Some s) => mret (RetSession s)
      end
  end
  end end end.

Definition get_scantype (scantype : string) : D ScanType :=
  w ← get_db;
  let qry := filter (λ t, scantype_name t = scantype) (scantype_rows w) in
  match qry with
  | [] =>
      log "ERROR" ("Scantype:" +:+ scantype +:+ " not found in database");;
      raise (DashboardException "Invalid scantype")
  | t :: _ => mret t
  end.

(** The query of [get_add_scan]: [Scan] joined with [Session_Scan],
    [Session] and [Study], one row for every matching combination. *)
Definition scan_query (w : db) (session : string) (study_nickname : string)
    (name : string) (repeat : option Z) : list Scan :=
  scan ← scans w;
  link ← links w;
  sess ← sessions w;
  study ← studies w;
  if bool_decide (is_Some (scan_id scan) ∧ link_scan_id link = scan_id scan
                  ∧ is_Some (session_id sess)
                  ∧ link_session_id link = session_id sess
                  ∧ session_study sess = study_id study
                  ∧ session_name sess = session
                  ∧ nickname study = study_nickname
                  ∧ scan_name scan = name
                  ∧ (repeat = None ∨ repeat_number scan = repeat))
  then [scan] else [].

(** The reconciliation of the blacklist comment at the end of
    [get_add_scan]; [None] is an unbound [bl_comment]. *)
Definition reconcile_blacklist (bl : option (option string))
    (dashboard_scan : Scan) : D Scan :=
  match bl with
  | None => raise (UnboundLocalError "bl_comment")
  | Some comment =>
      if negb (Py.otruthy comment)
         && negb (bool_decide (comment = bl_comment dashboard_scan))
      then
        (* this shouldn't happen but is possible *)
        log "ERROR" ("Scan:" +:+ scan_name dashboard_scan
                     +:+ " has a blacklist comment in dashboard db"
                     +:+ " which is not present in metadata/blacklist.csv."
                     +:+ " Comment:" +:+ fmt_opt (bl_comment dashboard_scan));;
        mret dashboard_scan
      else if Py.otruthy comment
              && negb (bool_decide (comment = bl_comment dashboard_scan))
      then mret (set_bl_comment comment dashboard_scan)
      else mret dashboard_scan
  end.

(** [int(ident.session)] when [ident.session] is true, for the filter on
  [Scan.repeat_number] and for the new scan. *)
Definition scan_repeat (i : ident) : res (option Z) :=
  match ident_session i with
  | Some sess =>
      if Py.truthy sess then
        match py_int sess with
        | Some n => Ok (Some n)
        | None => Raise (ValueError "invalid literal for int()")
        end
      else Ok None
  | None => Ok None
  end.

Definition get_add_scan (self_study : option Study) (scan_name : string)
    (create : bool) : D (option Scan) :=
  match self_study with
  | None =>
      log "ERROR" "Study not set";;
      raise (DashboardException "Study not set")
  | Some study =>
  match scanid_parse_filename scan_name with
  | None =>
      log "ERROR" ("Invalid scan name:" +:+ scan_name);;
      raise (DashboardException "Invalid scan_name")
  | Some (ident, tag, series, desc) =>
  let scan_id := ident_str ident +:+ "_" +:+ tag +:+ "_" +:+ series in
  let session_name := get_full_subjectid_with_timepoint ident in
  repeat ← lift (scan_repeat ident);
  w ← get_db;
  let qry := scan_query w session_name (nickname study) scan_id repeat in
  (* the scan object, and the link to add with it when it is new *)
  found ←
    ((if bool_decide (length qry = 1%nat) then
       log "DEBUG" ("Found scan:" +:+ scan_name +:+ " in database");;
       mret (option_map (λ sc, (sc, None)) (head qry))
     else if bool_decide (1 < length qry)%nat then
       log "ERROR" ("Scan:" +:+ scan_name
                    +:+ " was not uniquely identified in the database");;
       raise (DashboardException "Scan not unique")
     else if negb create then
       log "INFO" ("Scan:" +:+ scan_name
                   +:+ " not found but create is false, skipping");;
       mret None
     else
       dashboard_session ← get_add_session self_study session_name None create;
       dashboard_scantype ← get_scantype tag;
       if negb (bool_decide (dashboard_scantype ∈ scantypes study)) then
         log "ERROR" ("Scantype:" +:+ scantype_name dashboard_scantype
                      +:+ " not valid for study:" +:+ nickname study);;
         raise (DashboardException "Invalid scantype")
       else
         let dashboard_scan :=
           {| Dashboard.scan_id := None; Dashboard.scan_name := scan_id;
              series_number := Some series;
              scantype := Some dashboard_scantype;
              description := Some desc; repeat_number := repeat;
              bl_comment := None |} in
         (* db.session.flush() gives the scan its primary key *)
         ok ← db_attempt;
         if negb ok then raise (IOError "sqlalchemy.exc.SQLAlchemyError")
         else
           i ← fresh_id;
           let dashboard_scan := set_scan_id i dashboard_scan in
           match dashboard_session with
           | RetSession sess =>
               mret (Some (dashboard_scan,
                 Some {| link_scan_id := Dashboard.scan_id dashboard_scan;
                         link_session_id := session_id sess;
                         (* Anything entered this way is a primary scan *)
                         is_primary := Some true;
                         link_scan_name := Some scan_id |}))
           | RetNone =>
               raise (AttributeError "'NoneType' object has no attribute 'id'")
           | RetException _ =>
               raise (AttributeError
                 "'DashboardException' object has no attribute 'id'")
           end) : D (option (Scan * option Session_Scan)));
  match found with
  | None => mret None
  | Some (dashboard_scan, new_link) =>
      (* finally check the blacklist *)
      bl ← match check_blacklist scan_name (nickname study) with
           | Ok c => mret (Some c)
           | Raise (ValueError m) =>
               log "ERROR" ("Failed to check blacklist for scan:" +:+ scan_name
                            +:+ " with error:" +:+ m);;
               mret None
           | Raise e => raise e
           end;
      dashboard_scan ←
        try_except
          (dashboard_scan ← reconcile_blacklist bl dashboard_scan;
           commit (put_scan dashboard_scan;;
                   match new_link with
                   | Some l => put_link l
                   | None => mret ()
                   end);;
           mret dashboard_scan)
          (λ e,
             log "ERROR" ("An error occured adding scan:" +:+ scan_name
                          +:+ " to the db.Error:" +:+ exn_str e);;
             raise (DashboardException ""));
      mret (Some dashboard_scan)
  end
  end end.

(** [Session_Scan.query.filter(Session_Scan.session == target_session,
    Session_Scan.scan == scan)]. *)
Definition link_query (w : db) (target_session : Session) (scan : Scan)
    : list Session_Scan :=
  filter (λ l, link_session_id l = session_id target_session
               ∧ is_Some (session_id target_session)
               ∧ link_scan_id l = scan_id scan ∧ is_Some (scan_id scan))
         (links w).

Definition get_add_session_scan_link (target_session : Session) (scan : Scan)
    (new_name : option string) (is_primary : bool) : D Session_Scan :=
  w ← get_db;
  let qry := link_query w target_session scan in
  match (if bool_decide (length qry = 1%nat) then head qry else None) with
  | Some l => mret l
  | None =>
      let link :=
        {| link_scan_id := scan_id scan;
           link_session_id := session_id target_session;
           link_scan_name :=
             if Py.otruthy new_name then new_name else Some (scan_name scan);
           Dashboard.is_primary := Some false |} in
      commit (put_link link);;
      mret link
  end.

End Dashboard.

(** *** What the statements about the dashboard speak about *)

(** The complaint about a comment the database has and the blacklist file
  does not. *)
Definition stale_comment_message (sc : Scan) : string * string :=
  ("ERROR", "Scan:" +:+ scan_name sc
       +:+ " has a blacklist comment in dashboard db"
       +:+ " which is not present in metadata/blacklist.csv."
       +:+ " Comment:" +:+ fmt_opt (bl_comment sc)).

(** The tables and the commit oracle of two states are the same. *)
Definition same_rows (w w' : db) : Prop :=
  studies w' = studies w ∧ sessions w' = sessions w ∧ scans w' = scans w
  ∧ links w' = links w ∧ scantype_rows w' = scantype_rows w
  ∧ db_ok w' = db_ok w ∧ next_id w' = next_id w.

(** The scan [get_add_scan] makes, and its link to the session. *)
Definition new_scan (name : string) (series desc : string) (t : ScanType)
    (repeat : option Z) (bl : option string) (i : Z) : Scan :=
  {| scan_id := Some i; scan_name := name; series_number := Some series;
     scantype := Some t; description := Some desc; repeat_number := repeat;
     bl_comment := if Py.otruthy bl then bl else None |}.
Definition primary_link (name : string) (sess : Session) (i : Z) : Session_Scan :=
  {| link_scan_id := Some i; link_session_id := session_id sess;
     is_primary := Some true; link_scan_name := Some name |}.

Section Observations.

Context `{Scanid} `{DashEnv}.

(** The session [get_add_session] makes for a name. *)
Definition new_session (study : Study) (name : string) (site0 : Site) (date : pydate)
    (c : option string) (i : Z) : Session :=
  {| session_id := Some i; session_name := name;
     session_study := study_id study; session_site := Some site0;
     session_date := date; is_repeated := Some false; repeat_count := Some 1;
     is_phantom := if scanid_is_phantom name then Some true else None;
     cl_comment := if Py.otruthy c then c else None |}.

(** The date as [get_add_session] has it after parsing. *)
Definition parsed_date (date : option string) : pydate :=
  if Py.otruthy date
  then match strptime (default "" date) with
       | Some d => DateTime d
       | None => DateNone
       end
  else match date with Some s => DateStr s | None => DateNone end.

End Observations.

End Dashboard.

(** ** bin/dm-proc-enigma.py: the ENIGMA-DTI submission driver *)

Module Enigma.

(** A row of ENIGMA-DTI-checklist.csv; an empty cell is [None]. *)
Record Row : Type := {
  id : string;
  FA_nii : option string;
  date_ran : option string;
  qc_rator : option string;
  qc_rating : option string;
  notes : option string
}.

Definition set_date_ran (d : string) (r : Row) : Row :=
  {| id := id r; FA_nii := FA_nii r; date_ran := Some d;
     qc_rator := qc_rator r; qc_rating := qc_rating r; notes := notes r |}.

(** The docopt arguments [main] reads. *)
Record arguments : Type := {
  arg_study : string;
  arg_config : option string;
  arg_system : option string;
  QC_file : option string;
  arg_FA_tag : option string;
  subject_filter : option string;
  FA_filter : option string;
  CALC_MD : bool;
  CALC_ALL : bool;
  walltime : string;
  walltime_post : string;
  POST_ONLY : bool;
  NO_POST : bool;
  quiet : bool;
  verbose : bool;
  debug : bool;
  DRYRUN : bool
}.

(** What the driver does to the outside world, in order.  [Log] records a
    call to a logger, whatever level is in force; [Exec] is a command handed
    to the shell by [subprocess.Popen]. *)
Inductive effect : Type :=
  | Log (level msg : string)
  | MakeDirs (path : string)
  | Chdir (path : string)
  | MkDTemp (path : string)
  | RmTree (path : string)
  | OpenW (path : string)
  | Write (path text : string)
  | Chmod (path : string) (mode : Z)
  | Exec (cmd : string)
  | ToCsv (path : string) (rows : list Row).

(** Files (path to content), directories, the names [tempfile.mkdtemp] will
    hand out, what the coming shell commands will answer (return code,
    stdout, stderr), and the effects so far, oldest first. *)
Record world : Type := World {
  files : gmap string string;
  dirs : gset string;
  tmp_names : list string;
  answers : list (Z * string * string);
  trace : list effect
}.

Abbreviation E := (St world).

Definition get_world : E world := λ w, (Ok w, w).

Definition emit (e : effect) : E unit := λ w,
  (Ok (), World (files w) (dirs w) (tmp_names w) (answers w) (trace w ++ [e])).

Definition log (level msg : string) : E unit := emit (Log level msg).

(** [os.path.isfile(p)], [os.path.exists(p)]. *)
Definition isfile (p : string) : E bool := λ w,
  (Ok (bool_decide (is_Some (files w !! p))), w).
Definition exists_ (p : string) : E bool := λ w,
  (Ok (bool_decide (is_Some (files w !! p)) || bool_decide (p ∈ dirs w)), w).

(** [os.makedirs(p)]; intermediate directories are not tracked. *)
Definition os_makedirs (p : string) : E unit := λ w,
  (Ok (), World (files w) ({[p]} ∪ dirs w) (tmp_names w) (answers w)
                (trace w ++ [MakeDirs p])).

Definition chdir (p : string) : E unit := emit (Chdir p).

(** [open(p, 'w')] creates or empties the file; [f.write(text)] appends. *)
Definition open_w (p : string) : E unit := λ w,
  (Ok (), World (<[p := ""]> (files w)) (dirs w) (tmp_names w) (answers w)
                (trace w ++ [OpenW p])).
Definition fwrite (p text : string) : E unit := λ w,
  (Ok (), World (<[p := default "" (files w !! p) +:+ text]> (files w)) (dirs w)
                (tmp_names w) (answers w) (trace w ++ [Write p text])).

Definition chmod (p : string) (mode : Z) : E unit := emit (Chmod p mode).

(** [tempfile.mkdtemp()]. *)
Definition next_tmp_name (w : world) : string :=
  match tmp_names w with
  | [] => "/tmp/tmp"
  | n :: _ => n
  end.
Definition mkdtemp : E string := λ w,
  (Ok (next_tmp_name w),
   World (files w) ({[next_tmp_name w]} ∪ dirs w) (tail (tmp_names w)) (answers w)
         (trace w ++ [MkDTemp (next_tmp_name w)])).

(** [shutil.rmtree(d)]: the directory and every file below it go. *)
Definition rmtree (d : string) (w : world) : world :=
  World (filter (λ kv, Py.startswith kv.1 (d +:+ "/") = false) (files w))
        (dirs w ∖ {[d]}) (tmp_names w) (answers w) (trace w ++ [RmTree d]).

(** [with make_temp_directory() as temp_dir: body]: the directory is removed
    on the way out, also when [body] raises. *)
Definition make_temp_directory {A} (body : string → E A) : E A := λ w,
  match mkdtemp w with
  | (Ok temp_dir, w1) =>
      let '(r, w2) := body temp_dir w1 in (r, rmtree temp_dir w2)
  | (Raise e, w1) => (Raise e, w1)
  end.

(** [subprocess.Popen(cmd, shell=True)] and [communicate]. *)
Definition popen (cmd : string) : E (Z * string * string) := λ w,
  (Ok (default (0, "", "") (head (answers w))),
   World (files w) (dirs w) (tmp_names w) (tail (answers w)) (trace w ++ [Exec cmd])).

(** [datman.utils._escape_shell_chars]. *)
Definition _escape_shell_chars (arg : string) : string :=
  let arg := Py.replace arg "(" "\(" in
  let arg := Py.replace arg ";" "\;" in
  let arg := Py.replace arg ")" "\)" in
  arg.

(** [datman.utils.run(cmd, dryrun)] for a string command (with the defaults
    [specialquote=True], [verbose=True]). *)
Definition run (cmd : string) (dryrun : bool) : E (Z * string) :=
  let cmd := _escape_shell_chars cmd in
  if dryrun then
    log "INFO" ("Performing dry-run. Skipped command: " +:+ cmd);;
    mret (0, "")
  else
    log "DEBUG" ("Executing command: " +:+ cmd);;
    '(returncode, out, err) ← popen cmd;
    (if negb (bool_decide (returncode = 0)) then
       log "ERROR" ("run(" +:+ cmd +:+ ") failed with returncode "
                    +:+ pretty returncode +:+ ". STDERR: " +:+ err)
     else mret ());;
    mret (returncode, out).

(** [datman.utils.makedirs]. *)
Definition makedirs (path : string) : E unit :=
  there ← exists_ path;
  if there : bool then mret () else os_makedirs path.

(** [datman.config], [datman.proc], pandas and the clock.  The functions of
  [datman.proc] that look at the disk get the world to read from;
  [now_stamp] is [datetime.datetime.today().strftime("%Y%m%d-%H%M%S")] and
  [today] is [datetime.date.today()]. *)
Class Env : Type := {
  cfg : Type;
  datman_config : option string → option string → string → cfg;
  get_path : cfg → string → string;
  get_key : cfg → string → string;
  get_subject_list : world → string → option string → option string → list string;
  load_checklist : world → string → list string → list Row;
  add_new_subjects_to_checklist : list string → list Row → list string → list Row;
  find_images :
    world → list Row → string → string → string → option string → option string
    → list Row;
  make_file_qbatch_command : string → string → string → string → string;
  make_piped_qbatch_command : string → string → string → string → string → string;
  normpath : string → string;
  show_arguments : arguments → string;
  differ_compare : string → string → string;
  now_stamp : string;
  today : string
}.

Section Enigma.

Context `{Env}.

(** One line of concatresults.sh: the call of dm-proc-enigma-concat.py for
    one measure, its two arguments quoted and run together as in the source. *)
Definition dquote : string := String "034" "".
Definition concat_command (measure : string) : string :=
  "
dm-proc-enigma-concat.py ${OUTDIR} " +:+ dquote +:+ measure +:+ dquote
  +:+ dquote +:+ "${OUTDIR}/enigmaDTI-" +:+ measure +:+ "-results.csv" +:+ dquote
  +:+ "
".

Definition write_run_script (filename output_dir : string) (CALC_MD CALC_ALL : bool)
    : E unit :=
  let bname := Py.basename filename in
  let ENGIMASTEP : option string := None in
  let ENGIMASTEP := if String.eqb bname "run_engimadti.sh" then Some "doInd" else ENGIMASTEP in
  let ENGIMASTEP := if String.eqb bname "concatresults.sh" then Some "concat" else ENGIMASTEP in
  (* open file for writing *)
  open_w filename;;
  fwrite filename "#!/bin/bash

";;
  fwrite filename "## this script was created by dm-proc-engima.py

";;
  fwrite filename "## Prints loaded modules to the log
module list

";;
  match ENGIMASTEP with
  | None => raise (UnboundLocalError "ENGIMASTEP")
  | Some step =>
      (if String.eqb step "doInd" then
         fwrite filename "OUTDIR=${1}
";;
         fwrite filename "FAMAP=${2}
";;
         fwrite filename "
doInd-enigma-dti.py ";;
         (if CALC_MD then fwrite filename "--calc-MD " else mret ());;
         (if CALC_ALL then fwrite filename "--calc-all " else mret ());;
         fwrite filename "${OUTDIR} ${FAMAP} 
"
       else mret ());;
      (if String.eqb step "concat" then
         fwrite filename ("OUTDIR=" +:+ output_dir +:+ " 
");;
         fwrite filename (concat_command "FA");;
         (if CALC_MD || CALC_ALL then
            fwrite filename (concat_command "MD")
          else mret ());;
         (if CALC_ALL then
            fwrite filename (concat_command "AD");;
            fwrite filename (concat_command "RD")
          else mret ());;
         (* now with a qc step *)
         fwrite filename "
dm-qc-enigma.py ";;
         (if CALC_MD then fwrite filename "--calc-MD " else mret ());;
         (if CALC_ALL then fwrite filename "--calc-all " else mret ());;
         fwrite filename "${OUTDIR} 
"
       else mret ());;
      (* and...don't forget to close the file *)
      chmod filename 493
  end.

(** [filecmp.cmp(f1, f2)], as a comparison of contents. *)
Definition filecmp (f1 f2 : string) : E bool := λ w,
  match files w !! f1, files w !! f2 with
  | Some c1, Some c2 => (Ok (String.eqb c1 c2), w)
  | _, _ => (Raise (IOError "[Errno 2] No such file or directory"), w)
  end.

Definition read_file (f : string) : E string := λ w,
  match files w !! f with
  | Some c => (Ok c, w)
  | None => (Raise (IOError "[Errno 2] No such file or directory"), w)
  end.

Definition check_runsh (filename output_dir : string) (CALC_MD CALC_ALL DEBUG : bool)
    : E unit :=
  make_temp_directory (λ temp_dir,
    let tmprunsh := Py.path_join temp_dir (Py.basename filename) in
    write_run_script tmprunsh output_dir CALC_MD CALC_ALL;;
    same ← filecmp filename tmprunsh;
    if same : bool then
      log "DEBUG" (filename +:+ " already written - using it")
    else
      log "DEBUG" "#############################################################
";;
      log "DEBUG" ("# Found differences in " +:+ filename
                   +:+ " these are marked with (+) ");;
      log "DEBUG" "#############################################################";;
      f1 ← read_file filename;
      f2 ← read_file tmprunsh;
      log "DEBUG" (differ_compare f1 f2);;
      raise (SystemExit ("
Old " +:+ filename +:+ " doesn't match parameters of this run....Exiting"))).

Fixpoint write_run_scripts (script_names : list string) (run_dir output_dir : string)
    (CALC_MD CALC_ALL DEBUG : bool) : E unit :=
  match script_names with
  | [] => mret ()
  | name :: rest =>
      let runsh := Py.path_join run_dir name in
      there ← isfile runsh;
      (if there : bool
       then check_runsh runsh output_dir CALC_MD CALC_ALL DEBUG
       else write_run_script runsh output_dir CALC_MD CALC_ALL);;
      write_run_scripts rest run_dir output_dir CALC_MD CALC_ALL DEBUG
  end.

(** The sentinel of a finished subject. *)
Definition edti_completed (output_dir subid FA_img : string) : string :=
  Py.path_join (Py.path_join (Py.path_join output_dir subid) "ROI")
    (Py.replace (Py.replace FA_img ".nii" "") ".gz" "" +:+ "skel_ROIout_avg.csv").

Definition subject_previously_completed (output_dir subid FA_img : string) : E bool :=
  there ← isfile (edti_completed output_dir subid FA_img);
  if there : bool then mret true else mret false.

(** The line written to the batch file for one subject. *)
Definition command_line (run_dir script output_dir input_dir subid smap : string)
    : string :=
  "bash -l " +:+ run_dir +:+ "/" +:+ script +:+ " "
  +:+ Py.path_join output_dir subid +:+ " "
  +:+ Py.path_join (Py.path_join input_dir subid) smap +:+ "
".

(** The loop of [main] over the rows of the checklist, from row [i] on:
    it returns the rows with their [date_ran] updated, and [submit_edti]. *)
Fixpoint queue_subjects (cmds_file run_dir script output_dir input_dir : string)
    (subject_filter : option string) (rows : list Row) (submit_edti : bool)
    : E (list Row * bool) :=
  match rows with
  | [] => mret ([], submit_edti)
  | row :: rest =>
      let subid := id row in
      let skip : E (list Row * bool) :=
        '(rest, submit_edti) ←
          queue_subjects cmds_file run_dir script output_dir input_dir
            subject_filter rest submit_edti;
        mret (row :: rest, submit_edti) in
      (* make sure that second filter is being applied to the qsub bit *)
      if Py.otruthy subject_filter
         && negb (Py.contains (default "" subject_filter) subid)
      then skip
      else
        (* make sure that a T1 has been selected for this subject *)
        match FA_nii row with
        | None => skip
        | Some smap =>
            completed ← subject_previously_completed output_dir subid smap;
            if completed : bool then skip
            else
              fwrite cmds_file
                (command_line run_dir script output_dir input_dir subid smap);;
              (* add today's date to the checklist *)
              let row := set_date_ran today row in
              '(rest, submit_edti) ←
                queue_subjects cmds_file run_dir script output_dir input_dir
                  subject_filter rest true;
              mret (row :: rest, submit_edti)
        end
  end.

(** [checklist.to_csv(checklist_file, sep=',', index=False)]. *)
Definition to_csv (rows : list Row) (path : string) : E unit := emit (ToCsv path rows).

Definition checklist_cols : list string :=
  ["id"; "FA_nii"; "date_ran"; "qc_rator"; "qc_rating"; "notes"].

(** The body of [with make_temp_directory() as temp_dir] in [main]: the batch
  file is written and, if it got a line, submitted. *)
Definition submit_batch (args : arguments)
    (input_dir output_dir log_dir run_dir script0 job_name_prefix : string)
    (checklist : list Row) (temp_dir : string) : E (list Row * bool) :=
  let cmds_file := Py.path_join temp_dir "commands.txt" in
  open_w cmds_file;;
  '(checklist, submit_edti) ←
    queue_subjects cmds_file run_dir script0 output_dir input_dir
      (subject_filter args) checklist false;
  (if submit_edti : bool then
     let qbatch_run_cmd :=
       make_file_qbatch_command cmds_file job_name_prefix log_dir (walltime args) in
     chdir run_dir;;
     run qbatch_run_cmd (DRYRUN args);;
     mret ()
   else mret ());;
  mret (checklist, submit_edti).

(** The second half of [main], from [job_name_prefix = ...] on: the batch
  file, the two submissions and the checklist. [script0] and [script1] are
  [script_names[0]] and [script_names[1]]. *)
Definition main_submit (args : arguments)
    (input_dir output_dir log_dir run_dir prefix script0 script1 checklist_file : string)
    (checklist : list Row) : E unit :=
  let job_name_prefix := "edti" +:+ prefix +:+ "_" +:+ now_stamp in
  (* Change dir so it can be submitted without the full path *)
  chdir run_dir;;
  '(checklist, submit_edti) ←
    (if negb (POST_ONLY args) then
       make_temp_directory
         (submit_batch args input_dir output_dir log_dir run_dir script0
            job_name_prefix checklist)
     else mret (checklist, false));
  (* if any subjects have been submitted, submit a final job that will
     consolidate the results after they are finished *)
  chdir run_dir;;
  let post_edit_cmd := "echo bash -l " +:+ run_dir +:+ "/" +:+ script1 in
  (if submit_edti : bool then
     let qbatch_post_cmd :=
       make_piped_qbatch_command post_edit_cmd (job_name_prefix +:+ "_post")
         log_dir (walltime_post args) job_name_prefix in
     run qbatch_post_cmd (DRYRUN args);;
     mret ()
   else mret ());;
  if negb (DRYRUN args) then
    (* write the checklist out to a file *)
    to_csv checklist checklist_file
  else mret ().

Definition main (args : arguments) : E unit :=
  let config := datman_config (arg_config args) (arg_system args) (arg_study args) in
  (* make the output directory if it doesn't exist *)
  let input_dir := get_path config "dtifit" in
  let output_dir := get_path config "enigmaDTI" in
  let log_dir := Py.path_join output_dir "logs" in
  let run_dir := Py.path_join output_dir "bin" in
  makedirs log_dir;;
  makedirs run_dir;;
  log "DEBUG" (show_arguments args);;
  let FA_tag := default "_FA.nii.gz" (arg_FA_tag args) in
  w ← get_world;
  let subjects := get_subject_list w input_dir (subject_filter args) (QC_file args) in
  (* check if we have any work to do, exit if not *)
  if bool_decide (length subjects = 0%nat) then
    log "INFO" "No outstanding scans to process.";;
    raise (SystemExit "1")
  else
  (* grab the prefix from the subid if not given *)
  let prefix := get_key config "STUDY_TAG" in
  (* write and check the run scripts *)
  let script0 := "run_engimadti.sh" in
  let script1 := "concatresults.sh" in
  write_run_scripts [script0; script1] run_dir output_dir
    (CALC_MD args) (CALC_ALL args) (debug args);;
  let checklist_file := normpath (output_dir +:+ "/ENIGMA-DTI-checklist.csv") in
  w ← get_world;
  let checklist := load_checklist w checklist_file checklist_cols in
  let checklist := add_new_subjects_to_checklist subjects checklist checklist_cols in
  (* Update checklist with new FA files to process listed under FA_nii column *)
  let checklist :=
    find_images w checklist "FA_nii" input_dir FA_tag (subject_filter args)
      (FA_filter args) in
  main_submit args input_dir output_dir log_dir run_dir prefix script0 script1
    checklist_file checklist.

End Enigma.

(** *** What the statements about the driver speak about *)

(** The shell commands run, the lines written and the checklists saved, in
  order. *)
Definition execs (tr : list effect) : list string :=
  omap (λ e, match e with Exec c => Some c | _ => None end) tr.
Definition writes (tr : list effect) : list (string * string) :=
  omap (λ e, match e with Write p t => Some (p, t) | _ => None end) tr.
Definition csvs (tr : list effect) : list (string * list Row) :=
  omap (λ e, match e with ToCsv p rows => Some (p, rows) | _ => None end) tr.

Definition on_disk (w : world) (p : string) : bool :=
  bool_decide (is_Some (files w !! p)).

(** The same files exist in both worlds. *)
Definition same_disk (w w' : world) : Prop :=
  (∀ p, on_disk w' p = on_disk w p) ∧ dirs w' = dirs w
  ∧ tmp_names w' = tmp_names w ∧ answers w' = answers w.

Definition nonempty {A} (l : list A) : bool :=
  match l with [] => false | _ => true end.

(** No shell command and no checklist write among the effects of [m]. *)
Definition silent {A} (m : E A) : Prop :=
  ∀ w, execs (trace (m w).2) = execs (trace w) ∧ csvs (trace (m w).2) = csvs (trace w).

(** The batch file of a run that starts in [w]. *)
Definition cmds_path (w : world) : string :=
  Py.path_join (next_tmp_name w) "commands.txt".

(** The world in which the loop of [main_submit] starts. *)
Definition loop_world (run_dir : string) (w : world) : world :=
  World (<[cmds_path w := ""]> (files w)) ({[next_tmp_name w]} ∪ dirs w)
        (tail (tmp_names w)) (answers w)
        (trace w ++ [Chdir run_dir; MkDTemp (next_tmp_name w); OpenW (cmds_path w)]).

(** What [_escape_shell_chars] makes of one byte, and the bytes it
  escapes. *)
Definition is_shell_special (c : ascii) : bool :=
  Ascii.eqb c "(" || Ascii.eqb c ";" || Ascii.eqb c ")".
Definition escape_byte (c : ascii) : string :=
  if Ascii.eqb c "(" || Ascii.eqb c ";" || Ascii.eqb c ")"
  then String "\" (String c "")
  else String c "".

(** The names of the two run scripts. *)
Definition script_names : list string := ["run_engimadti.sh"; "concatresults.sh"].

(** What [write_run_script] leaves in a file of name [bname] that it made
  in an empty directory. *)
Definition script_text (bname output_dir : string) (CALC_MD CALC_ALL : bool) : string :=
  default ""
    (files (write_run_script bname output_dir CALC_MD CALC_ALL
              (World ∅ ∅ [] [] [])).2 !! bname).

(** The names the next [n] calls of [tempfile.mkdtemp] hand out. *)
Fixpoint upcoming_tmp_names (n : nat) (names : list string) : list string :=
  match n with
  | O => []
  | S n' =>
      match names with
      | [] => "/tmp/tmp" :: upcoming_tmp_names n' []
      | t :: rest => t :: upcoming_tmp_names n' rest
      end
  end.

(** A temporary directory that [p] is not in. *)
Definition apart (p t : string) : Prop :=
  Py.truthy t = true ∧ Py.endswith_slash t = false
  ∧ Py.startswith p (t +:+ "/") = false.

(** [m] appends [text] to the file [f], if it exists, and does nothing else
  to the disk; it runs no command and saves no checklist. *)
Definition appends (f text : string) (m : E unit) : Prop :=
  ∀ w c, files w !! f = Some c →
    ∃ tr,
      m w = (Ok (), World (<[f := c +:+ text]> (files w)) (dirs w) (tmp_names w)
                          (answers w) (trace w ++ tr))
      ∧ execs tr = [] ∧ csvs tr = [].

Section Observations.

Context `{Env}.

(** A candidate row: it passes the subject filter and has an FA image. *)
Definition candidate (subject_filter : option string) (row : Row) : option string :=
  if Py.otruthy subject_filter
     && negb (Py.contains (default "" subject_filter) (id row))
  then None
  else FA_nii row.

(** A row the loop queues: a candidate whose sentinel is not on disk. *)
Definition to_queue (w : world) (subject_filter : option string) (output_dir : string)
    (row : Row) : option string :=
  match candidate subject_filter row with
  | None => None
  | Some smap =>
      if on_disk w (edti_completed output_dir (id row) smap) then None
      else Some smap
  end.

Definition queued_line (w : world) (subject_filter : option string)
    (run_dir script output_dir input_dir : string) (row : Row) : option string :=
  command_line run_dir script output_dir input_dir (id row)
    <$> to_queue w subject_filter output_dir row.

Definition stamp (w : world) (subject_filter : option string) (output_dir : string)
    (row : Row) : Row :=
  match to_queue w subject_filter output_dir row with
  | Some _ => set_date_ran today row
  | None => row
  end.

(** The row has an FA image whose sentinel is on disk. *)
Definition sentinel_exists (w : world) (output_dir : string) (row : Row) : bool :=
  match FA_nii row with
  | Some smap => on_disk w (edti_completed output_dir (id row) smap)
  | None => false
  end.

(** What [run] logs in place of running [cmd] on a dry run. *)
Definition skipped (cmd : string) : effect :=
  Log "INFO" ("Performing dry-run. Skipped command: " +:+ cmd).

(** The lines a run of [main_submit] writes to its batch file. *)
Definition batch_lines (args : arguments) (input_dir output_dir run_dir script0 : string)
    (checklist : list Row) (w : world) : list string :=
  if POST_ONLY args then []
  else omap (queued_line (loop_world run_dir w) (subject_filter args) run_dir script0
               output_dir input_dir) checklist.

(** The checklist a run of [main_submit] ends with: the rows it queued have
  today's date. *)
Definition stamped_checklist (args : arguments) (output_dir run_dir : string)
    (checklist : list Row) (w : world) : list Row :=
  if POST_ONLY args then checklist
  else stamp (loop_world run_dir w) (subject_filter args) output_dir <$> checklist.

Definition job_name_prefix (prefix : string) : string :=
  "edti" +:+ prefix +:+ "_" +:+ now_stamp.

(** The two commands handed to the shell: the batch of per-subject jobs, and
  the job that runs [script1] after them ([afterok]). *)
Definition batch_submission (args : arguments) (log_dir prefix : string) (w : world)
    : string :=
  _escape_shell_chars
    (make_file_qbatch_command (cmds_path w) (job_name_prefix prefix) log_dir
       (walltime args)).
Definition post_submission (args : arguments) (log_dir run_dir prefix script1 : string)
    : string :=
  _escape_shell_chars
    (make_piped_qbatch_command ("echo bash -l " +:+ run_dir +:+ "/" +:+ script1)
       (job_name_prefix prefix +:+ "_post") log_dir (walltime_post args)
       (job_name_prefix prefix)).

(** From [w] to [w1] no command was handed to the shell and no checklist was
  saved. *)
Definition quiet_step (w w1 : world) : Prop :=
  execs (trace w1) = execs (trace w) ∧ csvs (trace w1) = csvs (trace w).

(** [m], started in [w], ends by raising, or by running [main_submit] with
  the directories, the prefix and the checklist file that [main] takes from
  the configuration, on some checklist; and it is quiet until then. *)
Definition reaches_submit (args : arguments) (m : E unit) (w : world) : Prop :=
  let config := datman_config (arg_config args) (arg_system args) (arg_study args) in
  let input_dir := get_path config "dtifit" in
  let output_dir := get_path config "enigmaDTI" in
  (∃ e w1, m w = (Raise e, w1) ∧ quiet_step w w1)
  ∨ (∃ checklist w1,
       m w = main_submit args input_dir output_dir (Py.path_join output_dir "logs")
               (Py.path_join output_dir "bin") (get_key config "STUDY_TAG")
               "run_engimadti.sh" "concatresults.sh"
               (normpath (output_dir +:+ "/ENIGMA-DTI-checklist.csv")) checklist w1
       ∧ quiet_step w w1).

End Observations.

End Enigma.

(** ** A concrete setting for the examples *)

Module Demo.

(** [s.split(c)] for one separator byte. *)
Fixpoint split_char_go (c : ascii) (cur s : string) : list string :=
  match s with
  | "" => [cur]
  | String x s' =>
      if Ascii.eqb x c then cur :: split_char_go c "" s'
      else split_char_go c (cur +:+ String x "") s'
  end.
Definition split_char (c : ascii) (s : string) : list string := split_char_go c "" s.

(** An identifier [STUDY_SITE_SUBJECT_TIMEPOINT], with or without a session. *)
Record Identifier : Type := {
  id_study : string;
  id_site : string;
  id_subject : string;
  id_timepoint : string;
  id_session : option string
}.

Definition with_timepoint (i : Identifier) : string :=
  Py.join "_" [id_study i; id_site i; id_subject i; id_timepoint i].
Definition with_session (i : Identifier) : string :=
  match id_session i with
  | Some s => with_timepoint i +:+ "_" +:+ s
  | None => with_timepoint i
  end.

Definition parse_fields (fields : list string) : option Identifier :=
  if forallb Py.truthy fields then
    match fields with
    | [st; si; su; tp] => Some (Build_Identifier st si su tp None)
    | [st; si; su; tp; se] => Some (Build_Identifier st si su tp (Some se))
    | _ => None
    end
  else None.

Definition parse (s : string) : option Identifier := parse_fields (split_char "_" s).

Definition parse_filename (s : string)
    : option (Identifier * string * string * string) :=
  match split_char "_" s with
  | st :: si :: su :: tp :: se :: tag :: series :: d :: ds =>
      match parse_fields [st; si; su; tp; se] with
      | Some i =>
          if Py.truthy tag && Py.truthy series
          then Some (i, tag, series, Py.join "_" (d :: ds))
          else None
      | None => None
      end
  | _ => None
  end.

(** Modelled from the spec: [datman.scanid] is not under src/. Section 4.1
  describes identifiers as study, site and subject fields with an optional
  session, scan names as identifiers followed by tag, series and description,
  and phantoms as recognised by the shape of the subject field alone. This
  reading of it only instantiates the interface in the examples below; every
  theorem is proved for all instances. *)
Definition scanid : Scanid := {|
  ident := Identifier;
  scanid_parse := parse;
  scanid_parse_filename := parse_filename;
  scanid_is_phantom := λ s, Py.contains "_PHA_" s;
  ident_str := with_session;
  ident_site := id_site;
  ident_session := id_session;
  get_full_subjectid_with_timepoint := with_timepoint;
  get_full_subjectid_with_timepoint_session := with_session
|}.

(** A dictionary is visited in the order of [map_to_list]. *)
Definition interpreter : Interpreter := {|
  dict_items := map_to_list;
  dict_items_perm := λ d, reflexivity (map_to_list d);
  stack_depth := 900
|}.

(** Every study keeps its metadata in /archive/metadata. *)
Definition config : Utils.Config := {|
  Utils.cfg := string;
  Utils.datman_config := λ _, Ok "/archive/metadata";
  Utils.get_path := λ meta _, Ok meta
|}.

(** No dashboard. *)
Definition no_dashboard : @Utils.DashBackend config := {|
  Utils.dash_found := false;
  Utils._fetch_checklist := λ _ _ _, raise (MetadataException "no dashboard");
  Utils._fetch_blacklist := λ _ _ _ _, raise (MetadataException "no dashboard");
  Utils._update_qc_reviewers := λ _, raise (MetadataException "no dashboard");
  Utils._update_scan_checklist := λ _, raise (MetadataException "no dashboard")
|}.

Definition metadata_dir : @Utils.cfg config := "/archive/metadata".

Definition checklist_path : string := "/archive/metadata/checklist.csv".
Definition blacklist_path : string := "/archive/metadata/blacklist.csv".

(** A disk with the given checklist and blacklist files, on which every write
  succeeds. *)
Definition disk (checklist blacklist : string) : world :=
  World (<[checklist_path := checklist]> (<[blacklist_path := blacklist]> ∅)) [] [] [].

Definition subject_A : string := "SPN01_CMH_0001_01".
Definition subject_B : string := "SPN01_CMH_0002_01".
Definition subject_C : string := "SPN01_CMH_0003_01".
Definition scan_X : string := "SPN01_CMH_0001_01_01_T1_02_SagT1".
Definition scan_Y : string := "SPN01_CMH_0001_01_01_DTI_05_Ax-DTI".
Definition scan_Z : string := "SPN01_CMH_0003_01_01_T1_02_SagT1".

(** What [subject_A] and [scan_X] parse to. *)
Definition ident_A : @ident scanid := Build_Identifier "SPN01" "CMH" "0001" "01" None.
Definition ident_X : @ident scanid :=
  Build_Identifier "SPN01" "CMH" "0001" "01" (Some "01").

Definition nl : string := String "010" "".

(** A checklist file in which [subject_A] is signed off and [subject_B] is
  not, and a blacklist file with [scan_X], of [subject_A], and [scan_Z], of a
  subject the checklist does not have. *)
Definition checklist_AB : string :=
  "qc_" +:+ subject_A +:+ ".html signed off" +:+ nl
  +:+ "qc_" +:+ subject_B +:+ ".html" +:+ nl.
Definition blacklist_XZ : string :=
  Utils.blacklist_header +:+ scan_X +:+ " bad" +:+ nl
  +:+ scan_Z +:+ " motion" +:+ nl.

(** *** The dashboard *)

(** [int(s)] for a string of decimal digits. *)
Fixpoint digits_go (acc : Z) (s : string) : option Z :=
  match s with
  | "" => Some acc
  | String c s' =>
      let n := Z.of_nat (nat_of_ascii c) - 48 in
      if bool_decide (0 ≤ n ≤ 9) then digits_go (10 * acc + n) s' else None
  end.
Definition py_int (s : string) : option Z :=
  if Py.truthy s then digits_go 0 s else None.

Definition pad2 (n : Z) : string :=
  if bool_decide (n < 10) then "0" +:+ pretty n else pretty n.

(** Dates are written year-month-day. *)
Definition strptime (s : string) : option Dashboard.datetime :=
  match py_int <$> split_char "-" s with
  | [Some y; Some m; Some d] =>
      if bool_decide (1 ≤ m ≤ 12 ∧ 1 ≤ d ≤ 31)
      then Some (Dashboard.Build_datetime y m d) else None
  | _ => None
  end.
Definition strftime (d : Dashboard.datetime) : string :=
  pretty (Dashboard.year d) +:+ "-" +:+ pad2 (Dashboard.month d)
  +:+ "-" +:+ pad2 (Dashboard.day d).

(** Modelled from the spec: the [check_checklist] and [check_blacklist] that
  [dashboard.py] calls are not in src/datman/utils.py. Section 4.3 has them
  hand back the comment of the file of record for a session or a scan. Here
  no session has a checklist comment and every scan has the blacklist comment
  [blacklisted]. This instance only serves the examples below; every theorem
  is proved for all instances. *)
Definition dash_env (blacklisted : option string) : Dashboard.DashEnv := {|
  Dashboard.py_int := py_int;
  Dashboard.strptime := strptime;
  Dashboard.strftime := strftime;
  Dashboard.check_checklist := λ _ _, Ok None;
  Dashboard.check_blacklist := λ _ _, Ok blacklisted
|}.

Definition site_CMH : Dashboard.Site := {| Dashboard.site_name := "CMH" |}.
Definition type_T1 : Dashboard.ScanType := {| Dashboard.scantype_name := "T1" |}.
Definition study : Dashboard.Study := {|
  Dashboard.study_id := 1;
  Dashboard.nickname := "SPINS";
  Dashboard.sites := [site_CMH];
  Dashboard.scantypes := [type_T1]
|}.

Definition session_row (i : Z) (name : string) : Dashboard.Session := {|
  Dashboard.session_id := Some i;
  Dashboard.session_name := name;
  Dashboard.session_study := 1;
  Dashboard.session_site := Some site_CMH;
  Dashboard.session_date := Dashboard.DateNone;
  Dashboard.is_repeated := Some false;
  Dashboard.repeat_count := Some 1;
  Dashboard.is_phantom := None;
  Dashboard.cl_comment := None
|}.

(** The row of [scan_X], stored with the given blacklist comment. *)
Definition scan_row (comment : option string) : Dashboard.Scan := {|
  Dashboard.scan_id := Some 7;
  Dashboard.scan_name := "SPN01_CMH_0001_01_01_T1_02";
  Dashboard.series_number := Some "02";
  Dashboard.scantype := Some type_T1;
  Dashboard.description := Some "SagT1";
  Dashboard.repeat_number := Some 1;
  Dashboard.bl_comment := comment
|}.

Definition link_row : Dashboard.Session_Scan := {|
  Dashboard.link_scan_id := Some 7;
  Dashboard.link_session_id := Some 1;
  Dashboard.is_primary := Some true;
  Dashboard.link_scan_name := Some "SPN01_CMH_0001_01_01_T1_02"
|}.

(** A database in which two session rows have the name of [subject_A]. *)
Definition twice : Dashboard.db :=
  Dashboard.Db [study] [session_row 1 subject_A; session_row 2 subject_A] [] []
    [type_T1] [] 3 [].

(** A database with [subject_A] and its scan [scan_X]. *)
Definition scanned (comment : option string) : Dashboard.db :=
  Dashboard.Db [study] [session_row 1 subject_A] [scan_row comment] [link_row]
    [type_T1] [] 8 [].

(** The same without the link between the two. *)
Definition unlinked : Dashboard.db :=
  Dashboard.Db [study] [session_row 1 subject_A] [scan_row None] []
    [type_T1] [] 8 [].

(** *** The submission driver *)

Definition new_row (subid : string) : Enigma.Row := {|
  Enigma.id := subid; Enigma.FA_nii := None; Enigma.date_ran := None;
  Enigma.qc_rator := None; Enigma.qc_rating := None; Enigma.notes := None
|}.
Definition with_image (tag : string) (r : Enigma.Row) : Enigma.Row := {|
  Enigma.id := Enigma.id r;
  Enigma.FA_nii :=
    match Enigma.FA_nii r with
    | Some f => Some f
    | None => Some (Enigma.id r +:+ tag)
    end;
  Enigma.date_ran := Enigma.date_ran r;
  Enigma.qc_rator := Enigma.qc_rator r; Enigma.qc_rating := Enigma.qc_rating r;
  Enigma.notes := Enigma.notes r
|}.

(** Modelled from the spec: [datman.config] and [datman.proc] are not under
  src/. Section 4.4 has the driver take its directories from the
  configuration, list the subjects with finished inputs, find the FA image of
  each and hand two commands to the queue, the second waiting for the first.
  Here the pipelines are under /archive/pipelines, [subject_A] is the one
  subject, the checklist file is new, every row gets the image named after
  its subject, and the two commands spell out their arguments. This instance
  only serves the examples below; every theorem is proved for all
  instances. *)
Definition enigma_env : Enigma.Env := {|
  Enigma.cfg := unit;
  Enigma.datman_config := λ _ _ _, ();
  Enigma.get_path := λ _ key, "/archive/pipelines/" +:+ key;
  Enigma.get_key := λ _ _, "SPN01";
  Enigma.get_subject_list := λ _ _ _ _, [subject_A];
  Enigma.load_checklist := λ _ _ _, [];
  Enigma.add_new_subjects_to_checklist := λ subjects checklist _,
    checklist ++ (new_row <$> subjects);
  Enigma.find_images := λ _ checklist _ _ tag _ _, with_image tag <$> checklist;
  Enigma.make_file_qbatch_command := λ cmds name log_dir wt,
    "qbatch -N " +:+ name +:+ " --logdir " +:+ log_dir +:+ " --walltime " +:+ wt
    +:+ " " +:+ cmds;
  Enigma.make_piped_qbatch_command := λ cmd name log_dir wt dep,
    cmd +:+ " | qbatch -N " +:+ name +:+ " --afterok " +:+ dep +:+ "* --logdir "
    +:+ log_dir +:+ " --walltime " +:+ wt +:+ " -";
  Enigma.normpath := λ p, p;
  Enigma.show_arguments := λ _, "arguments";
  Enigma.differ_compare := λ a b, a +:+ b;
  Enigma.now_stamp := "20180102-030405";
  Enigma.today := "2018-01-02"
|}.

Definition args (dry : bool) : Enigma.arguments := {|
  Enigma.arg_study := "SPINS";
  Enigma.arg_config := None;
  Enigma.arg_system := None;
  Enigma.QC_file := None;
  Enigma.arg_FA_tag := None;
  Enigma.subject_filter := None;
  Enigma.FA_filter := None;
  Enigma.CALC_MD := false;
  Enigma.CALC_ALL := false;
  Enigma.walltime := "2:00:00";
  Enigma.walltime_post := "2:00:00";
  Enigma.POST_ONLY := false;
  Enigma.NO_POST := false;
  Enigma.quiet := false;
  Enigma.verbose := false;
  Enigma.debug := false;
  Enigma.DRYRUN := dry
|}.

Definition input_dir : string := "/archive/pipelines/dtifit".
Definition output_dir : string := "/archive/pipelines/enigmaDTI".
Definition log_dir : string := "/archive/pipelines/enigmaDTI/logs".
Definition run_dir : string := "/archive/pipelines/enigmaDTI/bin".
Definition run_script : string := "/archive/pipelines/enigmaDTI/bin/run_engimadti.sh".
Definition checklist_file : string :=
  "/archive/pipelines/enigmaDTI/ENIGMA-DTI-checklist.csv".

Definition row_A : Enigma.Row := with_image "_FA.nii.gz" (new_row subject_A).
Definition row_B : Enigma.Row := with_image "_FA.nii.gz" (new_row subject_B).

Definition sentinel (subid : string) : string :=
  Enigma.edti_completed output_dir subid (subid +:+ "_FA.nii.gz").

(** A disk with nothing on it, and one on which the given subjects are
  finished. *)
Definition empty_disk : Enigma.world := Enigma.World ∅ ∅ [] [] [].
Definition finished_disk (subids : list string) : Enigma.world :=
  Enigma.World (list_to_map ((λ s, (sentinel s, "")) <$> subids)) ∅ [] [] [].

(** *** Further settings *)

(** A delta with a key that is no subject ID and no scan name. *)
Definition bogus_delta : gmap string string := {["bogus" := "checked"]}.

(** The driver in a study in which no subject is left to process. *)
Definition idle_env : Enigma.Env := {|
  Enigma.cfg := unit;
  Enigma.datman_config := λ _ _ _, ();
  Enigma.get_path := λ _ key, "/archive/pipelines/" +:+ key;
  Enigma.get_key := λ _ _, "SPN01";
  Enigma.get_subject_list := λ _ _ _ _, [];
  Enigma.load_checklist := λ _ _ _, [];
  Enigma.add_new_subjects_to_checklist := λ subjects checklist _,
    checklist ++ (new_row <$> subjects);
  Enigma.find_images := λ _ checklist _ _ tag _ _, with_image tag <$> checklist;
  Enigma.make_file_qbatch_command := λ cmds name log_dir wt,
    "qbatch -N " +:+ name +:+ " --logdir " +:+ log_dir +:+ " --walltime " +:+ wt
    +:+ " " +:+ cmds;
  Enigma.make_piped_qbatch_command := λ cmd name log_dir wt dep,
    cmd +:+ " | qbatch -N " +:+ name +:+ " --afterok " +:+ dep +:+ "* --logdir "
    +:+ log_dir +:+ " --walltime " +:+ wt +:+ " -";
  Enigma.normpath := λ p, p;
  Enigma.show_arguments := λ _, "arguments";
  Enigma.differ_compare := λ a b, a +:+ b;
  Enigma.now_stamp := "20180102-030405";
  Enigma.today := "2018-01-02"
|}.


(** A database with [subject_A] and no scan. *)
Definition sessions_only : Dashboard.db :=
  Dashboard.Db [study] [session_row 1 subject_A] [] [] [type_T1] [] 8 [].

(** What [subject_B] parses to. *)
Definition ident_B : @ident scanid := Build_Identifier "SPN01" "CMH" "0002" "01" None.

End Demo.

(** * Properties *)

(** ** The monad *)

Lemma bind_ok {W A B} (m : St W A) (k : A → St W B) w a w1 :
  m w = (Ok a, w1) → (m ≫= k) w = k a w1.
Proof. intros Hm. unfold mbind, St_bind. by rewrite Hm. Qed.

Lemma omap_pointwise {A B} (f g : A → option B) (l : list A) :
  (∀ x, f x = g x) → omap f l = omap g l.
Proof.
  intros Hfg. induction l as [|x l IH]; [done|]. csimpl. by rewrite Hfg, IH.
Qed.

(** ** Python strings *)

Example split_example : Py.split " a  b	c
" = ["a"; "b"; "c"].
Proof. reflexivity. Qed.

Example strip_example : Py.strip "  a b  " = "a b".
Proof. reflexivity. Qed.

Example replace_example :
  Py.replace "qc_Aqc_B.html" "qc_" "" = "AB.html"
  ∧ Py.replace "x_FA.nii.gz" ".nii" "" = "x_FA.gz".
Proof. split; reflexivity. Qed.

Example readlines_example : Py.readlines "a
b

c" = ["a
"; "b
"; "
"; "c"].
Proof. reflexivity. Qed.

Example re_split_example : Py.re_split "a,b  c" = ["a"; "b"; ""; "c"].
Proof. reflexivity. Qed.

Example splitext_example :
  Py.splitext "a.b.c" = ("a.b", ".c")
  ∧ Py.splitext "...html" = ("...html", "")
  ∧ Py.splitext "a/.b.c" = ("a/.b", ".c")
  ∧ Py.splitext "a." = ("a", ".")
  ∧ Py.splitext "x.d/y" = ("x.d/y", "").
Proof. repeat split; reflexivity. Qed.

Example path_join_example :
  Py.path_join "a" "b" = "a/b" ∧ Py.path_join "a/" "b" = "a/b"
  ∧ Py.path_join "a" "/b" = "/b" ∧ Py.path_join "" "b" = "b".
Proof. repeat split; reflexivity. Qed.

Example sorted_example : Py.sorted ["b"; "a"; "B"; "ab"; ""] = [""; "B"; "a"; "ab"; "b"].
Proof. reflexivity. Qed.

Section StringFacts.

Import Py.

Local Arguments String.append !_ _ / : simpl nomatch.

Lemma app_nil_r_str (s : string) : s +:+ "" = s.
Proof. induction s as [|c s IH]; [done|]. cbn. by rewrite IH. Qed.

Lemma app_assoc_str (a b c : string) : (a +:+ b) +:+ c = a +:+ b +:+ c.
Proof. induction a as [|x a IH]; [done|]. cbn. by rewrite IH. Qed.

Lemma str_forall_app p a b :
  str_forall p (a +:+ b) = str_forall p a && str_forall p b.
Proof. induction a as [|c a IH]; [done|]. cbn. by rewrite IH, andb_assoc. Qed.

Lemma prefix_nil s : String.prefix "" s = true.
Proof. by destruct s. Qed.

(** *** [split] *)

Lemma split_go_word w u s :
  str_forall nonspace u = true →
  split_go w (u +:+ s) = split_go (w +:+ u) s.
Proof.
  revert w. induction u as [|c u IH]; intros w Hu.
  - cbn. by rewrite app_nil_r_str.
  - cbn in Hu. apply andb_true_iff in Hu as [Hc Hu]. cbn.
    unfold nonspace in Hc. apply negb_true_iff in Hc. rewrite Hc.
    rewrite IH by done. by rewrite app_assoc_str.
Qed.

Lemma split_go_space w c s :
  is_space c = true →
  split_go w (String c s)
  = if String.eqb w "" then split_go "" s else w :: split_go "" s.
Proof. intros Hc. cbn. by rewrite Hc. Qed.


Lemma is_word_nonempty w : is_word w = true → String.eqb w "" = false.
Proof. unfold is_word. intros [Hw _]%andb_true_iff. by apply negb_true_iff. Qed.

Lemma is_word_nonspace w : is_word w = true → str_forall nonspace w = true.
Proof. unfold is_word. by intros [_ Hw]%andb_true_iff. Qed.

Lemma join_cons sep w w' ws :
  join sep (w :: w' :: ws) = w +:+ sep +:+ join sep (w' :: ws).
Proof. done. Qed.

(** Splitting what was joined with single spaces gives the words back. *)
Lemma split_join ws :
  Forall (λ w, is_word w = true) ws →
  split (join " " ws) = ws.
Proof.
  unfold split.
  induction 1 as [|w ws Hw Hws IH]; [done|].
  destruct ws as [|w' ws].
  - unfold join. cbn [String.concat]. rewrite <-(app_nil_r_str w) at 1.
    rewrite split_go_word by (by apply is_word_nonspace). cbn.
    by rewrite (is_word_nonempty w).
  - rewrite join_cons.
    rewrite split_go_word by (by apply is_word_nonspace). cbn [String.append].
    rewrite split_go_space by done. rewrite (is_word_nonempty w) by done.
    by rewrite IH.
Qed.

(** The fields [split] returns are words. *)
Lemma split_go_words w s :
  str_forall nonspace w = true →
  Forall (λ x, is_word x = true) (split_go w s).
Proof.
  revert w. induction s as [|c s IH]; intros w Hw.
  - cbn. destruct (String.eqb w "") eqn:E; [done|].
    constructor; [|done]. unfold is_word. by rewrite E, Hw.
  - cbn. destruct (is_space c) eqn:Ec.
    + destruct (String.eqb w "") eqn:E; [by apply IH|].
      constructor; [|by apply IH]. unfold is_word. by rewrite E, Hw.
    + apply IH. rewrite str_forall_app, Hw. cbn. unfold nonspace. by rewrite Ec.
Qed.

Lemma split_words s : Forall (λ x, is_word x = true) (split s).
Proof. by apply split_go_words. Qed.

(** *** [strip] *)

Lemma rstrip_ends_nonspace s : ends_nonspace s = true → rstrip s = s.
Proof.
  induction s as [|c s IH]; [done|]. intros Hs. cbn.
  destruct s as [|c' s].
  - cbn in *. unfold nonspace in Hs. apply negb_true_iff in Hs. by rewrite Hs.
  - rewrite IH by done. done.
Qed.

Lemma ends_nonspace_app a b :
  ends_nonspace b = true → ends_nonspace (a +:+ b) = true.
Proof.
  intros Hb. induction a as [|c a IH]; [done|]. cbn.
  destruct (a +:+ b) eqn:E; [|done]. by destruct a, b.
Qed.

Lemma is_word_ends_nonspace w : is_word w = true → ends_nonspace w = true.
Proof.
  unfold is_word. intros [Hne Hw]%andb_true_iff.
  induction w as [|c w IH]; [done|]. cbn in *.
  apply andb_true_iff in Hw as [Hc Hw]. destruct w; [done|]. by apply IH.
Qed.

Lemma join_words_shape ws :
  Forall (λ w, is_word w = true) ws → ws ≠ [] →
  ends_nonspace (join " " ws) = true
  ∧ ∃ c s, join " " ws = String c s ∧ is_space c = false.
Proof.
  induction 1 as [|w ws Hw Hws IH]; [done|]. intros _.
  assert (Hfirst : ∃ c s, w = String c s ∧ is_space c = false).
  { unfold is_word in Hw. destruct w as [|c s]; [done|]. cbn in Hw.
    exists c, s. split; [done|]. unfold nonspace in Hw.
    apply andb_true_iff in Hw as [Hw _]. by apply negb_true_iff. }
  destruct ws as [|w' ws].
  - unfold join. cbn [String.concat]. split; [by apply is_word_ends_nonspace|done].
  - rewrite join_cons.
    destruct IH as [IH _]; [done|]. split.
    + apply ends_nonspace_app. cbn [String.append ends_nonspace].
      destruct (join " " (w' :: ws)) eqn:E; [by cbn in IH|exact IH].
    + destruct Hfirst as (c & s & -> & Hc). cbn. eauto.
Qed.

(** Words joined with single spaces have nothing to strip. *)
Lemma strip_join ws :
  Forall (λ w, is_word w = true) ws →
  strip (join " " ws) = join " " ws.
Proof.
  intros Hws. destruct ws as [|w ws]; [done|].
  destruct (join_words_shape (w :: ws) Hws) as (Hend & c & s & Hj & Hc); [done|].
  unfold strip. rewrite Hj in *. cbn [lstrip]. rewrite Hc.
  by apply rstrip_ends_nonspace.
Qed.


(** *** [readlines] and [writelines] *)




(** *** [replace] and [splitext] on the first field of a checklist line *)




Lemma rsplit1_none c s :
  str_forall (λ x, negb (Ascii.eqb x c)) s = true → rsplit1 c s = None.
Proof.
  induction s as [|x s IH]; [done|]. cbn. intros [Hx Hs]%andb_true_iff.
  rewrite IH by done. apply negb_true_iff in Hx. by rewrite Hx.
Qed.

Lemma rsplit1_last c a t :
  str_forall (λ x, negb (Ascii.eqb x c)) t = true →
  rsplit1 c (a +:+ String c t) = Some (a, t).
Proof.
  intros Ht. induction a as [|x a IH].
  - cbn. rewrite rsplit1_none by done. by rewrite Ascii.eqb_refl.
  - cbn. by rewrite IH.
Qed.

Lemma span_dots_nodot c s :
  Ascii.eqb c "." = false → span_dots (String c s) = ("", String c s).
Proof. by destruct c as [[] [] [] [] [] [] [] []]. Qed.


End StringFacts.

(** ** datman/utils.py *)

Lemma sorted_perm l1 l2 : l1 ≡ₚ l2 → Py.sorted l1 = Py.sorted l2.
Proof.
  intros Hp. unfold Py.sorted.
  apply (Sorted_unique String.le); try apply Sorted_merge_sort; try apply _.
  by rewrite !merge_sort_Permutation.
Qed.

Section UtilsFacts.

Import Utils.

Context `{Scanid} `{DashBackend} `{Interpreter}.

Lemma locate_metadata_path filename study subject config p w :
  Py.truthy p = true →
  locate_metadata filename study subject config (Some p) w = (Ok p, w).
Proof. intros Hp. unfold locate_metadata. cbn. by rewrite Hp. Qed.

(** *** [write_metadata] *)

Lemma write_metadata_fail_step depth lines path retry residue rest w :
  retry ≠ 0 →
  io w = WriteFails residue :: rest →
  write_metadata (S depth) lines path retry w
  = write_metadata depth lines path (retry - 1)
      (World (match residue with
              | Some r => <[path := r]> (files w)
              | None => files w
              end) rest (tail (waits w))
             (trace w ++ failed_attempts path retry (waits w) 1)).
Proof.
  intros Hr Hio. cbn [write_metadata].
  rewrite bool_decide_eq_false_2 by done.
  unfold mbind, St_bind, open_write. rewrite Hio.
  unfold log_error, sleep, emit, random_uniform. cbn.
  destruct (waits w) as [|t ts]; cbn; by rewrite <-!app_assoc.
Qed.

(** After [n] failed writes the function is where it started, with [n] fewer
  tries and [n] calls deeper. *)
Lemma write_metadata_failures depth lines path retry residues rest w :
  (length residues < depth)%nat →
  (retry < 0 ∨ Z.of_nat (length residues) ≤ retry) →
  io w = (WriteFails <$> residues) ++ rest →
  ∃ fs,
    write_metadata depth lines path retry w
    = write_metadata (depth - length residues) lines path
        (retry - Z.of_nat (length residues))
        (World fs rest (drop (length residues) (waits w))
               (trace w ++ failed_attempts path retry (waits w) (length residues))).
Proof.
  revert depth retry w.
  induction residues as [|r rs IH]; intros depth retry w Hd Hr Hio.
  - cbn in *. exists (files w). rewrite Nat.sub_0_r, Z.sub_0_r, app_nil_r, drop_0.
    destruct w; cbn in *; by subst.
  - cbn [length fmap list_fmap] in *. destruct depth as [|depth]; [lia|].
    cbn in Hio.
    destruct (decide (retry = 0)) as [->|Hne]; [lia|].
    rewrite (write_metadata_fail_step depth lines path retry r
               ((WriteFails <$> rs) ++ rest) w Hne Hio).
    match goal with |- context [write_metadata depth lines path (retry - 1) ?w1] =>
      destruct (IH depth (retry - 1) w1) as (fs & Hrun); [lia|lia|done|]
    end.
    rewrite Hrun. cbn [io waits trace files].
    exists fs. f_equal; [lia|]. f_equal.
    + destruct (waits w); cbn; [by rewrite drop_nil|done].
    + rewrite <-app_assoc. done.
Qed.

(** A write that succeeds within the retry budget. *)
Lemma write_metadata_succeeds depth lines path retry residues rest w :
  (length residues < depth)%nat →
  Z.of_nat (length residues) < retry →
  io w = (WriteFails <$> residues) ++ rest →
  (∀ r, head rest ≠ Some (WriteFails r)) →
  ∃ fs,
    write_metadata depth lines path retry w
    = (Ok (),
       World (<[path := Py.writelines lines]> fs) (tail rest)
             (drop (length residues) (waits w))
             (trace w ++ failed_attempts path retry (waits w) (length residues)
              ++ [EvWrite path true])).
Proof.
  intros Hd Hr Hio Hok.
  destruct (write_metadata_failures depth lines path retry residues rest w)
    as (fs & Hrun); [lia|lia|done|].
  rewrite Hrun. exists fs.
  destruct (depth - length residues)%nat as [|d] eqn:Ed; [lia|].
  cbn [write_metadata]. rewrite bool_decide_eq_false_2 by lia.
  unfold mbind, St_bind, open_write. cbn [io files waits trace].
  destruct rest as [|[|r] rest]; [| |by destruct (Hok r)];
    cbn; by rewrite <-app_assoc.
Qed.

Lemma failed_attempts_writes path retry ws n :
  write_attempts (failed_attempts path retry ws n) = replicate n false.
Proof.
  revert retry ws. induction n as [|n IH]; intros retry ws; [done|].
  cbn. by rewrite IH.
Qed.

Lemma failed_attempts_sleeps path retry ws n :
  (n ≤ length ws)%nat →
  sleeps (failed_attempts path retry ws n) = take n ws.
Proof.
  revert retry ws. induction n as [|n IH]; intros retry ws Hn; [done|].
  destruct ws as [|t ts]; cbn in Hn; [lia|].
  cbn. f_equal. apply IH. lia.
Qed.

(** C6: if the write fails at each of its [retry] attempts, [write_metadata]
  makes exactly those attempts, each followed by an error log and a sleep of
  the next random duration, and then raises a [MetadataException] that names
  the path; if an attempt succeeds before the budget is spent, it returns
  normally and the file holds exactly the given lines. *)
Theorem write_metadata_retries depth lines path retry residues rest w :
  0 ≤ retry →
  (Z.to_nat retry < depth)%nat →
  io w = (WriteFails <$> residues) ++ rest →
  (length residues = Z.to_nat retry →
   ∃ w',
     write_metadata depth lines path retry w
     = (Raise (MetadataException ("Failed to update " +:+ path)), w')
     ∧ trace w' = trace w ++ failed_attempts path retry (waits w) (Z.to_nat retry)
     ∧ write_attempts (trace w')
       = write_attempts (trace w) ++ replicate (Z.to_nat retry) false
     ∧ ((Z.to_nat retry ≤ length (waits w))%nat →
        sleeps (trace w') = sleeps (trace w) ++ take (Z.to_nat retry) (waits w)))
  ∧ ((length residues < Z.to_nat retry)%nat →
     (∀ r, head rest ≠ Some (WriteFails r)) →
     ∃ w',
       write_metadata depth lines path retry w = (Ok (), w')
       ∧ files w' !! path = Some (Py.writelines lines)
       ∧ trace w'
         = trace w ++ failed_attempts path retry (waits w) (length residues)
           ++ [EvWrite path true]).
Proof.
  intros Hr Hd Hio. split.
  - intros Hlen.
    destruct (write_metadata_failures depth lines path retry residues rest w)
      as (fs & Hrun); [lia|lia|done|].
    rewrite Hrun, Hlen. eexists. split; [|split; [|split]].
    + destruct (depth - Z.to_nat retry)%nat as [|d] eqn:Ed; [lia|].
      cbn [write_metadata]. rewrite bool_decide_eq_true_2 by lia. reflexivity.
    + reflexivity.
    + cbn [trace]. unfold write_attempts. rewrite omap_app. f_equal.
      apply failed_attempts_writes.
    + intros Hw. cbn [trace]. unfold sleeps. rewrite omap_app. f_equal.
      by apply failed_attempts_sleeps.
  - intros Hlen Hok.
    destruct (write_metadata_succeeds depth lines path retry residues rest w)
      as (fs & Hrun); [lia|lia|done|done|].
    rewrite Hrun. eexists. split; [reflexivity|]. split; [|reflexivity].
    cbn. apply lookup_insert_eq.
Qed.

(** *** [get_subject_metadata] *)

Lemma complaint_insert all_qc k old new e :
  all_qc !! k = Some old →
  complaint (<[k := new]> all_qc) e = complaint all_qc e.
Proof.
  intros Hk. unfold complaint. destruct (subject_of e) as [subid|]; [|done].
  destruct (decide (k = subid)) as [->|Hne].
  - by rewrite lookup_insert_eq, Hk.
  - by rewrite lookup_insert_ne.
Qed.

(** The loop appends to the list of every key it starts with the scan names
  that belong to it, and complains about the others. *)
Lemma collect_blacklisted_spec todo all_qc w :
  ∃ result,
    collect_blacklisted todo all_qc w
    = (Ok result,
       World (files w) (io w) (waits w)
             (trace w ++ omap (complaint all_qc) todo.*1))
    ∧ ∀ subid, result !! subid = (λ old, old ++ scans_of todo.*1 subid) <$> all_qc !! subid.
Proof.
  revert all_qc w. induction todo as [|[e r] todo IH]; intros all_qc w.
  - exists all_qc. cbn. rewrite app_nil_r. split; [by destruct w|].
    intros subid. destruct (all_qc !! subid); cbn; [|done]. by rewrite app_nil_r.
  - cbn [collect_blacklisted fmap list_fmap fst].
    destruct (scanid_parse_filename e) as [[[[i tag] series] desc]|] eqn:Ep.
    + assert (Hso : subject_of e = Some (get_full_subjectid_with_timepoint i))
        by (unfold subject_of; by rewrite Ep).
      destruct (all_qc !! get_full_subjectid_with_timepoint i) as [scans|] eqn:El.
      * destruct (IH (<[get_full_subjectid_with_timepoint i := scans ++ [e]]> all_qc) w)
          as (result & Hrun & Hres).
        rewrite Hrun. exists result. split.
        { do 3 f_equal. cbn [omap list_omap]. unfold complaint at 2.
          rewrite Hso, El. apply omap_pointwise. intros x. by eapply complaint_insert. }
        intros subid. rewrite Hres. unfold scans_of. rewrite filter_cons.
        destruct (decide (get_full_subjectid_with_timepoint i = subid)) as [Heq|Hne].
        -- subst subid. rewrite lookup_insert_eq. rewrite El. cbn.
           rewrite decide_True by exact Hso. by rewrite <-app_assoc.
        -- rewrite lookup_insert_ne by done.
           rewrite decide_False by (rewrite Hso; congruence). done.
      * destruct (IH all_qc
                    (World (files w) (io w) (waits w)
                       (trace w ++ [orphan_message (get_full_subjectid_with_timepoint i) e])))
          as (result & Hrun & Hres).
        unfold mbind, St_bind, log_error, emit.
        unfold orphan_message in Hrun. rewrite Hrun. exists result. split.
        { cbn [omap list_omap files io waits trace]. unfold complaint at 2.
          rewrite Hso, El. by rewrite <-app_assoc. }
        intros subid. rewrite Hres. unfold scans_of. rewrite filter_cons.
        destruct (all_qc !! subid) eqn:Es; [|done]. cbn.
        rewrite decide_False; [done|]. rewrite Hso. intros [= <-]. congruence.
    + assert (Hso : subject_of e = None) by (unfold subject_of; by rewrite Ep).
      destruct (IH all_qc
                  (World (files w) (io w) (waits w) (trace w ++ [malformed_message e])))
        as (result & Hrun & Hres).
      unfold mbind, St_bind, log_error, emit.
      unfold malformed_message in Hrun. rewrite Hrun. exists result. split.
      { cbn [omap list_omap files io waits trace]. unfold complaint at 2.
        rewrite Hso. by rewrite <-app_assoc. }
      intros subid. rewrite Hres. unfold scans_of. rewrite filter_cons.
      rewrite decide_False by (by rewrite Hso). done.
Qed.

Lemma lookup_signed_off checklist subid :
  signed_off checklist !! subid
  = match checklist !! subid with
    | Some c => if Py.truthy c then Some [] else None
    | None => None
    end.
Proof.
  unfold signed_off. rewrite lookup_fmap.
  destruct (checklist !! subid) as [c|] eqn:E.
  - destruct (Py.truthy c) eqn:Ec.
    + erewrite map_lookup_filter_Some_2; [done|done|done].
    + rewrite map_lookup_filter_None_2; [done|]. right. intros c' ?. simplify_eq. cbn. congruence.
  - rewrite map_lookup_filter_None_2; [done|]. by left.
Qed.

(** C7: given the checklist and the blacklist that the two reads return,
  [get_subject_metadata] returns a mapping whose keys are exactly the
  checklist subjects with a non-empty comment; a well-formed blacklist entry
  whose subject is one of those keys is in that key's list; a blacklist entry
  whose subject is not in the checklist is logged as an inconsistency, adds no
  key and is in no list; and so is every blacklist entry whose subject is not
  one of the keys, the subjects of the checklist without a comment
  included. *)
Theorem get_subject_metadata_keys_and_orphans config study checklist blacklist w w1 w2 :
  read_checklist None None (Some config) None w = (Ok (Entries checklist), w1) →
  read_blacklist None None None (Some config) None w1 = (Ok (Entries blacklist), w2) →
  ∃ all_qc w',
    get_subject_metadata (Some config) study w = (Ok all_qc, w')
    ∧ (∀ subid, subid ∈ dom all_qc
                ↔ (∃ c, checklist !! subid = Some c ∧ c ≠ ""))
    ∧ (∀ bl_entry subid,
         bl_entry ∈ dom blacklist → subject_of bl_entry = Some subid →
         subid ∈ dom all_qc →
         ∃ scans, all_qc !! subid = Some scans ∧ bl_entry ∈ scans)
    ∧ (∀ bl_entry subid,
         bl_entry ∈ dom blacklist → subject_of bl_entry = Some subid →
         checklist !! subid = None →
         orphan_message subid bl_entry ∈ trace w'
         ∧ (subid ∉ dom all_qc)
         ∧ (∀ k scans, all_qc !! k = Some scans → bl_entry ∉ scans))
    ∧ (∀ bl_entry subid,
         bl_entry ∈ dom blacklist → subject_of bl_entry = Some subid →
         subid ∉ dom all_qc →
         orphan_message subid bl_entry ∈ trace w'
         ∧ (∀ k scans, all_qc !! k = Some scans → bl_entry ∉ scans)).
Proof.
  intros Hcl Hbl.
  destruct (collect_blacklisted_spec (dict_items blacklist) (signed_off checklist) w2)
    as (all_qc & Hrun & Hres).
  exists all_qc. eexists. split.
  { unfold get_subject_metadata.
    erewrite (bind_ok (mret config)); [|reflexivity].
    rewrite (bind_ok _ _ _ _ _ Hcl). rewrite (bind_ok _ _ _ _ _ Hbl). exact Hrun. }
  assert (Hkeys : ∀ e, e ∈ (dict_items blacklist).*1 ↔ e ∈ dom blacklist).
  { intros e. rewrite (dict_items_perm blacklist). rewrite elem_of_dom.
    rewrite list_elem_of_fmap. split.
    - intros [[k v] [-> Hin]]. apply elem_of_map_to_list in Hin. cbn. eauto.
    - intros [v Hv]. exists (e, v). split; [done|]. by apply elem_of_map_to_list. }
  assert (Hdom : ∀ subid, subid ∈ dom all_qc
                          ↔ (∃ c, checklist !! subid = Some c ∧ c ≠ "")).
  { intros subid. rewrite elem_of_dom, Hres, lookup_signed_off.
    destruct (checklist !! subid) as [c|]; cbn.
    - unfold Py.truthy. destruct (String.eqb_spec c ""); cbn.
      + split; [by intros [? ?]|]. intros (c' & ? & ?). simplify_eq.
      + split; [eauto|]. intros _. eauto.
    - split; [by intros [? ?]|]. by intros (? & ? & ?). }
  split; [exact Hdom|]. split.
  { intros bl_entry subid Hin Hsub Hd. apply elem_of_dom in Hd as [scans Hsc].
    exists scans. split; [done|]. rewrite Hres in Hsc.
    destruct (signed_off checklist !! subid) as [old|]; [|done]. cbn in Hsc.
    injection Hsc as <-. apply elem_of_app. right. unfold scans_of.
    apply list_elem_of_filter. split; [done|]. by apply Hkeys. }
  assert (Horphan : ∀ bl_entry subid,
            bl_entry ∈ dom blacklist → subject_of bl_entry = Some subid →
            subid ∉ dom all_qc →
            orphan_message subid bl_entry
              ∈ trace (World (files w2) (io w2) (waits w2)
                         (trace w2 ++ omap (complaint (signed_off checklist))
                                        (dict_items blacklist).*1))
            ∧ (∀ k scans, all_qc !! k = Some scans → bl_entry ∉ scans)).
  { intros bl_entry subid Hin Hsub Hno.
    assert (Hunsigned : signed_off checklist !! subid = None).
    { apply not_elem_of_dom in Hno. rewrite Hres in Hno.
      by destruct (signed_off checklist !! subid). }
    split.
    - cbn. apply elem_of_app. right. apply list_elem_of_omap.
      exists bl_entry. split; [by apply Hkeys|]. unfold complaint.
      by rewrite Hsub, Hunsigned.
    - intros k scans Hk Hin'. rewrite Hres in Hk.
      destruct (signed_off checklist !! k) as [old|] eqn:Ek; [|done].
      cbn in Hk. injection Hk as <-.
      apply elem_of_app in Hin' as [Hin'|Hin'].
      + rewrite lookup_signed_off in Ek. destruct (checklist !! k); [|done].
        destruct (Py.truthy _); [|done]. cbn in Ek. injection Ek as <-.
        by apply elem_of_nil in Hin'.
      + unfold scans_of in Hin'. apply list_elem_of_filter in Hin' as [Hs _].
        congruence. }
  split; [|exact Horphan].
  intros bl_entry subid Hin Hsub Hnone.
  assert (Hno : subid ∉ dom all_qc).
  { rewrite Hdom. intros (c & ? & ?). congruence. }
  destruct (Horphan bl_entry subid Hin Hsub Hno) as [Hlog Hin'].
  split; [exact Hlog|]. split; [exact Hno|exact Hin'].
Qed.

End UtilsFacts.

Section MetadataFiles.

Import Utils.

Context `{Scanid} `{DashBackend} `{Interpreter}.

(** *** The blacklist file *)

Lemma parse_blacklist_lines_total lines d w :
  ∃ d' w',
    parse_blacklist_lines lines None None (Some d) w = (Ok (Entries d'), w')
    ∧ same_files w w'.
Proof.
  revert d w. induction lines as [|line lines IH]; intros d w.
  - by eexists _, _.
  - cbn [parse_blacklist_lines].
    assert (Hlog : ∀ msg d, ∃ d' w',
      (log_info msg;; parse_blacklist_lines lines None None (Some d)) w
        = (Ok (Entries d'), w') ∧ same_files w w').
    { intros msg d0.
      destruct (IH d0 (World (files w) (io w) (waits w) (trace w ++ [EvLog "INFO" msg])))
        as (d' & w' & Hrun & Hs).
      exists d', w'. split; [exact Hrun|exact Hs]. }
    destruct (Py.re_split (Py.strip line)) as [|scan_name comment]; [apply Hlog|].
    destruct (scanid_parse_filename scan_name); [|apply Hlog].
    destruct (String.eqb scan_name "series"); [apply IH|].
    cbn [Py.otruthy andb].
    destruct (dict_truthy d && bool_decide (is_Some (d !! scan_name)));
      [apply Hlog|apply IH].
Qed.

(** Reading an existing blacklist file by its path gives a dictionary. *)
Lemma read_blacklist_path p content w :
  Py.truthy p = true →
  files w !! p = Some content →
  ∃ old w1,
    read_blacklist None None None None (Some p) w = (Ok (Entries old), w1)
    ∧ same_files w w1.
Proof.
  intros Hp Hf. unfold read_blacklist. cbn [Py.otruthy]. rewrite Hp. cbn [negb].
  rewrite andb_false_r.
  rewrite (bind_ok _ _ _ _ _ (locate_metadata_path _ _ _ _ _ _ Hp)).
  unfold try_except, open_read. unfold mbind at 1. unfold St_bind at 1. rewrite Hf.
  unfold _parse_blacklist. cbn [Py.otruthy].
  destruct (parse_blacklist_lines_total (Py.readlines content) ∅ w)
    as (old & w1 & Hrun & Hs).
  rewrite Hrun. by exists old, w1.
Qed.

Lemma merge_blacklist_spec l acc w :
  NoDup l.*1 →
  (∀ k v, (k, v) ∈ l → is_Some (scanid_parse_filename k)) →
  merge_blacklist l acc w
  = (Ok (list_to_map (filter (λ kv, Py.truthy kv.2 = true) l) ∪ acc),
     World (files w) (io w) (waits w)
           (trace w ++ omap (λ kv, if Py.truthy kv.2 then None
                                   else Some (skip_message kv.1)) l)).
Proof.
  revert acc w. induction l as [|[k v] l IH]; intros acc w Hnd Hvalid.
  - cbn. rewrite (left_id_L ∅ (∪)), app_nil_r. by destruct w.
  - cbn [merge_blacklist]. destruct (Hvalid k v) as [x Hx]; [left|]. rewrite Hx.
    inversion Hnd as [|?? Hk Hnd']; subst.
    assert (Hvalid' : ∀ k v, (k, v) ∈ l → is_Some (scanid_parse_filename k))
      by (intros; eapply Hvalid; by right).
    rewrite filter_cons. cbn [snd fst omap list_omap].
    destruct (Py.truthy v) eqn:Ev; cbn [negb].
    + rewrite decide_True by done. rewrite IH by done. cbn [list_to_map foldr].
      f_equal. f_equal.
      rewrite <-insert_union_l, <-insert_union_r; [done|].
      apply not_elem_of_list_to_map. intros Hin.
      apply Hk. apply list_elem_of_fmap in Hin as [[k' v'] [-> Hin]].
      apply list_elem_of_filter in Hin as [_ Hin].
      apply list_elem_of_fmap. by exists (k', v').
    + rewrite decide_False by done.
      unfold mbind, St_bind, log_error, emit. rewrite IH by done.
      cbn. by rewrite <-app_assoc.
Qed.

Lemma lookup_blacklist_merge entries old k :
  blacklist_merge entries old !! k
  = match entries !! k with
    | Some v => if Py.truthy v then Some v else old !! k
    | None => old !! k
    end.
Proof.
  unfold blacklist_merge. rewrite lookup_union.
  destruct (entries !! k) as [v|] eqn:E.
  - destruct (Py.truthy v) eqn:Ev.
    + erewrite map_lookup_filter_Some_2; [|done|done]. by destruct (old !! k).
    + rewrite map_lookup_filter_None_2; [by destruct (old !! k)|].
      right. intros v' ?. simplify_eq. cbn. congruence.
  - rewrite map_lookup_filter_None_2; [by destruct (old !! k)|]. by left.
Qed.

Lemma NoDup_fst_filter_items (P : string * string → Prop) `{∀ x, Decision (P x)}
    (entries : gmap string string) :
  NoDup (filter P (dict_items entries)).*1.
Proof.
  eapply NoDup_fmap_fst.
  - intros k' v1 v2 Hin1 Hin2.
    apply list_elem_of_filter in Hin1 as [_ Hin1], Hin2 as [_ Hin2].
    rewrite (dict_items_perm entries) in Hin1, Hin2.
    apply elem_of_map_to_list in Hin1, Hin2. congruence.
  - apply NoDup_filter. rewrite (dict_items_perm entries). apply NoDup_map_to_list.
Qed.

Lemma list_to_map_filter_items (P : string * string → Prop) `{∀ x, Decision (P x)}
    (entries : gmap string string) :
  list_to_map (filter P (dict_items entries)) = filter P entries.
Proof.
  apply map_eq. intros k.
  destruct (filter P entries !! k) as [v|] eqn:E.
  - apply map_lookup_filter_Some in E as [E HP].
    apply elem_of_list_to_map; [apply NoDup_fst_filter_items|].
    apply list_elem_of_filter. split; [done|].
    rewrite (dict_items_perm entries). by apply elem_of_map_to_list.
  - destruct (list_to_map (filter P (dict_items entries)) !! k) as [v|] eqn:E'; [|done].
    apply elem_of_list_to_map in E'; [|apply NoDup_fst_filter_items].
    apply list_elem_of_filter in E' as [HP E'].
    rewrite (dict_items_perm entries) in E'. apply elem_of_map_to_list in E'.
    assert (filter P entries !! k = Some v) by (by apply map_lookup_filter_Some).
    congruence.
Qed.

(** Whatever the order of the loop, merging a delta of valid scan names gives
  [blacklist_merge], and each entry without a reason is logged. *)
Lemma merge_blacklist_dict entries old w :
  (∀ k, k ∈ dom entries → is_Some (scanid_parse_filename k)) →
  ∃ tr,
    merge_blacklist (dict_items entries) old w
    = (Ok (blacklist_merge entries old),
       World (files w) (io w) (waits w) (trace w ++ tr))
    ∧ ∀ k, entries !! k = Some "" → skip_message k ∈ tr.
Proof.
  intros Hvalid.
  assert (Hperm := dict_items_perm entries).
  rewrite merge_blacklist_spec; first last.
  { intros k v Hin. apply Hvalid. rewrite Hperm in Hin.
    apply elem_of_map_to_list in Hin. apply elem_of_dom. eauto. }
  { rewrite Hperm. apply NoDup_fst_map_to_list. }
  eexists. split.
  - rewrite list_to_map_filter_items. reflexivity.
  - intros k Hk. apply list_elem_of_omap. exists (k, ""). split; [|done].
    rewrite Hperm. by apply elem_of_map_to_list.
Qed.

(** C8, as amended: for a delta whose keys are all valid scan names, an
  existing blacklist file and a write that succeeds within the three tries,
  [update_blacklist] returns normally and the file then holds the header and
  the sorted lines of the merge; an entry with an empty reason is skipped
  with a log message and leaves what the file said about its scan as it was
  (absent if it was absent), the entries with a reason are merged in, and the
  scans the delta does not name keep their entry. *)
Theorem update_blacklist_skips_empty entries p content residues rest w :
  Py.truthy p = true →
  files w !! p = Some content →
  (∀ k, k ∈ dom entries → is_Some (scanid_parse_filename k)) →
  io w = (WriteFails <$> residues) ++ rest →
  (length residues < 3)%nat →
  (length residues < stack_depth)%nat →
  (∀ r, head rest ≠ Some (WriteFails r)) →
  ∃ old w1 w',
    read_blacklist None None None None (Some p) w = (Ok (Entries old), w1)
    ∧ update_blacklist entries None None (Some p) w = (Ok (), w')
    ∧ files w' !! p
      = Some (Py.writelines
                (blacklist_header
                 :: Py.sorted (blacklist_line <$> map_to_list (blacklist_merge entries old))))
    ∧ (∀ k, entries !! k = Some "" →
         blacklist_merge entries old !! k = old !! k ∧ skip_message k ∈ trace w')
    ∧ (∀ k v, entries !! k = Some v → v ≠ "" → blacklist_merge entries old !! k = Some v)
    ∧ (∀ k, entries !! k = None → blacklist_merge entries old !! k = old !! k).
Proof.
  intros Hp Hf Hvalid Hio Hlen Hdepth Hok.
  destruct (read_blacklist_path p content w Hp Hf) as (old & w1 & Hread & Hs1).
  destruct Hs1 as (Hf1 & Hio1 & Hw1).
  destruct (merge_blacklist_dict entries old w1 Hvalid) as (tr & Hmerge & Hlog).
  match type of Hmerge with _ = (_, ?w2) =>
    destruct (write_metadata_succeeds stack_depth
                (blacklist_header
                 :: Py.sorted (blacklist_line <$> dict_items (blacklist_merge entries old)))
                p default_retry residues rest w2)
      as (fs & Hwrite)
  end; [done|unfold default_retry; lia|cbn; congruence|done|].
  exists old, w1. eexists. split; [done|]. split.
  { unfold update_blacklist. cbn [Py.otruthy]. rewrite Hp. cbn [negb].
    rewrite andb_false_r.
    rewrite (bind_ok _ _ _ _ _ (locate_metadata_path _ _ _ _ _ _ Hp)).
    rewrite (bind_ok _ _ _ _ _ Hread).
    rewrite (bind_ok _ _ _ _ _ Hmerge). exact Hwrite. }
  split.
  { cbn [files]. rewrite lookup_insert_eq. do 3 f_equal. apply sorted_perm.
    by rewrite (dict_items_perm (blacklist_merge entries old)). }
  split; [|split].
  - intros k Hk. split.
    + by rewrite lookup_blacklist_merge, Hk.
    + cbn [trace]. apply elem_of_app. left. apply elem_of_app. right.
      by apply Hlog.
  - intros k v Hk Hv. rewrite lookup_blacklist_merge, Hk.
    unfold Py.truthy. by destruct (String.eqb_spec v "").
  - intros k Hk. by rewrite lookup_blacklist_merge, Hk.
Qed.

(** *** The checklist file *)


Lemma words_normalized ws :
  Forall (λ w, Py.is_word w = true) ws →
  normalized (Py.strip (Py.join " " ws)) = true.
Proof.
  intros Hws. unfold normalized. rewrite !(strip_join ws) by done.
  rewrite split_join by done. rewrite (strip_join ws) by done. apply String.eqb_refl.
Qed.



Lemma parse_checklist_lines_total lines d w :
  entry_ok d →
  ∃ d' w',
    parse_checklist_lines lines None (Some d) w = (Ok (Entries d'), w')
    ∧ same_files w w' ∧ entry_ok d'.
Proof.
  revert d w. induction lines as [|line lines IH]; intros d w Hd.
  - by eexists _, _.
  - cbn [parse_checklist_lines].
    assert (Hlog : ∀ lvl msg, ∃ d' w',
      (emit (EvLog lvl msg);; parse_checklist_lines lines None (Some d)) w
        = (Ok (Entries d'), w') ∧ same_files w w' ∧ entry_ok d').
    { intros lvl msg.
      destruct (IH d (World (files w) (io w) (waits w) (trace w ++ [EvLog lvl msg])) Hd)
        as (d' & w' & Hrun & Hs & Hok).
      exists d', w'. split; [exact Hrun|]. split; [exact Hs|exact Hok]. }
    pose proof (split_words line) as Hwords.
    destruct (Py.split line) as [|field0 fields]; [by apply IH|].
    destruct (scanid_parse _) as [i|] eqn:Ep; [|apply Hlog].
    destruct (dict_truthy d && bool_decide (is_Some (d !! _))); [apply Hlog|].
    cbn [Py.otruthy]. apply IH.
    intros k v. rewrite lookup_insert. case_decide as Hk.
    + intros [= <-]. subst k. split; [by rewrite Ep|].
      apply words_normalized. by inversion Hwords.
    + apply Hd.
Qed.

(** Reading an existing checklist file by its path gives a dictionary of
  parsable subject IDs and normalized comments. *)
Lemma read_checklist_path p content w :
  Py.truthy p = true →
  files w !! p = Some content →
  ∃ old w1,
    read_checklist None None None (Some p) w = (Ok (Entries old), w1)
    ∧ same_files w w1 ∧ entry_ok old
    ∧ (parse_checklist_lines (Py.readlines content) None (Some ∅)
         (World (files w) (io w) (waits w)
            (trace w ++ [EvLog "INFO" ("Dashboard not found, attempting to find a checklist "
                  +:+ "metadata file instead.")]))
       = (Ok (Entries old), w1)).
Proof.
  intros Hp Hf. unfold read_checklist. cbn [Py.otruthy]. rewrite Hp.
  cbn [orb negb bool_decide]. rewrite orb_true_r. cbn [negb].
  erewrite (bind_ok (mret None)); [|reflexivity].
  rewrite andb_false_r.
  erewrite (bind_ok (log_info _)); [|reflexivity].
  rewrite (bind_ok _ _ _ _ _ (locate_metadata_path _ _ _ _ _ _ Hp)).
  unfold try_except, open_read. unfold mbind at 1. unfold St_bind at 1.
  cbn [files]. rewrite Hf.
  unfold _parse_checklist. cbn [Py.otruthy].
  match goal with |- context [parse_checklist_lines _ _ _ ?w0] =>
    destruct (parse_checklist_lines_total (Py.readlines content) ∅ w0)
      as (old & w1 & Hrun & Hs & Hok)
  end; [by intros k v; rewrite lookup_empty|].
  exists old, w1. split; [by rewrite Hrun|]. split; [exact Hs|]. split; [exact Hok|].
  exact Hrun.
Qed.










End MetadataFiles.

Section DashboardFacts.

Import Dashboard.

Context `{Scanid} `{DashEnv}.

Lemma otruthy_ne (a b : option string) :
  Py.otruthy a = true → Py.otruthy b = false → a ≠ b.
Proof. intros Ha Hb ->. congruence. Qed.

(** The date given to [get_add_session] is parsed without touching the
  database. *)
Lemma session_date_parsed (date : option string) name w :
  (Py.otruthy date = true → is_Some (strptime (default "" date))) →
  ∃ d,
    (if Py.otruthy date then
       match strptime (default "" date) with
       | Some d => mret (DateTime d)
       | None =>
           log "ERROR" ("Invalid date:" +:+ default "" date +:+ " for session:"
                        +:+ name);;
           raise (DashboardException "Invalid date")
       end
     else mret (match date with Some s => DateStr s | None => DateNone end)) w
    = (Ok d, w).
Proof.
  intros Hdate. destruct (Py.otruthy date) eqn:E.
  - destruct (Hdate eq_refl) as [d ->]. by eexists.
  - by eexists.
Qed.

(** C1: for a session name that parses, a site of the study and a date that
  parses, when the session query returns more than one row,
  [get_add_session] touches no session row and raises no
  [DashboardException] of its own: neither branch of the count binds
  [dashboard_session], so the call ends in [UnboundLocalError] for
  [dashboard_session] (or for [cl_comment], when the checklist check raised
  [ValueError]), passes on another exception of the checklist check, or,
  with an empty checklist comment and a failing commit, returns [None]. *)
Theorem get_add_session_ambiguous_match study name date create w id site0 rest :
  scanid_parse name = Some id →
  filter (λ site, site_name site = ident_site id) (sites study) = site0 :: rest →
  (Py.otruthy date = true → is_Some (strptime (default "" date))) →
  (1 < length (session_query w study name))%nat →
  ∃ r w',
    get_add_session (Some study) name date create w = (r, w')
    ∧ sessions w' = sessions w
    ∧ match check_checklist name (nickname study) with
      | Ok c =>
          r = Raise (UnboundLocalError "dashboard_session")
          ∨ (Py.otruthy c = false ∧ head (db_ok w) = Some false ∧ r = Ok RetNone)
      | Raise (ValueError m) => r = Raise (UnboundLocalError "cl_comment")
      | Raise e => r = Raise e
      end.
Proof.
  intros Hparse Hsite Hdate Hcount.
  unfold get_add_session. rewrite Hparse, Hsite.
  unfold mbind at 1. unfold St_bind at 1.
  destruct (session_date_parsed date name w Hdate) as [d ->].
  unfold mbind, St_bind, mret, St_ret, get_db, raise, try_except, log.
  rewrite !bool_decide_eq_false_2 by lia.
  destruct (check_checklist name (nickname study)) as [c|e].
  - destruct (Py.otruthy c) eqn:Ec.
    + eexists _, _. split; [reflexivity|]. split; [reflexivity|]. by left.
    + unfold commit_session, mbind, St_bind, db_attempt.
      destruct (db_ok w) as [|[] rest'] eqn:E; cbn.
      * eexists _, _. split; [reflexivity|]. split; [reflexivity|]. by left.
      * eexists _, _. split; [reflexivity|]. split; [reflexivity|]. by left.
      * eexists _, _. split; [reflexivity|]. split; [reflexivity|]. by right.
  - destruct e; eexists _, _; (split; [reflexivity|]); split; reflexivity.
Qed.

(** The reconciliation on its own, for any scan, found or new: it never
  fails, touches no row, and changes at most [bl_comment], to a non-empty
  comment of the blacklist that the scan did not have. *)
Lemma reconcile_blacklist_spec bl sc w :
  ∃ sc' w',
    reconcile_blacklist (Some bl) sc w = (Ok sc', w')
    ∧ scans w' = scans w ∧ links w' = links w ∧ db_ok w' = db_ok w
    ∧ (sc' = sc
       ∨ (Py.otruthy bl = true ∧ bl ≠ bl_comment sc ∧ sc' = set_bl_comment bl sc))
    ∧ (Py.otruthy bl = false → bl ≠ bl_comment sc →
       stale_comment_message sc ∈ dlog w').
Proof.
  unfold reconcile_blacklist, stale_comment_message, mbind, St_bind, log, mret, St_ret.
  destruct (Py.otruthy bl) eqn:Ebl; cbn [negb andb];
    destruct (bool_decide (bl = bl_comment sc)) eqn:Eeq; cbn [negb].
  - eexists _, _. split; [reflexivity|]. repeat split; auto. intros; congruence.
  - apply bool_decide_eq_false_1 in Eeq.
    eexists _, _. split; [reflexivity|]. repeat split; auto. intros; congruence.
  - apply bool_decide_eq_true_1 in Eeq.
    eexists _, _. split; [reflexivity|]. repeat split; auto. intros; congruence.
  - eexists _, _. split; [reflexivity|]. cbn. repeat split; auto. intros _ _. set_solver.
Qed.

(** C9: when [get_add_scan] finds the scan in the database, the scan it
  returns (and writes, unless the commit fails and [DashboardException] is
  raised) differs from the stored one at most in [bl_comment]; the comment is
  assigned only when the blacklist's comment is non-empty and differs from the
  stored one, so a stored comment is never replaced by an empty one; and a
  stored comment that the blacklist does not have is left as it is and
  reported in the log. *)
Theorem get_add_scan_blacklist_reconciliation
    study name create w id tag series desc repeat sc bl :
  scanid_parse_filename name = Some (id, tag, series, desc) →
  scan_repeat id = Ok repeat →
  scan_query w (get_full_subjectid_with_timepoint id) (nickname study)
    (ident_str id +:+ "_" +:+ tag +:+ "_" +:+ series) repeat = [sc] →
  check_blacklist name (nickname study) = Ok bl →
  ∃ r w' sc',
    get_add_scan (Some study) name create w = (r, w')
    ∧ (r = Ok (Some sc') ∧ scans w' = upsert scan_id sc' (scans w)
       ∨ r = Raise (DashboardException "") ∧ scans w' = scans w)
    ∧ (bl_comment sc' ≠ bl_comment sc →
       Py.otruthy bl = true ∧ bl ≠ bl_comment sc ∧ sc' = set_bl_comment bl sc)
    ∧ (bl_comment sc' = bl_comment sc → sc' = sc)
    ∧ (Py.otruthy bl = true → bl_comment sc' = bl)
    ∧ (Py.otruthy (bl_comment sc) = true → Py.otruthy (bl_comment sc') = true)
    ∧ (Py.otruthy (bl_comment sc) = true → Py.otruthy bl = false →
       sc' = sc ∧ stale_comment_message sc ∈ dlog w').
Proof.
  intros Hparse Hrep Hq Hbl.
  unfold get_add_scan. rewrite Hparse. cbv zeta.
  unfold lift, mbind, St_bind, get_db. rewrite Hrep, Hq. cbn [length].
  rewrite bool_decide_eq_true_2 by reflexivity.
  unfold log, mret, St_ret. cbn [head option_map].
  rewrite Hbl.
  unfold try_except, reconcile_blacklist, commit, mbind, St_bind, mret, St_ret, raise, log.
  destruct (Py.otruthy bl) eqn:Ebl; cbn [negb andb].
  - destruct (bool_decide (bl = bl_comment sc)) eqn:Eeq; cbn [negb].
    + apply bool_decide_eq_true_1 in Eeq.
      unfold db_attempt; cbn [db_ok].
      destruct (db_ok w) as [|[] rest]; cbn;
        eexists _, _, sc; (split; [reflexivity|]);
        (split; [first [by left | by right]|]); repeat split; try done.
    + apply bool_decide_eq_false_1 in Eeq.
      unfold db_attempt; cbn [db_ok].
      destruct (db_ok w) as [|[] rest]; cbn;
        eexists _, _, (set_bl_comment bl sc); (split; [reflexivity|]);
        (split; [first [by left | by right]|]); repeat split; try done;
        try (intros; cbn in *; congruence).
  - destruct (bool_decide (bl = bl_comment sc)) eqn:Eeq; cbn [negb].
    + apply bool_decide_eq_true_1 in Eeq.
      unfold db_attempt; cbn [db_ok].
      destruct (db_ok w) as [|[] rest]; cbn;
        eexists _, _, sc; (split; [reflexivity|]);
        (split; [first [by left | by right]|]); repeat split; try done;
        intros; congruence.
    + unfold db_attempt; cbn [db_ok dlog].
      destruct (db_ok w) as [|[] rest]; cbn;
        eexists _, _, sc; (split; [reflexivity|]);
        (split; [first [by left | by right]|]); repeat split; try done;
        unfold stale_comment_message; set_solver.
Qed.

Lemma db_attempt_cases w :
  (∃ w', db_attempt w = (Ok true, w') ∧ links w' = links w)
  ∨ (∃ w', db_attempt w = (Ok false, w') ∧ links w' = links w
           ∧ head (db_ok w) = Some false).
Proof.
  unfold db_attempt. destruct (db_ok w) as [|[] rest]; cbn; eauto 10.
Qed.

(** C10: when the link query does not return exactly one row,
  [get_add_session_scan_link] runs the same whatever [is_primary] it is
  given; it stores one new link, whose [is_primary] is [False], and returns
  it, or the commit fails, its exception is passed on and no link is
  stored. *)
Theorem get_add_session_scan_link_not_primary ts sc nn p w :
  length (link_query w ts sc) ≠ 1%nat →
  ∃ r w',
    get_add_session_scan_link ts sc nn p w = (r, w')
    ∧ (∀ q, get_add_session_scan_link ts sc nn q w = (r, w'))
    ∧ ((∃ link, r = Ok link ∧ is_primary link = Some false
                ∧ links w' = links w ++ [link])
       ∨ (∃ e, r = Raise e ∧ head (db_ok w) = Some false ∧ links w' = links w)).
Proof.
  intros Hq.
  unfold get_add_session_scan_link, mbind, St_bind, get_db.
  rewrite bool_decide_eq_false_2 by exact Hq.
  unfold commit, mbind, St_bind.
  destruct (db_attempt_cases w) as [(w1 & -> & Hl)|(w1 & -> & Hl & Hfail)]; cbn.
  - eexists _, _. split; [reflexivity|]. split; [reflexivity|]. left.
    eexists. split; [reflexivity|]. split; [reflexivity|]. cbn. by rewrite Hl.
  - eexists _, _. split; [reflexivity|]. split; [reflexivity|]. right.
    eexists. split; [reflexivity|]. by split.
Qed.

End DashboardFacts.

Section EnigmaFacts.

Import Enigma.

Context `{Env}.

Lemma fwrite_same_disk c t w :
  on_disk w c = true →
  ∃ w', fwrite c t w = (Ok (), w') ∧ same_disk w w' ∧ trace w' = trace w ++ [Write c t].
Proof.
  intros Hc. eexists. split; [reflexivity|]. split; [|reflexivity].
  split; [|done]. intros p. unfold on_disk in *. cbn.
  destruct (decide (c = p)) as [->|Hne].
  - rewrite lookup_insert_eq. rewrite Hc. by apply bool_decide_eq_true_2.
  - by rewrite lookup_insert_ne.
Qed.

Lemma to_queue_same_disk w w' f o row :
  same_disk w w' → to_queue w' f o row = to_queue w f o row.
Proof.
  intros [Hd _]. unfold to_queue. destruct (candidate f row); [|done]. by rewrite Hd.
Qed.

(** A row that is not to be queued is passed over: the loop goes on with the
  rows after it, in the same world. *)
Lemma queue_subjects_skip c run_dir script o i f row rows b w :
  to_queue w f o row = None →
  queue_subjects c run_dir script o i f (row :: rows) b w
  = ('(rest, submit_edti) ← queue_subjects c run_dir script o i f rows b;
     mret (row :: rest, submit_edti)) w.
Proof.
  unfold to_queue, candidate. cbn [queue_subjects].
  destruct (Py.otruthy f && negb (Py.contains (default "" f) (id row))); [done|].
  destruct (FA_nii row) as [smap|]; [|done].
  unfold subject_previously_completed, isfile, on_disk.
  unfold mbind, St_bind, mret, St_ret.
  by destruct (bool_decide _).
Qed.

Lemma queue_subjects_write c run_dir script o i f row rows b w smap :
  to_queue w f o row = Some smap →
  queue_subjects c run_dir script o i f (row :: rows) b w
  = (fwrite c (command_line run_dir script o i (id row) smap);;
     '(rest, submit_edti) ← queue_subjects c run_dir script o i f rows true;
     mret (set_date_ran today row :: rest, submit_edti)) w.
Proof.
  unfold to_queue, candidate. cbn [queue_subjects].
  destruct (Py.otruthy f && negb (Py.contains (default "" f) (id row))); [done|].
  destruct (FA_nii row) as [smap'|]; [|done].
  unfold subject_previously_completed, isfile, on_disk.
  unfold mbind, St_bind, mret, St_ret.
  destruct (bool_decide _); [done|]. by intros [= ->].
Qed.

(** The loop over the checklist: the rows to queue get a line each, in order,
  and today's date; the flag tells whether there was one. *)
Lemma queue_subjects_spec c run_dir script o i f rows b w :
  on_disk w c = true →
  ∃ w',
    queue_subjects c run_dir script o i f rows b w
      = (Ok (stamp w f o <$> rows,
             b || nonempty (omap (queued_line w f run_dir script o i) rows)), w')
    ∧ same_disk w w'
    ∧ trace w' = trace w ++ (Write c <$> omap (queued_line w f run_dir script o i) rows).
Proof.
  intros Hc. revert b w Hc.
  induction rows as [|row rows IH]; intros b w Hc.
  - cbn. eexists. split; [by rewrite orb_false_r|]. split; [done|]. by rewrite app_nil_r.
  - destruct (to_queue w f o row) as [smap|] eqn:Eq.
    + rewrite (queue_subjects_write _ _ _ _ _ _ _ _ _ _ _ Eq).
      destruct (fwrite_same_disk c (command_line run_dir script o i (id row) smap) w Hc)
        as (w1 & Hw & Hsame1 & Htr1).
      assert (Hc1 : on_disk w1 c = true) by (by rewrite (proj1 Hsame1)).
      destruct (IH true w1 Hc1) as (w' & Hrun & Hsame & Htr).
      assert (Hql : queued_line w f run_dir script o i row
                    = Some (command_line run_dir script o i (id row) smap))
        by (unfold queued_line; by rewrite Eq).
      assert (Hst : stamp w f o row = set_date_ran today row)
        by (unfold stamp; by rewrite Eq).
      unfold mbind, St_bind. rewrite Hw, Hrun.
      cbn [omap list_omap fmap list_fmap]. rewrite Hql, Hst. cbn [nonempty].
      eexists. split; [|split].
      * unfold mret, St_ret. rewrite orb_true_r.
        do 4 f_equal. apply list_fmap_ext. intros ? r ?. unfold stamp.
        by rewrite (to_queue_same_disk w w1).
      * destruct Hsame1 as (Ha1&?&?&?), Hsame as (Ha2&?&?&?).
        split; [intros p; by rewrite Ha2, Ha1|]. repeat split; congruence.
      * rewrite Htr, Htr1. rewrite <-app_assoc. cbn. f_equal. f_equal. f_equal.
        apply omap_pointwise. intros r. unfold queued_line.
        by rewrite (to_queue_same_disk w w1).
    + rewrite (queue_subjects_skip _ _ _ _ _ _ _ _ _ _ Eq).
      destruct (IH b w Hc) as (w' & Hrun & Hsame & Htr).
      assert (Hql : queued_line w f run_dir script o i row = None)
        by (unfold queued_line; by rewrite Eq).
      assert (Hst : stamp w f o row = row) by (unfold stamp; by rewrite Eq).
      unfold mbind, St_bind. rewrite Hrun.
      cbn [omap list_omap fmap list_fmap]. rewrite Hql, Hst. cbn. eauto.
Qed.

Lemma execs_app t1 t2 : execs (t1 ++ t2) = execs t1 ++ execs t2.
Proof. apply omap_app. Qed.
Lemma writes_app t1 t2 : writes (t1 ++ t2) = writes t1 ++ writes t2.
Proof. apply omap_app. Qed.
Lemma csvs_app t1 t2 : csvs (t1 ++ t2) = csvs t1 ++ csvs t2.
Proof. apply omap_app. Qed.
Lemma execs_writes l c : execs (Write c <$> l) = [].
Proof. induction l; [done|]. done. Qed.
Lemma csvs_writes l c : csvs (Write c <$> l) = [].
Proof. induction l; [done|]. done. Qed.
Lemma writes_writes l c : writes (Write c <$> l) = (c,.) <$> l.
Proof. induction l as [|x l IH]; [done|]. cbn. by rewrite <-IH. Qed.

(** [run]: on a dry run the command is logged and nothing is run. *)
Lemma run_spec cmd dry w :
  ∃ r w',
    run cmd dry w = (Ok r, w')
    ∧ execs (trace w') = execs (trace w) ++ (if dry then [] else [_escape_shell_chars cmd])
    ∧ writes (trace w') = writes (trace w)
    ∧ csvs (trace w') = csvs (trace w)
    ∧ (∀ e, e ∈ trace w → e ∈ trace w')
    ∧ (dry = true → skipped (_escape_shell_chars cmd) ∈ trace w').
Proof.
  unfold run. destruct dry.
  - eexists _, _. split; [reflexivity|]. cbn.
    rewrite execs_app, writes_app, csvs_app. cbn. rewrite !app_nil_r.
    repeat split; try done; unfold skipped; set_solver.
  - unfold mbind, St_bind, log, emit, popen. cbn.
    destruct (answers w) as [|[[rc out] err] rest]; cbn.
    + eexists _, _. split; [reflexivity|]. cbn.
      rewrite !execs_app, !writes_app, !csvs_app. cbn. rewrite !app_nil_r.
      repeat split; try done; set_solver.
    + destruct (bool_decide (rc = 0)); cbn;
        (eexists _, _; split; [reflexivity|]); cbn;
        rewrite !execs_app, !writes_app, !csvs_app; cbn; rewrite !app_nil_r;
        repeat split; try done; set_solver.
Qed.

Lemma submit_batch_spec args i o log_dir run_dir script0 prefix checklist w :
  let lw := loop_world run_dir w in
  let lines := omap (queued_line lw (subject_filter args) run_dir script0 o i) checklist in
  ∃ w',
    submit_batch args i o log_dir run_dir script0 (job_name_prefix prefix) checklist
      (next_tmp_name w)
      (World (files w) ({[next_tmp_name w]} ∪ dirs w) (tail (tmp_names w)) (answers w)
             ((trace w ++ [Chdir run_dir]) ++ [MkDTemp (next_tmp_name w)]))
    = (Ok (stamp lw (subject_filter args) o <$> checklist, nonempty lines), w')
    ∧ writes (trace w') = writes (trace w) ++ ((cmds_path w,.) <$> lines)
    ∧ execs (trace w')
      = execs (trace w)
        ++ (if nonempty lines && negb (DRYRUN args)
            then [batch_submission args log_dir prefix w] else [])
    ∧ csvs (trace w') = csvs (trace w)
    ∧ (nonempty lines = true → DRYRUN args = true →
       skipped (batch_submission args log_dir prefix w) ∈ trace w').
Proof.
  intros lw lines. unfold submit_batch.
  assert (Hlw : on_disk lw (cmds_path w) = true).
  { unfold on_disk, lw, loop_world. cbn. rewrite lookup_insert_eq.
    by apply bool_decide_eq_true_2. }
  destruct (queue_subjects_spec (cmds_path w) run_dir script0 o i
              (subject_filter args) checklist false lw Hlw)
    as (w2 & Hrun & Hsame & Htr).
  fold lines in Hrun, Htr. cbn [orb] in Hrun.
  assert (Hopen : open_w (cmds_path w)
      (World (files w) ({[next_tmp_name w]} ∪ dirs w) (tail (tmp_names w)) (answers w)
             ((trace w ++ [Chdir run_dir]) ++ [MkDTemp (next_tmp_name w)]))
      = (Ok (), lw)).
  { unfold open_w, lw, loop_world. cbn. by rewrite <-!app_assoc. }
  cbv zeta. fold (cmds_path w).
  rewrite (bind_ok _ _ _ _ _ Hopen).
  rewrite (bind_ok _ _ _ _ _ Hrun).
  assert (Htr2 : writes (trace w2) = writes (trace w) ++ ((cmds_path w,.) <$> lines)
                 ∧ execs (trace w2) = execs (trace w) ∧ csvs (trace w2) = csvs (trace w)).
  { rewrite Htr. unfold lw, loop_world. cbn [trace].
    rewrite !writes_app, !execs_app, !csvs_app, writes_writes, execs_writes, csvs_writes.
    cbn. by rewrite !app_nil_r. }
  destruct Htr2 as (Hw2 & He2 & Hc2).
  destruct (nonempty lines) eqn:Hne; cbn [andb].
  - destruct (run_spec (make_file_qbatch_command (cmds_path w) (job_name_prefix prefix)
                          log_dir (walltime args)) (DRYRUN args)
                (World (files w2) (dirs w2) (tmp_names w2) (answers w2)
                       (trace w2 ++ [Chdir run_dir])))
      as (r & w3 & Hr & He & Hw & Hc & _ & Hskip).
    unfold mbind, St_bind, chdir, emit. rewrite Hr. cbn.
    eexists. split; [reflexivity|].
    cbn [trace] in *. rewrite execs_app, writes_app, csvs_app in *. cbn in *.
    rewrite !app_nil_r in *. rewrite Hw, He, Hc, Hw2, He2, Hc2.
    unfold batch_submission. split; [done|]. split; [by destruct (DRYRUN args)|].
    split; [done|]. intros _. exact Hskip.
  - cbn. eexists. split; [reflexivity|]. rewrite app_nil_r. done.
Qed.

Lemma rmtree_trace d w :
  writes (trace (rmtree d w)) = writes (trace w)
  ∧ execs (trace (rmtree d w)) = execs (trace w)
  ∧ csvs (trace (rmtree d w)) = csvs (trace w)
  ∧ ∀ e, e ∈ trace w → e ∈ trace (rmtree d w).
Proof.
  unfold rmtree. cbn. rewrite writes_app, execs_app, csvs_app. cbn.
  rewrite !app_nil_r. repeat split; try done. set_solver.
Qed.

(** The second half of [main]: what is written to the batch file, what is
  handed to the shell, and what is saved as the checklist. *)
Lemma main_submit_spec args i o log_dir run_dir prefix script0 script1 cf checklist w :
  let lines := batch_lines args i o run_dir script0 checklist w in
  ∃ w',
    main_submit args i o log_dir run_dir prefix script0 script1 cf checklist w
      = (Ok (), w')
    ∧ writes (trace w') = writes (trace w) ++ ((cmds_path w,.) <$> lines)
    ∧ execs (trace w')
      = execs (trace w)
        ++ (if nonempty lines && negb (DRYRUN args)
            then [batch_submission args log_dir prefix w;
                  post_submission args log_dir run_dir prefix script1]
            else [])
    ∧ csvs (trace w')
      = csvs (trace w)
        ++ (if DRYRUN args then []
            else [(cf, stamped_checklist args o run_dir checklist w)])
    ∧ (nonempty lines = true → DRYRUN args = true →
       skipped (batch_submission args log_dir prefix w) ∈ trace w'
       ∧ skipped (post_submission args log_dir run_dir prefix script1) ∈ trace w').
Proof.
  intros lines. unfold main_submit. fold (job_name_prefix prefix).
  assert (Hmid : ∃ w1,
    (if negb (POST_ONLY args)
     then make_temp_directory
            (submit_batch args i o log_dir run_dir script0 (job_name_prefix prefix)
               checklist)
     else mret (checklist, false))
      (World (files w) (dirs w) (tmp_names w) (answers w) (trace w ++ [Chdir run_dir]))
    = (Ok (stamped_checklist args o run_dir checklist w, nonempty lines), w1)
    ∧ writes (trace w1) = writes (trace w) ++ ((cmds_path w,.) <$> lines)
    ∧ execs (trace w1)
      = execs (trace w)
        ++ (if nonempty lines && negb (DRYRUN args)
            then [batch_submission args log_dir prefix w] else [])
    ∧ csvs (trace w1) = csvs (trace w)
    ∧ (nonempty lines = true → DRYRUN args = true →
       skipped (batch_submission args log_dir prefix w) ∈ trace w1)).
  { unfold lines, batch_lines, stamped_checklist.
    destruct (POST_ONLY args); cbn [negb].
    - eexists. split; [reflexivity|]. cbn.
      rewrite writes_app, execs_app, csvs_app. cbn. by rewrite !app_nil_r.
    - destruct (submit_batch_spec args i o log_dir run_dir script0 prefix checklist w)
        as (w2 & Hrun & Hw & He & Hc & Hskip).
      unfold make_temp_directory, mkdtemp. cbn [tmp_names files dirs answers trace].
      change (next_tmp_name (World _ _ (tmp_names w) _ _)) with (next_tmp_name w).
      rewrite Hrun.
      eexists. split; [reflexivity|].
      destruct (rmtree_trace (next_tmp_name w) w2) as (-> & -> & -> & Hin).
      repeat split; try done. intros ??. apply Hin. by apply Hskip. }
  destruct Hmid as (w1 & Hmid & Hw1 & He1 & Hc1 & Hskip1).
  erewrite (bind_ok (chdir run_dir)); [|reflexivity].
  rewrite (bind_ok _ _ _ _ _ Hmid).
  erewrite (bind_ok (chdir run_dir)); [|reflexivity].
  destruct (nonempty lines) eqn:Hne; cbn [andb].
  - destruct (run_spec (make_piped_qbatch_command
                          ("echo bash -l " +:+ run_dir +:+ "/" +:+ script1)
                          (job_name_prefix prefix +:+ "_post") log_dir
                          (walltime_post args) (job_name_prefix prefix)) (DRYRUN args)
                (World (files w1) (dirs w1) (tmp_names w1) (answers w1)
                       (trace w1 ++ [Chdir run_dir])))
      as (r & w3 & Hr & He & Hw & Hc & Hin & Hskip).
    unfold mbind, St_bind. rewrite Hr. unfold mret, St_ret.
    cbn [trace] in *. rewrite execs_app, writes_app, csvs_app in *. cbn in *.
    rewrite !app_nil_r in *.
    destruct (DRYRUN args); cbn in *.
    + eexists. split; [reflexivity|]. rewrite Hw, He, Hc, Hw1, He1, Hc1.
      rewrite !app_nil_r. repeat split; try done.
      * apply Hin. apply elem_of_app. left. by apply Hskip1.
      * by apply Hskip.
    + eexists. split; [reflexivity|]. cbn.
      rewrite writes_app, execs_app, csvs_app. cbn.
      rewrite Hw, He, Hc, Hw1, He1, Hc1. rewrite !app_nil_r, <-!app_assoc. done.
  - unfold mbind, St_bind, mret, St_ret.
    destruct (DRYRUN args); cbn in *.
    + eexists. split; [reflexivity|]. cbn.
      rewrite writes_app, execs_app, csvs_app. cbn.
      rewrite Hw1, He1, Hc1. by rewrite !app_nil_r.
    + eexists. split; [reflexivity|]. cbn.
      rewrite !writes_app, !execs_app, !csvs_app. cbn.
      rewrite Hw1, He1, Hc1. by rewrite !app_nil_r.
Qed.

Lemma on_disk_loop_world run_dir w p :
  on_disk w p = true → on_disk (loop_world run_dir w) p = true.
Proof.
  unfold on_disk, loop_world. cbn [files]. intros Hp%bool_decide_eq_true_1.
  apply bool_decide_eq_true_2. destruct (decide (cmds_path w = p)) as [->|Hne].
  - rewrite lookup_insert_eq. eauto.
  - by rewrite lookup_insert_ne.
Qed.

Lemma candidate_FA_nii f row smap :
  candidate f row = Some smap → FA_nii row = Some smap.
Proof. unfold candidate. by destruct (_ && _). Qed.

(** A row whose sentinel is on disk when [main_submit] starts gets no line. *)
Lemma queued_line_completed run_dir w f script o i row :
  sentinel_exists w o row = true →
  queued_line (loop_world run_dir w) f run_dir script o i row = None.
Proof.
  unfold sentinel_exists, queued_line, to_queue. intros Hs.
  destruct (candidate f row) as [smap|] eqn:Ec; [|done].
  rewrite (candidate_FA_nii _ _ _ Ec) in Hs.
  by rewrite (on_disk_loop_world run_dir w _ Hs).
Qed.

Lemma queued_line_candidate w f run_dir script o i row :
  candidate f row = None → queued_line w f run_dir script o i row = None.
Proof. unfold queued_line, to_queue. by intros ->. Qed.

Lemma omap_filter_None {A B} (f : A → option B) (P : A → Prop) `{∀ x, Decision (P x)}
    (l : list A) :
  (∀ x, ¬ P x → f x = None) → omap f (filter P l) = omap f l.
Proof.
  intros Hf. induction l as [|x l IH]; [done|].
  rewrite filter_cons. destruct (decide (P x)) as [HP|HP]; csimpl.
  - by rewrite IH.
  - by rewrite (Hf x HP), IH.
Qed.

(** C3: [main_submit] writes to its batch file the lines of the checklist
  with the rows left out whose sentinel is on disk, so such a row gets no
  command line; and when the sentinel of every candidate row (a row that
  passes the subject filter and has an FA image) is on disk, nothing is
  written to the batch file and no command is handed to the shell. *)
Theorem completed_subjects_not_queued
    args i o log_dir run_dir prefix script0 script1 cf checklist w :
  ∃ w',
    main_submit args i o log_dir run_dir prefix script0 script1 cf checklist w
      = (Ok (), w')
    ∧ writes (trace w')
      = writes (trace w)
        ++ ((cmds_path w,.)
              <$> batch_lines args i o run_dir script0
                    (filter (λ row, sentinel_exists w o row = false) checklist) w)
    ∧ ((∀ row, row ∈ checklist → is_Some (candidate (subject_filter args) row) →
          sentinel_exists w o row = true) →
       writes (trace w') = writes (trace w) ∧ execs (trace w') = execs (trace w)).
Proof.
  destruct (main_submit_spec args i o log_dir run_dir prefix script0 script1 cf
              checklist w) as (w' & Hrun & Hw & He & _).
  exists w'. split; [done|]. split.
  - rewrite Hw. do 2 f_equal. unfold batch_lines. destruct (POST_ONLY args); [done|].
    symmetry. apply omap_filter_None. intros row Hrow.
    apply queued_line_completed. by destruct (sentinel_exists w o row).
  - intros Hall.
    assert (Hnone : batch_lines args i o run_dir script0 checklist w = []).
    { unfold batch_lines. destruct (POST_ONLY args); [done|].
      clear -Hall. induction checklist as [|row rows IH]; [done|]. csimpl.
      rewrite IH by (intros; apply Hall; [by right|done]).
      destruct (candidate (subject_filter args) row) as [smap|] eqn:Ec.
      - by rewrite queued_line_completed by (apply Hall; [by left|by rewrite Ec]).
      - by rewrite queued_line_candidate. }
    rewrite Hnone in Hw, He. cbn in Hw, He. by rewrite app_nil_r in Hw, He.
Qed.

(** C4, as amended: [main_submit] returns normally; with [lines] the lines it
  wrote to the batch file, when it is not a dry run it hands the shell the
  batch submission and then the post submission, in this order and nothing
  else, if [lines] is not empty, and nothing if it is empty; on a dry run it
  hands the shell nothing, and if [lines] is not empty the two submissions
  are logged as skipped. The jobs of the batch are named with the prefix
  [edti<prefix>_<time stamp>], which the post submission is given as the
  name to wait for. *)
Theorem submission_iff_line_written
    args i o log_dir run_dir prefix script0 script1 cf checklist w :
  ∃ w' lines,
    main_submit args i o log_dir run_dir prefix script0 script1 cf checklist w
      = (Ok (), w')
    ∧ writes (trace w') = writes (trace w) ++ ((cmds_path w,.) <$> lines)
    ∧ execs (trace w')
      = execs (trace w)
        ++ (if DRYRUN args then []
            else if nonempty lines
                 then [batch_submission args log_dir prefix w;
                       post_submission args log_dir run_dir prefix script1]
                 else [])
    ∧ (DRYRUN args = true → nonempty lines = true →
       skipped (batch_submission args log_dir prefix w) ∈ trace w'
       ∧ skipped (post_submission args log_dir run_dir prefix script1) ∈ trace w')
    ∧ batch_submission args log_dir prefix w
      = _escape_shell_chars
          (make_file_qbatch_command (cmds_path w)
             ("edti" +:+ prefix +:+ "_" +:+ now_stamp) log_dir (walltime args))
    ∧ post_submission args log_dir run_dir prefix script1
      = _escape_shell_chars
          (make_piped_qbatch_command ("echo bash -l " +:+ run_dir +:+ "/" +:+ script1)
             (("edti" +:+ prefix +:+ "_" +:+ now_stamp) +:+ "_post") log_dir
             (walltime_post args) ("edti" +:+ prefix +:+ "_" +:+ now_stamp)).
Proof.
  destruct (main_submit_spec args i o log_dir run_dir prefix script0 script1 cf
              checklist w) as (w' & Hrun & Hw & He & _ & Hskip).
  exists w', (batch_lines args i o run_dir script0 checklist w).
  split; [done|]. split; [done|]. split.
  { rewrite He. destruct (DRYRUN args); [by rewrite andb_false_r|].
    by rewrite andb_true_r. }
  split; [by intros; apply Hskip|]. done.
Qed.

(** ** Dry runs *)

Lemma silent_ret {A} (a : A) : silent (mret a).
Proof. by intros w. Qed.
Lemma silent_raise {A} e : silent (raise e : E A).
Proof. by intros w. Qed.
Lemma silent_bind {A B} (m : E A) (k : A → E B) :
  silent m → (∀ a, silent (k a)) → silent (m ≫= k).
Proof.
  intros Hm Hk w. unfold mbind, St_bind. specialize (Hm w).
  destruct (m w) as [[a|e] w1]; cbn in *; [|done].
  destruct (Hk a w1) as [-> ->]. done.
Qed.
Lemma silent_emit e :
  match e with Exec _ | ToCsv _ _ => False | _ => True end → silent (emit e).
Proof.
  intros He w. cbn. rewrite execs_app, csvs_app.
  destruct e; try done; cbn; by rewrite !app_nil_r.
Qed.
Lemma silent_log l m : silent (log l m).
Proof. by apply silent_emit. Qed.
Lemma silent_chmod p m : silent (chmod p m).
Proof. by apply silent_emit. Qed.
Lemma silent_open_w p : silent (open_w p).
Proof. intros w. cbn. rewrite execs_app, csvs_app. cbn. by rewrite !app_nil_r. Qed.
Lemma silent_fwrite p t : silent (fwrite p t).
Proof. intros w. cbn. rewrite execs_app, csvs_app. cbn. by rewrite !app_nil_r. Qed.
Lemma silent_isfile p : silent (isfile p).
Proof. by intros w. Qed.
Lemma silent_exists p : silent (exists_ p).
Proof. by intros w. Qed.
Lemma silent_get_world : silent get_world.
Proof. by intros w. Qed.
Lemma silent_filecmp a b : silent (filecmp a b).
Proof. intros w. unfold filecmp. by repeat case_match. Qed.
Lemma silent_read_file a : silent (read_file a).
Proof. intros w. unfold read_file. by repeat case_match. Qed.
Lemma silent_makedirs p : silent (makedirs p).
Proof.
  apply silent_bind; [apply silent_exists|]. intros [|]; [apply silent_ret|].
  intros w. cbn. rewrite execs_app, csvs_app. cbn. by rewrite !app_nil_r.
Qed.
Lemma silent_make_temp_directory {A} (body : string → E A) :
  (∀ d, silent (body d)) → silent (make_temp_directory body).
Proof.
  intros Hb w. unfold make_temp_directory, mkdtemp.
  specialize (Hb (next_tmp_name w)
    (World (files w) ({[next_tmp_name w]} ∪ dirs w) (tail (tmp_names w)) (answers w)
           (trace w ++ [MkDTemp (next_tmp_name w)]))).
  destruct (body _ _) as [r w2]. cbn in *.
  rewrite !execs_app, !csvs_app in *. cbn in *. rewrite !app_nil_r in *. done.
Qed.

Ltac silent_step :=
  first
    [ apply silent_ret | apply silent_raise | apply silent_log | apply silent_chmod
    | apply silent_open_w | apply silent_fwrite | apply silent_isfile
    | apply silent_get_world | apply silent_filecmp | apply silent_read_file
    | apply silent_makedirs
    | apply silent_bind; [|intros ?]
    | match goal with |- silent (if ?b then _ else _) => destruct b end
    | match goal with |- silent (match ?o with _ => _ end) => destruct o end ].

Lemma silent_write_run_script filename output_dir md all :
  silent (write_run_script filename output_dir md all).
Proof. unfold write_run_script. repeat silent_step. Qed.

Lemma silent_check_runsh filename output_dir md all dbg :
  silent (check_runsh filename output_dir md all dbg).
Proof.
  unfold check_runsh. apply silent_make_temp_directory. intros d.
  apply silent_bind; [apply silent_write_run_script|]. intros _.
  repeat silent_step.
Qed.

Lemma silent_write_run_scripts names run_dir output_dir md all dbg :
  silent (write_run_scripts names run_dir output_dir md all dbg).
Proof.
  induction names as [|n names IH]; cbn [write_run_scripts]; [apply silent_ret|].
  apply silent_bind; [apply silent_isfile|]. intros there.
  apply silent_bind; [|intros _; apply IH].
  destruct there; [apply silent_check_runsh|apply silent_write_run_script].
Qed.

(** C5, as amended: on a dry run, whatever the state of the disk and however
  [main] ends, it hands no command to the shell and does not save the
  checklist. (It does create directories and write the run scripts.) *)
Theorem dry_run_no_submission_no_checklist_write args w :
  DRYRUN args = true →
  execs (trace (main args w).2) = execs (trace w)
  ∧ csvs (trace (main args w).2) = csvs (trace w).
Proof.
  intros Hdry. revert w. change (silent (main args)). unfold main. cbv zeta.
  apply silent_bind; [apply silent_makedirs|]. intros _.
  apply silent_bind; [apply silent_makedirs|]. intros _.
  apply silent_bind; [apply silent_log|]. intros _.
  apply silent_bind; [apply silent_get_world|]. intros w0.
  destruct (bool_decide _); [repeat silent_step|].
  apply silent_bind; [apply silent_write_run_scripts|]. intros _.
  apply silent_bind; [apply silent_get_world|]. intros w1 w.
  match goal with
  | |- context [main_submit ?a ?i ?o ?l ?r ?p ?s0 ?s1 ?cf ?cl w] =>
      destruct (main_submit_spec a i o l r p s0 s1 cf cl w)
        as (w' & -> & _ & He & Hc & _)
  end.
  rewrite Hdry in *. cbn [negb andb] in *. rewrite andb_false_r in He.
  rewrite !app_nil_r in *. done.
Qed.

(** ** The first half of [main] *)

Lemma reaches_submit_bind {A} args (m : E A) (k : A → E unit) w :
  silent m →
  (∀ a w1, reaches_submit args (k a) w1) →
  reaches_submit args (m ≫= k) w.
Proof.
  intros Hm Hk. unfold reaches_submit, mbind, St_bind in *. cbv zeta in *.
  specialize (Hm w). destruct (m w) as [[a|e] w1]; cbn [snd] in Hm.
  - destruct (Hk a w1) as [(e & w2 & Hrun & Hq)|(cl & w2 & Hrun & Hq)].
    + left. exists e, w2. split; [done|]. destruct Hq, Hm. split; congruence.
    + right. exists cl, w2. split; [done|]. destruct Hq, Hm. split; congruence.
  - left. by exists e, w1.
Qed.

(** [main] hands nothing to the shell and saves no checklist before it gets
  to [main_submit], to which the statements above apply; it may not get
  there (no subject to process, a run script that differs). *)
Lemma main_reaches_submit args w : reaches_submit args (main args) w.
Proof.
  unfold main. cbv zeta.
  apply reaches_submit_bind; [apply silent_makedirs|]. intros _ wa.
  apply reaches_submit_bind; [apply silent_makedirs|]. intros _ wb.
  apply reaches_submit_bind; [apply silent_log|]. intros _ wc.
  apply reaches_submit_bind; [apply silent_get_world|]. intros w0 wd.
  destruct (bool_decide _).
  - apply reaches_submit_bind; [apply silent_log|]. intros _ we.
    left. by eexists _, _.
  - apply reaches_submit_bind; [apply silent_write_run_scripts|]. intros _ we.
    apply reaches_submit_bind; [apply silent_get_world|]. intros w1 wf.
    right. by eexists _, _.
Qed.

End EnigmaFacts.

(** ** The claims on concrete inputs *)

Section Scenarios.

Import Demo.

#[local] Existing Instance scanid.
#[local] Existing Instance interpreter.
#[local] Existing Instance config.
#[local] Existing Instance no_dashboard.
#[local] Existing Instance enigma_env.

(** *** Metadata files *)

Import Utils.


(** Three failed writes: [write_metadata] gives up, having slept after each. *)
Lemma write_metadata_retries_witness :
  ∃ w',
    write_metadata 900 ["a" +:+ nl] "/x" 3
      (World ∅ [WriteFails (Some "a"); WriteFails None; WriteFails (Some "")]
         [2; 5; 7]%nat [])
    = (Raise (MetadataException "Failed to update /x"), w')
    ∧ write_attempts (trace w') = [false; false; false]
    ∧ sleeps (trace w') = [2; 5; 7]%nat.
Proof.
  destruct (write_metadata_retries 900 ["a" +:+ nl] "/x" 3
              [Some "a"; None; Some ""] []
              (World ∅ [WriteFails (Some "a"); WriteFails None; WriteFails (Some "")]
                 [2; 5; 7]%nat []))
    as [Hfail _]; [lia|vm_compute; lia|reflexivity|].
  destruct (Hfail eq_refl) as (w' & Hrun & _ & Hw & Hs).
  exists w'. split; [exact Hrun|]. split; [exact Hw|]. apply Hs. vm_compute. lia.
Defined.

(** Two failed writes and a third that succeeds: the file has the lines, and
  a write that failed halfway left no trace in it. *)
Example write_metadata_third_try :
  let w' := (write_metadata 900 ["a" +:+ nl; "b" +:+ nl] "/x" 3
               (World ∅ [WriteFails (Some "a"); WriteFails None] [2; 5; 7]%nat [])).2 in
  write_metadata 900 ["a" +:+ nl; "b" +:+ nl] "/x" 3
    (World ∅ [WriteFails (Some "a"); WriteFails None] [2; 5; 7]%nat [])
  = (Ok (), w')
  ∧ files w' !! "/x" = Some ("a" +:+ nl +:+ "b" +:+ nl)
  ∧ write_attempts (trace w') = [false; false; true]
  ∧ sleeps (trace w') = [2; 5]%nat.
Proof. vm_compute. repeat split; reflexivity. Qed.

(** [subject_A] is signed off and has a blacklisted scan, [subject_B] is not
  signed off, and [scan_Z] belongs to a subject the checklist does not
  have. *)
Lemma get_subject_metadata_keys_and_orphans_witness :
  ∃ all_qc w',
    get_subject_metadata (Some metadata_dir) None (disk checklist_AB blacklist_XZ)
    = (Ok all_qc, w')
    ∧ subject_A ∈ dom all_qc
    ∧ (subject_B ∉ dom all_qc)
    ∧ (∃ scans, all_qc !! subject_A = Some scans ∧ scan_X ∈ scans)
    ∧ orphan_message subject_C scan_Z ∈ trace w'
    ∧ (subject_C ∉ dom all_qc).
Proof.
  destruct (get_subject_metadata_keys_and_orphans metadata_dir None
              {[subject_A := "signed off"; subject_B := ""]}
              {[scan_X := "bad"; scan_Z := "motion"]}
              (disk checklist_AB blacklist_XZ)
              (read_checklist None None (Some metadata_dir) None
                 (disk checklist_AB blacklist_XZ)).2
              (read_blacklist None None None (Some metadata_dir) None
                 (read_checklist None None (Some metadata_dir) None
                    (disk checklist_AB blacklist_XZ)).2).2)
    as (all_qc & w' & Hrun & Hdom & Hin & Horphan & _);
    [vm_compute; reflexivity|vm_compute; reflexivity|].
  exists all_qc, w'. split; [exact Hrun|].
  assert (HA : subject_A ∈ dom all_qc).
  { apply Hdom. exists "signed off". split; [reflexivity|discriminate]. }
  split; [exact HA|]. split.
  { intros HB. apply Hdom in HB as (c & Hc & Hne). vm_compute in Hc. congruence. }
  split.
  { apply (Hin scan_X subject_A); [|reflexivity|exact HA].
    apply elem_of_dom. exists "bad". reflexivity. }
  destruct (Horphan scan_Z subject_C) as (Hlog & Hno & _);
    [apply elem_of_dom; exists "motion"; reflexivity|reflexivity|reflexivity|].
  split; [exact Hlog|exact Hno].
Defined.

(** An update of the blacklist with a reason for [scan_Y] and none for
  [scan_X], which the file has: [scan_Y] is added, [scan_X] and [scan_Z] stay
  as they are, and the entry without a reason is reported. *)
Lemma update_blacklist_skips_empty_witness :
  ∃ old w1 w',
    read_blacklist None None None None (Some blacklist_path) (disk "" blacklist_XZ)
    = (Ok (Entries old), w1)
    ∧ update_blacklist {[scan_X := ""; scan_Y := "motion"]} None None
        (Some blacklist_path) (disk "" blacklist_XZ)
      = (Ok (), w')
    ∧ files w' !! blacklist_path
      = Some (Py.writelines
                (blacklist_header
                 :: Py.sorted
                      (blacklist_line
                         <$> map_to_list
                               (blacklist_merge {[scan_X := ""; scan_Y := "motion"]} old))))
    ∧ blacklist_merge {[scan_X := ""; scan_Y := "motion"]} old !! scan_X = old !! scan_X
    ∧ skip_message scan_X ∈ trace w'
    ∧ blacklist_merge {[scan_X := ""; scan_Y := "motion"]} old !! scan_Y = Some "motion"
    ∧ blacklist_merge {[scan_X := ""; scan_Y := "motion"]} old !! scan_Z = old !! scan_Z.
Proof.
  destruct (update_blacklist_skips_empty {[scan_X := ""; scan_Y := "motion"]}
              blacklist_path blacklist_XZ [] [] (disk "" blacklist_XZ))
    as (old & w1 & w' & Hread & Hrun & Hfile & Hempty & Hreason & Hother).
  - reflexivity.
  - vm_compute. reflexivity.
  - intros k [v Hv]%elem_of_dom.
    apply lookup_insert_Some in Hv as [[<- _]|[_ Hv]]; [vm_compute; eauto|].
    apply lookup_singleton_Some in Hv as [<- _]. vm_compute; eauto.
  - reflexivity.
  - cbn. lia.
  - cbn. lia.
  - intros r. discriminate.
  - exists old, w1, w'. split; [exact Hread|]. split; [exact Hrun|].
    split; [exact Hfile|].
    destruct (Hempty scan_X) as [HX Hlog]; [reflexivity|].
    split; [exact HX|]. split; [exact Hlog|]. split.
    + apply Hreason; [reflexivity|discriminate].
    + apply Hother. reflexivity.
Defined.

(** C8 as it was stated: the blacklist file lists [scan_X]; after an update
  with no reason for [scan_X] the file still lists it, and a reader still
  finds it. *)
Lemma update_blacklist_keeps_listed_scan :
  let w := disk "" (blacklist_header +:+ scan_X +:+ " bad" +:+ nl) in
  let w' := (update_blacklist {[scan_X := ""]} None None (Some blacklist_path) w).2 in
  update_blacklist {[scan_X := ""]} None None (Some blacklist_path) w = (Ok (), w')
  ∧ files w' !! blacklist_path = Some (blacklist_header +:+ scan_X +:+ " bad" +:+ nl)
  ∧ (read_blacklist None None None None (Some blacklist_path) w').1
    = Ok (Entries {[scan_X := "bad"]}).
Proof. vm_compute. repeat split; reflexivity. Qed.


(** The scenario of the claim: A and B are written and read back, then A gets
  a new comment. *)
Example checklist_round_trip_example :
  let w1 := (update_checklist {[subject_A := ""; subject_B := "ok"]} None None
               (Some checklist_path) (disk "" "")).2 in
  let w2 := (update_checklist {[subject_A := "signed off"]} None None
               (Some checklist_path) w1).2 in
  (read_checklist None None None (Some checklist_path) w1).1
  = Ok (Entries {[subject_A := ""; subject_B := "ok"]})
  ∧ (read_checklist None None None (Some checklist_path) w2).1
    = Ok (Entries {[subject_A := "signed off"; subject_B := "ok"]}).
Proof. vm_compute. split; reflexivity. Qed.


(** Without a checklist file there is nothing to update. *)
Example update_checklist_no_file :
  (update_checklist {[subject_A := "ok"]} None None (Some checklist_path)
     (World ∅ [] [] [])).1
  = Raise (MetadataException
             ("Failed to read checklist file " +:+ checklist_path
              +:+ ". Reason - [Errno 2] No such file or directory: '"
              +:+ checklist_path +:+ "'")).
Proof. vm_compute. reflexivity. Qed.

End Scenarios.

Section DashboardScenarios.

Import Demo Dashboard.

#[local] Existing Instance scanid.

(** Two session rows with the name asked for. *)
Lemma get_add_session_ambiguous_match_witness :
  ∃ r w',
    get_add_session (H0 := dash_env None) (Some study) subject_A
      (Some "2018-01-02") true twice
    = (r, w')
    ∧ sessions w' = sessions twice
    ∧ (r = Raise (UnboundLocalError "dashboard_session")
       ∨ (Py.otruthy None = false ∧ head (db_ok twice) = Some false ∧ r = Ok RetNone)).
Proof.
  apply (get_add_session_ambiguous_match (H0 := dash_env None) study subject_A
           (Some "2018-01-02") true twice
           ident_A site_CMH []).
  - reflexivity.
  - reflexivity.
  - intros _. vm_compute. eauto.
  - vm_compute. lia.
Defined.

(** What the call of the witness comes to: no [DashboardException]. *)
Example get_add_session_two_rows :
  get_add_session (H0 := dash_env None) (Some study) subject_A
    (Some "2018-01-02") true twice
  = (Raise (UnboundLocalError "dashboard_session"), twice)
  ∧ (get_add_session (H0 := dash_env None) (Some study) subject_A
       (Some "2018-01-02") true
       (Db [study] [session_row 1 subject_A; session_row 2 subject_A] [] []
          [type_T1] [false] 3 [])).1
    = Ok RetNone.
Proof. vm_compute. split; reflexivity. Qed.

(** The same ambiguity in [get_add_scan] is a [DashboardException]. *)
Example get_add_scan_two_rows :
  (get_add_scan (H0 := dash_env None) (Some study) scan_X false
     (Db [study] [session_row 1 subject_A] [scan_row None; scan_row None] [link_row]
        [type_T1] [] 8 [])).1
  = Raise (DashboardException "Scan not unique").
Proof. vm_compute. reflexivity. Qed.

(** The database has a comment for [scan_X] and the blacklist has none. *)
Lemma get_add_scan_blacklist_reconciliation_witness :
  ∃ r w',
    get_add_scan (H0 := dash_env None) (Some study) scan_X false (scanned (Some "bad"))
    = (r, w')
    ∧ (r = Ok (Some (scan_row (Some "bad"))) ∨ r = Raise (DashboardException ""))
    ∧ stale_comment_message (scan_row (Some "bad")) ∈ dlog w'.
Proof.
  destruct (get_add_scan_blacklist_reconciliation (H0 := dash_env None) study scan_X
              false (scanned (Some "bad"))
              ident_X "T1" "02" "SagT1"
              (Some 1) (scan_row (Some "bad")) None)
    as (r & w' & sc' & Hrun & Hr & _ & _ & _ & _ & Hstale);
    [reflexivity|reflexivity|vm_compute; reflexivity|reflexivity|].
  destruct Hstale as [-> Hlog]; [reflexivity|reflexivity|].
  exists r, w'. split; [exact Hrun|]. split; [|exact Hlog].
  destruct Hr as [[-> _]|[-> _]]; [by left|by right].
Defined.

(** The blacklist has a comment for [scan_X] and the database has another, or
  none: the comment of the blacklist is stored. *)
Example get_add_scan_assigns_comment :
  (get_add_scan (H0 := dash_env (Some "motion")) (Some study) scan_X false
     (scanned (Some "bad"))).1
  = Ok (Some (scan_row (Some "motion")))
  ∧ (get_add_scan (H0 := dash_env (Some "motion")) (Some study) scan_X false
       (scanned None)).1
    = Ok (Some (scan_row (Some "motion")))
  ∧ (get_add_scan (H0 := dash_env (Some "")) (Some study) scan_X false
       (scanned (Some "bad"))).1
    = Ok (Some (scan_row (Some "bad"))).
Proof. vm_compute. repeat split; reflexivity. Qed.

(** A link asked for as primary, between a session and a scan that have
  none. *)
Lemma get_add_session_scan_link_not_primary_witness :
  ∃ link w',
    get_add_session_scan_link (session_row 1 subject_A) (scan_row None) None true unlinked
    = (Ok link, w')
    ∧ is_primary link = Some false
    ∧ links w' = [link].
Proof.
  destruct (get_add_session_scan_link_not_primary (session_row 1 subject_A)
              (scan_row None) None true unlinked)
    as (r & w' & Hrun & _ & [(link & -> & Hp & Hl)|(e & _ & Hfail & _)]).
  - vm_compute. lia.
  - exists link, w'. split; [exact Hrun|]. split; [exact Hp|exact Hl].
  - vm_compute in Hfail. discriminate.
Defined.

End DashboardScenarios.

Section EnigmaScenarios.

Import Demo Enigma.

#[local] Existing Instance enigma_env.

(** [subject_A] is finished: nothing is written to the batch file and nothing
  is submitted. *)
Lemma completed_subjects_not_queued_witness :
  ∃ w',
    main_submit (args false) input_dir output_dir log_dir run_dir "SPN01"
      "run_engimadti.sh" "concatresults.sh" checklist_file [row_A]
      (finished_disk [subject_A])
    = (Ok (), w')
    ∧ writes (trace w') = []
    ∧ execs (trace w') = [].
Proof.
  destruct (completed_subjects_not_queued (args false) input_dir output_dir log_dir
              run_dir "SPN01" "run_engimadti.sh" "concatresults.sh" checklist_file
              [row_A] (finished_disk [subject_A]))
    as (w' & Hrun & _ & Hall).
  exists w'. split; [exact Hrun|]. apply Hall.
  intros row ->%list_elem_of_singleton _. vm_compute. reflexivity.
Defined.

(** [subject_B] is finished and [subject_A] is not: one line, two
  submissions. *)
Lemma submission_iff_line_written_witness :
  ∃ w' lines,
    main_submit (args false) input_dir output_dir log_dir run_dir "SPN01"
      "run_engimadti.sh" "concatresults.sh" checklist_file [row_A; row_B]
      (finished_disk [subject_B])
    = (Ok (), w')
    ∧ writes (trace w') = ("/tmp/tmp/commands.txt",.) <$> lines
    ∧ execs (trace w')
      = if nonempty lines
        then ["qbatch -N edtiSPN01_20180102-030405 --logdir "
              +:+ "/archive/pipelines/enigmaDTI/logs --walltime 2:00:00 "
              +:+ "/tmp/tmp/commands.txt";
              "echo bash -l /archive/pipelines/enigmaDTI/bin/concatresults.sh "
              +:+ "| qbatch -N edtiSPN01_20180102-030405_post "
              +:+ "--afterok edtiSPN01_20180102-030405* --logdir "
              +:+ "/archive/pipelines/enigmaDTI/logs --walltime 2:00:00 -"]
        else [].
Proof.
  destruct (submission_iff_line_written (args false) input_dir output_dir log_dir
              run_dir "SPN01" "run_engimadti.sh" "concatresults.sh" checklist_file
              [row_A; row_B] (finished_disk [subject_B]))
    as (w' & lines & Hrun & Hw & He & _).
  exists w', lines. split; [exact Hrun|]. split; [exact Hw|exact He].
Defined.

Example submission_one_of_two :
  let w' := (main_submit (args false) input_dir output_dir log_dir run_dir "SPN01"
               "run_engimadti.sh" "concatresults.sh" checklist_file [row_A; row_B]
               (finished_disk [subject_B])).2 in
  writes (trace w')
  = [("/tmp/tmp/commands.txt",
      command_line run_dir "run_engimadti.sh" output_dir input_dir subject_A
        (subject_A +:+ "_FA.nii.gz"))]
  ∧ length (execs (trace w')) = 2%nat
  ∧ csvs (trace w') = [(checklist_file, [set_date_ran "2018-01-02" row_A; row_B])].
Proof. vm_compute. repeat split; reflexivity. Qed.

(** C4 as it was stated: on a dry run a line is written to the batch file and
  no job is submitted. *)
Lemma dry_run_writes_lines_submits_nothing :
  let w' := (main_submit (args true) input_dir output_dir log_dir run_dir "SPN01"
               "run_engimadti.sh" "concatresults.sh" checklist_file [row_A]
               empty_disk).2 in
  writes (trace w')
  = [("/tmp/tmp/commands.txt",
      command_line run_dir "run_engimadti.sh" output_dir input_dir subject_A
        (subject_A +:+ "_FA.nii.gz"))]
  ∧ execs (trace w') = [].
Proof. vm_compute. split; reflexivity. Qed.

(** A dry run of [main]. *)
Lemma dry_run_no_submission_no_checklist_write_witness :
  execs (trace (main (args true) empty_disk).2) = []
  ∧ csvs (trace (main (args true) empty_disk).2) = [].
Proof.
  apply (dry_run_no_submission_no_checklist_write (args true) empty_disk).
  reflexivity.
Defined.

(** C5 as it was stated: a dry run on an empty disk returns normally, having
  made the two directories and written the two run scripts. *)
Lemma dry_run_writes_run_scripts :
  let w' := (main (args true) empty_disk).2 in
  DRYRUN (args true) = true
  ∧ main (args true) empty_disk = (Ok (), w')
  ∧ on_disk empty_disk run_script = false
  ∧ on_disk w' run_script = true
  ∧ dirs empty_disk = ∅
  ∧ dirs w' = {[log_dir; run_dir]}
  ∧ length (writes (trace w')) = 15%nat.
Proof. vm_compute. repeat split; reflexivity. Qed.

End EnigmaScenarios.

(** * Further properties of the code *)

(** ** datman/utils.py: file names and paths *)

Section PathFacts.

Import Py Utils.

Local Arguments String.append !_ _ / : simpl nomatch.

Lemma str_take_drop n s : str_take n s +:+ str_drop n s = s.
Proof.
  revert s. induction n as [|n IH]; intros [|c s]; cbn; try done. by rewrite IH.
Qed.

Lemma length_app_str a b : String.length (a +:+ b) = (String.length a + String.length b)%nat.
Proof. induction a as [|c a IH]; [done|]. cbn. by rewrite IH. Qed.

Lemma str_take_app_length a b : str_take (String.length a) (a +:+ b) = a.
Proof. induction a as [|c a IH]; cbn; [by destruct b|]. by rewrite IH. Qed.

Lemma str_drop_app_length a b : str_drop (String.length a) (a +:+ b) = b.
Proof. induction a as [|c a IH]; cbn; [by destruct b|]. by rewrite IH. Qed.

Lemma endswith_app a suf : endswith (a +:+ suf) suf = true.
Proof.
  induction a as [|c a IH]; cbn.
  - destruct suf; cbn; [done|]. by rewrite Ascii.eqb_refl, String.eqb_refl.
  - rewrite IH. apply orb_true_r.
Qed.

Lemma endswith_inv s suf : endswith s suf = true → ∃ a, s = a +:+ suf.
Proof.
  induction s as [|c s IH]; cbn [endswith].
  - rewrite orb_false_r. intros <-%String.eqb_eq. by exists "".
  - intros [<-%String.eqb_eq|Hs]%orb_true_iff; [by exists ""|].
    destruct (IH Hs) as [a ->]. by exists (String c a).
Qed.

Lemma drop_end_app a suf : drop_end (String.length suf) (a +:+ suf) = a.
Proof.
  unfold drop_end. rewrite length_app_str.
  replace (String.length a + String.length suf - String.length suf)%nat
    with (String.length a) by lia.
  apply str_take_app_length.
Qed.

Lemma take_end_app a suf : take_end (String.length suf) (a +:+ suf) = suf.
Proof.
  unfold take_end. rewrite length_app_str.
  replace (String.length a + String.length suf - String.length suf)%nat
    with (String.length a) by lia.
  apply str_drop_app_length.
Qed.

Lemma rsplit1_joins c s a b : rsplit1 c s = Some (a, b) → s = a +:+ String c b.
Proof.
  revert a b. induction s as [|x s IH]; intros a b; [done|]. cbn.
  destruct (rsplit1 c s) as [[a' b']|].
  - intros [= <- <-]. cbn. by rewrite (IH a' b').
  - destruct (Ascii.eqb_spec x c) as [->|]; [|done]. by intros [= <- <-].
Qed.

Lemma span_dots_joins s : (span_dots s).1 +:+ (span_dots s).2 = s.
Proof.
  induction s as [|c s IH]; [done|]. cbn.
  destruct c as [[] [] [] [] [] [] [] []]; try done.
  destruct (span_dots s) as [d r]. cbn in *. by rewrite IH.
Qed.

(** [os.path.splitext] loses nothing, and an extension starts with a dot. *)
Lemma os_splitext_joins p :
  (Py.splitext p).1 +:+ (Py.splitext p).2 = p
  ∧ ((Py.splitext p).2 = "" ∨ String.prefix "." (Py.splitext p).2 = true).
Proof.
  unfold Py.splitext.
  destruct (rsplit1 "/" p) as [[a b]|] eqn:Es.
  - apply rsplit1_joins in Es. pose proof (span_dots_joins b) as Hb.
    destruct (span_dots b) as [dots rest]. cbn in Hb.
    destruct (rsplit1 "." rest) as [[r e]|] eqn:Er.
    + apply rsplit1_joins in Er. cbn. split; [|right; by destruct e].
      rewrite Es, <-Hb, Er. by rewrite !app_assoc_str.
    + cbn. split; [apply app_nil_r_str|by left].
  - pose proof (span_dots_joins p) as Hb.
    destruct (span_dots p) as [dots rest]. cbn in Hb. symmetry in Hb.
    destruct (rsplit1 "." rest) as [[r e]|] eqn:Er.
    + apply rsplit1_joins in Er. cbn. split; [|right; by destruct e].
      subst p rest. by rewrite !app_assoc_str.
    + cbn. split; [apply app_nil_r_str|by left].
Qed.

Lemma rsplit1_app_nosep c a t :
  str_forall (λ x, negb (Ascii.eqb x c)) t = true →
  rsplit1 c (a +:+ t)
  = match rsplit1 c a with
    | Some (d, b) => Some (d, b +:+ t)
    | None => None
    end.
Proof.
  intros Ht. induction a as [|x a IH]; cbn.
  - by rewrite rsplit1_none.
  - rewrite IH. destruct (rsplit1 c a) as [[d b]|]; [done|].
    by destruct (Ascii.eqb x c).
Qed.

Lemma span_dots_app b x t :
  Ascii.eqb x "." = false →
  span_dots (b +:+ String x t)
  = ((span_dots b).1, (span_dots b).2 +:+ String x t).
Proof.
  intros Hx. induction b as [|c b IH].
  - change (span_dots (String x t) = ("", String x t)). by apply span_dots_nodot.
  - destruct (Ascii.eqb_spec c ".") as [->|Hc].
    + cbn. rewrite IH. by destruct (span_dots b).
    + apply Ascii.eqb_neq in Hc.
      change (String c b +:+ String x t) with (String c (b +:+ String x t)).
      by rewrite !span_dots_nodot.
Qed.

(** On a name that ends in [?.gz], [os.path.splitext] gives [.gz]. *)
Lemma os_splitext_gz a x :
  Ascii.eqb x "." = false → Ascii.eqb x "/" = false →
  (Py.splitext (a +:+ String x ".gz")).2 = ".gz".
Proof.
  intros Hdot Hslash. unfold Py.splitext.
  rewrite rsplit1_app_nosep by (cbn; by rewrite Hslash).
  destruct (rsplit1 "/" a) as [[d b]|].
  - rewrite span_dots_app by done. destruct (span_dots b) as [dots rest]. cbn [fst snd].
    change (rest +:+ String x ".gz") with (rest +:+ String x (String "." "gz")).
    replace (rest +:+ String x (String "." "gz"))
      with ((rest +:+ String x "") +:+ String "." "gz")
      by (by rewrite app_assoc_str).
    by rewrite rsplit1_last.
  - rewrite span_dots_app by done. destruct (span_dots a) as [dots rest]. cbn [fst snd].
    replace (rest +:+ String x ".gz")
      with ((rest +:+ String x "") +:+ String "." "gz")
      by (by rewrite app_assoc_str).
    by rewrite rsplit1_last.
Qed.

Lemma endswith_take_end s suf :
  endswith s suf = true → take_end (String.length suf) s = suf.
Proof. intros [a ->]%endswith_inv. apply take_end_app. Qed.

Lemma endswith_other s suf suf' :
  String.length suf = String.length suf' → suf ≠ suf' →
  endswith s suf = true → endswith s suf' = false.
Proof.
  intros Hlen Hne Hs. destruct (endswith s suf') eqn:Hs'; [|done].
  apply endswith_take_end in Hs, Hs'. rewrite Hlen in Hs. congruence.
Qed.

(** [splitext] on the special endings and on the others. *)
Lemma splitext_endings path :
  (endswith path ".nii.gz" = true →
   (splitext path).2 = ".nii.gz" ∧ (Py.splitext path).2 = ".gz")
  ∧ (endswith path ".mnc.gz" = true →
     (splitext path).2 = ".mnc.gz" ∧ (Py.splitext path).2 = ".gz")
  ∧ (endswith path ".nii.gz" = false → endswith path ".mnc.gz" = false →
     splitext path = Py.splitext path).
Proof.
  unfold splitext. cbn [splitext_special String.length].
  split; [|split].
  - intros Hnii. rewrite Hnii. apply endswith_inv in Hnii as [a ->].
    change 7%nat with (String.length ".nii.gz").
    rewrite take_end_app. split; [done|].
    replace (a +:+ ".nii.gz")
      with ((a +:+ ".ni") +:+ String "i" ".gz") by (by rewrite app_assoc_str).
    by apply os_splitext_gz.
  - intros Hmnc.
    rewrite (endswith_other path ".mnc.gz" ".nii.gz" eq_refl ltac:(by intros [=]) Hmnc).
    rewrite Hmnc. apply endswith_inv in Hmnc as [a ->].
    change 7%nat with (String.length ".mnc.gz").
    rewrite take_end_app. split; [done|].
    replace (a +:+ ".mnc.gz")
      with ((a +:+ ".mn") +:+ String "c" ".gz") by (by rewrite app_assoc_str).
    by apply os_splitext_gz.
  - by intros -> ->.
Qed.

(** X1: [splitext] cuts a path in two without losing a byte; the second part
  is empty or starts with a dot; and on a path that ends with [.nii.gz] or
  [.mnc.gz] it is that ending, where [os.path.splitext] gives [.gz]. *)
Theorem splitext_joins path :
  (splitext path).1 +:+ (splitext path).2 = path
  ∧ ((splitext path).2 = "" ∨ String.prefix "." (splitext path).2 = true)
  ∧ (endswith path ".nii.gz" = true →
     (splitext path).2 = ".nii.gz" ∧ (Py.splitext path).2 = ".gz")
  ∧ (endswith path ".mnc.gz" = true →
     (splitext path).2 = ".mnc.gz" ∧ (Py.splitext path).2 = ".gz")
  ∧ (endswith path ".nii.gz" = false → endswith path ".mnc.gz" = false →
     splitext path = Py.splitext path).
Proof.
  split; [|split; [|apply splitext_endings]];
    unfold splitext; cbn [splitext_special String.length].
  - destruct (endswith path ".nii.gz") eqn:Hnii.
    { apply endswith_inv in Hnii as [a ->].
      change 7%nat with (String.length ".nii.gz").
      by rewrite drop_end_app, take_end_app. }
    destruct (endswith path ".mnc.gz") eqn:Hmnc.
    { apply endswith_inv in Hmnc as [a ->].
      change 7%nat with (String.length ".mnc.gz").
      by rewrite drop_end_app, take_end_app. }
    apply os_splitext_joins.
  - destruct (endswith path ".nii.gz") eqn:Hnii.
    { change 7%nat with (String.length ".nii.gz").
      rewrite (endswith_take_end _ _ Hnii). by right. }
    destruct (endswith path ".mnc.gz") eqn:Hmnc.
    { change 7%nat with (String.length ".mnc.gz").
      rewrite (endswith_take_end _ _ Hmnc). by right. }
    apply os_splitext_joins.
Qed.

(** X2: the extension [get_extension] gives is an ending of the path. It is
  the second part of [splitext], except on the two endings the two functions
  do not share: [.tar.gz], which [splitext] cuts at [.gz], and [.mnc.gz],
  which [get_extension] cuts at [.gz]. *)
Theorem get_extension_suffix path :
  endswith path (get_extension path) = true
  ∧ (endswith path ".tar.gz" = false → endswith path ".mnc.gz" = false →
     get_extension path = (splitext path).2)
  ∧ (endswith path ".tar.gz" = true →
     get_extension path = ".tar.gz" ∧ (splitext path).2 = ".gz")
  ∧ (endswith path ".mnc.gz" = true →
     get_extension path = ".gz" ∧ (splitext path).2 = ".mnc.gz").
Proof.
  destruct (splitext_endings path) as (Hnii & Hmnc & Hother).
  destruct (os_splitext_joins path) as [Hj' _].
  assert (Hsuf : endswith path (Py.splitext path).2 = true).
  { rewrite <-Hj' at 1. apply endswith_app. }
  unfold get_extension.
  destruct (endswith path ".tar.gz") eqn:Htar.
  - pose proof (endswith_other path ".tar.gz" ".mnc.gz" eq_refl ltac:(by intros [=]) Htar)
      as Hm.
    pose proof (endswith_other path ".tar.gz" ".nii.gz" eq_refl ltac:(by intros [=]) Htar)
      as Hn.
    rewrite Hm. split; [done|]. split; [done|]. split; [|done].
    intros _. split; [done|]. rewrite (Hother Hn Hm).
    apply endswith_inv in Htar as [a ->].
    replace (a +:+ ".tar.gz")
      with ((a +:+ ".ta") +:+ String "r" ".gz") by (by rewrite app_assoc_str).
    by apply os_splitext_gz.
  - destruct (endswith path ".nii.gz") eqn:Hn.
    + destruct (Hnii eq_refl) as [-> _].
      rewrite (endswith_other path ".nii.gz" ".mnc.gz" eq_refl ltac:(by intros [=]) Hn).
      split; [done|]. split; [done|]. split; done.
    + destruct (endswith path ".mnc.gz") eqn:Hm.
      * destruct (Hmnc eq_refl) as [He Hos]. rewrite He, Hos.
        split; [by rewrite <-Hos|]. split; [done|]. split; done.
      * rewrite (Hother eq_refl eq_refl).
        split; [done|]. split; [done|]. split; done.
Qed.

Lemma split_sep_go_nonempty c cur s : split_sep_go c cur s ≠ [].
Proof.
  revert cur. induction s as [|x s IH]; intros cur; cbn; [done|].
  destruct (Ascii.eqb x c); [done|apply IH].
Qed.

Lemma str_concat_cons sep x l :
  l ≠ [] → String.concat sep (x :: l) = x +:+ sep +:+ String.concat sep l.
Proof. by destruct l. Qed.

(** [sep.join(s.split(sep)) == s]. *)
Lemma join_split_sep_go c cur s :
  String.concat (String c "") (split_sep_go c cur s) = cur +:+ s.
Proof.
  revert cur. induction s as [|x s IH]; intros cur; cbn [split_sep_go].
  - cbn. by rewrite app_nil_r_str.
  - destruct (Ascii.eqb_spec x c) as [->|Hne].
    + rewrite str_concat_cons by apply split_sep_go_nonempty. rewrite IH. done.
    + rewrite IH. by rewrite app_assoc_str.
Qed.

(** The first field has no separator, and what follows the first separator
  is the rest joined. *)
Lemma split_sep_go_first c cur s :
  ∃ stem tl,
    split_sep_go c cur s = (cur +:+ stem) :: tl
    ∧ str_forall (λ x, negb (Ascii.eqb x c)) stem = true
    ∧ (tl = [] ∧ s = stem
       ∨ tl ≠ [] ∧ s = stem +:+ String c (String.concat (String c "") tl)).
Proof.
  revert cur. induction s as [|x s IH]; intros cur; cbn [split_sep_go].
  - exists "", []. rewrite app_nil_r_str. split; [done|]. split; [done|]. by left.
  - destruct (Ascii.eqb_spec x c) as [->|Hne].
    + exists "", (split_sep_go c "" s). rewrite app_nil_r_str.
      split; [done|]. split; [done|]. right.
      split; [apply split_sep_go_nonempty|]. by rewrite join_split_sep_go.
    + destruct (IH (cur +:+ String x "")) as (stem & tl & Hrun & Hstem & Hs).
      exists (String x stem), tl. rewrite Hrun, app_assoc_str. split; [done|].
      split; [cbn; apply Ascii.eqb_neq in Hne; by rewrite Hne|].
      destruct Hs as [[-> ->]|[Hne' ->]]; [by left|by right].
Qed.

Lemma split_sep_go_app c cur stem rest :
  str_forall (λ x, negb (Ascii.eqb x c)) stem = true →
  split_sep_go c cur (stem +:+ String c rest) = (cur +:+ stem) :: split_sep_go c "" rest.
Proof.
  revert cur. induction stem as [|x stem IH]; intros cur; cbn.
  - intros _. by rewrite Ascii.eqb_refl, app_nil_r_str.
  - intros [Hx Hs]%andb_true_iff. apply negb_true_iff in Hx. rewrite Hx.
    rewrite IH by done. by rewrite app_assoc_str.
Qed.

(** X3: [filter_niftis] keeps, in their order, the names made of a stem
  without a dot followed by [.nii] or [.nii.gz], and only those: a name with
  a dot before the extension is dropped. *)
Theorem filter_niftis_keeps candidates :
  filter_niftis candidates `sublist_of` candidates
  ∧ ∀ x,
      x ∈ filter_niftis candidates
      ↔ x ∈ candidates
        ∧ ∃ stem, str_forall (λ c, negb (Ascii.eqb c ".")) stem = true
                  ∧ (x = stem +:+ ".nii" ∨ x = stem +:+ ".nii.gz").
Proof.
  split; [apply sublist_filter|]. intros x.
  unfold filter_niftis. rewrite list_elem_of_filter.
  rewrite (and_comm (named_nifti x = true)). apply and_iff_compat_l.
  unfold named_nifti, split_sep, Py.join. split.
  - destruct (split_sep_go_first "." "" x) as (stem & tl & -> & Hstem & Hx).
    cbn [tail]. intros Hn. exists stem. split; [done|].
    destruct Hx as [[-> ->]|[Hne ->]]; [done|].
    apply orb_true_iff in Hn as [Hn|Hn]; apply String.eqb_eq in Hn; rewrite <-Hn;
      [by right|by left].
  - intros (stem & Hstem & [->| ->]).
    + change (stem +:+ ".nii") with (stem +:+ String "." "nii").
      by rewrite split_sep_go_app.
    + change (stem +:+ ".nii.gz") with (stem +:+ String "." "nii.gz").
      by rewrite split_sep_go_app.
Qed.

Lemma split_sep_go_nosep c cur s :
  str_forall (λ x, negb (Ascii.eqb x c)) s = true →
  split_sep_go c cur s = [cur +:+ s].
Proof.
  revert cur. induction s as [|x s IH]; intros cur; cbn.
  - intros _. by rewrite app_nil_r_str.
  - intros [Hx Hs]%andb_true_iff. apply negb_true_iff in Hx. rewrite Hx.
    rewrite IH by done. by rewrite app_assoc_str.
Qed.

Lemma split_sep_go_snoc c cur a b :
  str_forall (λ x, negb (Ascii.eqb x c)) b = true →
  split_sep_go c cur (a +:+ String c b) = split_sep_go c cur a ++ [b].
Proof.
  intros Hb. revert cur. induction a as [|x a IH]; intros cur; cbn.
  - rewrite Ascii.eqb_refl. by rewrite split_sep_go_nosep.
  - destruct (Ascii.eqb x c); by rewrite IH.
Qed.

Lemma rsplit1_nosep c s a b :
  rsplit1 c s = Some (a, b) → str_forall (λ x, negb (Ascii.eqb x c)) b = true.
Proof.
  revert a b. induction s as [|x s IH]; intros a b; [done|]. cbn.
  destruct (rsplit1 c s) as [[a' b']|] eqn:E.
  - intros [= <- <-]. by eapply IH.
  - destruct (Ascii.eqb x c) eqn:Ex; [|done]. intros [= <- <-].
    clear IH. revert E. induction s as [|y s IH]; [done|]. cbn.
    destruct (rsplit1 c s) as [[? ?]|]; [done|].
    destruct (Ascii.eqb y c); [done|]. intros _. by rewrite IH.
Qed.

Lemma rsplit1_none_nosep c s :
  rsplit1 c s = None → str_forall (λ x, negb (Ascii.eqb x c)) s = true.
Proof.
  induction s as [|y s IH]; [done|]. cbn.
  destruct (rsplit1 c s) as [[? ?]|]; [done|].
  destruct (Ascii.eqb y c); [done|]. intros _. by rewrite IH.
Qed.

Lemma components_slash p : components (p +:+ "/") = components p.
Proof.
  unfold components, split_sep. rewrite split_sep_go_snoc by done.
  rewrite filter_app. cbn. by rewrite app_nil_r.
Qed.

Lemma components_slashes p t :
  str_forall (λ c, Ascii.eqb c "/") t = true → components (p +:+ t) = components p.
Proof.
  revert p. induction t as [|c t IH]; intros p; cbn.
  - intros _. by rewrite app_nil_r_str.
  - intros [->%Ascii.eqb_eq Ht]%andb_true_iff.
    replace (p +:+ String "/" t) with ((p +:+ "/") +:+ t) by (by rewrite app_assoc_str).
    rewrite IH by done. apply components_slash.
Qed.

Lemma rstrip_char_spec c s :
  ∃ t, s = rstrip_char c s +:+ t ∧ str_forall (λ x, Ascii.eqb x c) t = true.
Proof.
  induction s as [|x s (t & Hs & Ht)]; [by exists ""|]. cbn.
  destruct (String.eqb_spec (rstrip_char c s) "") as [Hr|Hr].
  - destruct (Ascii.eqb_spec x c) as [->|Hx]; cbn.
    + exists (String c t). rewrite Hr in Hs. cbn in Hs. subst s. split; [done|].
      cbn. by rewrite Ascii.eqb_refl.
    + exists t. split; [by rewrite Hs at 1; rewrite Hr|done].
  - cbn. exists t. split; [by rewrite Hs at 1|done].
Qed.

Lemma rstrip_char_no_trailing s : Py.endswith_slash (rstrip_char "/" s) = false.
Proof.
  unfold Py.endswith_slash. induction s as [|x s IH]; [done|]. cbn [rstrip_char].
  destruct (String.eqb_spec (rstrip_char "/" s) "") as [Hr|Hr].
  - rewrite Hr. destruct (Ascii.eqb_spec x "/") as [->|Hx]; cbn; [done|].
    apply Ascii.eqb_neq in Hx. by rewrite Hx.
  - cbn [andb]. cbn [rsplit1].
    destruct (rsplit1 "/" (rstrip_char "/" s)) as [[a b]|].
    + by destruct b.
    + destruct (Ascii.eqb x "/"); [|done]. by destruct (rstrip_char "/" s).
Qed.

Lemma length_rstrip_char c s : (String.length (rstrip_char c s) ≤ String.length s)%nat.
Proof.
  induction s as [|x s IH]; [done|]. cbn.
  destruct (_ && _); cbn; lia.
Qed.

(** The loop, from a directory name that does not end with a slash or is
  made of slashes only. *)
Lemma split_path_loop_spec fuel d acc :
  (String.length d < fuel)%nat →
  Py.endswith_slash d = false ∨ str_forall (λ c, Ascii.eqb c "/") d = true →
  split_path_loop fuel d acc = Some (components d ++ acc).
Proof.
  revert d acc. induction fuel as [|fuel IH]; intros d acc Hlen Hd; [lia|].
  cbn [split_path_loop]. unfold os_path_split.
  destruct (rsplit1 "/" d) as [[a b]|] eqn:Es.
  - pose proof (rsplit1_nosep _ _ _ _ Es) as Hb.
    pose proof (rsplit1_joins _ _ _ _ Es) as ->.
    destruct b as [|y b].
    + (* a trailing slash: only slashes *)
      destruct Hd as [Hd|Hd]; [unfold Py.endswith_slash in Hd; by rewrite Es in Hd|].
      cbn [Py.truthy String.eqb negb].
      replace (components (a +:+ "/")) with (components "")
        by (symmetry; apply (components_slashes "" (a +:+ "/") Hd)).
      done.
    + cbn [Py.truthy String.eqb negb].
      set (head := if Py.truthy (a +:+ "/")
                      && negb (str_forall (λ c, Ascii.eqb c "/") (a +:+ "/"))
                   then rstrip_char "/" (a +:+ "/") else a +:+ "/").
      assert (Hhead : (String.length head ≤ String.length (a +:+ "/"))%nat
                      ∧ components head = components a
                      ∧ (Py.endswith_slash head = false
                         ∨ str_forall (λ c, Ascii.eqb c "/") head = true)).
      { unfold head. destruct (_ && _) eqn:E.
        - split; [apply length_rstrip_char|]. split; [|left; apply rstrip_char_no_trailing].
          destruct (rstrip_char_spec "/" (a +:+ "/")) as (t & Ht & Hall).
          rewrite <-(components_slash a). rewrite Ht at 2.
          by rewrite components_slashes.
        - split; [done|]. split; [apply components_slash|]. right.
          apply andb_false_iff in E as [E|E].
          + by destruct a.
          + by apply negb_false_iff in E. }
      destruct Hhead as (Hl & Hc & Hinv).
      rewrite IH; [|rewrite length_app_str in *; cbn in *; lia|done].
      f_equal. rewrite Hc. unfold components, split_sep.
      rewrite split_sep_go_snoc by done. rewrite filter_app. cbn.
      by rewrite <-app_assoc.
  - pose proof (rsplit1_none_nosep _ _ Es) as Hns.
    cbn [andb Py.truthy String.eqb negb].
    unfold components, split_sep. rewrite split_sep_go_nosep by done. cbn.
    destruct d as [|y d]; [done|]. cbn.
    destruct fuel as [|fuel]; [cbn in Hlen; lia|]. done.
Qed.

Lemma split_path_loop_components fuel path :
  (String.length path < fuel)%nat →
  split_path_loop fuel path []
  = Some (if Py.endswith_slash path then [] else components path).
Proof.
  intros Hlen. destruct (Py.endswith_slash path) eqn:E.
  - destruct fuel as [|fuel]; [lia|]. cbn [split_path_loop].
    unfold os_path_split, Py.endswith_slash in *.
    destruct (rsplit1 "/" path) as [[a b]|]; [|done]. by destruct b.
  - rewrite split_path_loop_spec by auto. by rewrite app_nil_r.
Qed.

(** X4: [split_path] ends on every path: it gives the non-empty parts
  between the slashes of the path, in order, and the empty list for a path
  that ends with a slash; more rounds than the path has bytes give the same. *)
Theorem split_path_components path :
  split_path path
  = Some (if Py.endswith_slash path then [] else components path)
  ∧ ∀ fuel, (String.length path < fuel)%nat →
      split_path_loop fuel path [] = split_path path.
Proof.
  assert (Hrun : split_path path
                 = Some (if Py.endswith_slash path then [] else components path)).
  { unfold split_path. apply split_path_loop_components. lia. }
  split; [exact Hrun|]. intros fuel Hfuel. rewrite Hrun.
  by apply split_path_loop_components.
Qed.

End PathFacts.

(** ** datman/utils.py: shell arguments *)

Section ShellFacts.

Import Py Enigma.

Local Arguments String.append !_ _ / : simpl nomatch.

Lemma str_bind_app f s t : str_bind f (s +:+ t) = str_bind f s +:+ str_bind f t.
Proof.
  induction s as [|c s IH]; [done|].
  change (f c +:+ str_bind f (s +:+ t) = (f c +:+ str_bind f s) +:+ str_bind f t).
  by rewrite IH, app_assoc_str.
Qed.

Lemma str_bind_bind f g s :
  str_bind f (str_bind g s) = str_bind (λ c, str_bind f (g c)) s.
Proof.
  induction s as [|c s IH]; [done|]. cbn [str_bind]. by rewrite str_bind_app, IH.
Qed.

Lemma str_bind_ext f g s : (∀ c, f c = g c) → str_bind f s = str_bind g s.
Proof.
  intros Hfg. induction s as [|c s IH]; [done|]. cbn [str_bind]. by rewrite Hfg, IH.
Qed.

Lemma replace_byte s c new :
  Py.replace s (String c "") new
  = str_bind (λ x, if Ascii.eqb x c then new else String x "") s.
Proof.
  unfold Py.replace. cbn [String.eqb].
  induction s as [|x s IH]; [done|].
  cbn [Py.replace_go str_bind String.prefix String.length Nat.sub].
  destruct (ascii_dec c x) as [->|Hne].
  - rewrite Ascii.eqb_refl. destruct s; cbn [String.prefix]; by rewrite IH.
  - destruct (Ascii.eqb_spec x c) as [->|_]; [done|]. by rewrite IH.
Qed.

Lemma length_str_bind_escape s :
  String.length (str_bind escape_byte s)
  = (String.length s + str_count is_shell_special s)%nat.
Proof.
  induction s as [|c s IH]; [done|].
  cbn [str_bind str_count]. unfold escape_byte at 1. fold (is_shell_special c).
  destruct (is_shell_special c); cbn [String.append String.length]; rewrite IH; lia.
Qed.

(** X5: [_escape_shell_chars] works byte by byte: it puts a backslash
  before every [(], [;] and [)] and leaves every other byte, a backslash
  included, as it is; so the result is longer by the number of these three
  bytes, and escaping what is escaped already escapes it once more. *)
Theorem escape_shell_chars_bytewise arg :
  _escape_shell_chars arg = str_bind escape_byte arg
  ∧ String.length (_escape_shell_chars arg)
    = (String.length arg + str_count is_shell_special arg)%nat
  ∧ str_count is_shell_special (_escape_shell_chars arg)
    = str_count is_shell_special arg.
Proof.
  assert (Heq : _escape_shell_chars arg = str_bind escape_byte arg).
  { unfold _escape_shell_chars. rewrite !replace_byte, !str_bind_bind.
    apply str_bind_ext. intros c. unfold escape_byte.
    destruct (Ascii.eqb_spec c "(") as [->|H1]; [done|].
    destruct (Ascii.eqb_spec c ";") as [->|H2]; [done|].
    destruct (Ascii.eqb_spec c ")") as [->|H3]; [done|].
    cbn [str_bind String.append].
    rewrite (proj2 (Ascii.eqb_neq c ";")) by done. cbn [str_bind String.append].
    by rewrite (proj2 (Ascii.eqb_neq c ")")) by done. }
  rewrite Heq. split; [done|]. split; [apply length_str_bind_escape|].
  clear Heq. induction arg as [|c s IH]; [done|].
  cbn [str_bind str_count]. unfold escape_byte at 1. fold (is_shell_special c).
  destruct (is_shell_special c) eqn:Ec; cbn [String.append str_count];
    rewrite ?Ec, IH; done.
Qed.

End ShellFacts.

(** ** datman/utils.py: look-ups and updates of the metadata files *)

Section MetadataLookups.

Import Utils.

Context `{Scanid} `{DashBackend} `{Interpreter}.

Lemma dict_truthy_lookup {V} (d : gmap string V) k :
  is_Some (d !! k) → dict_truthy d = true.
Proof.
  intros [v Hv]. unfold dict_truthy. apply negb_true_iff, bool_decide_eq_false_2.
  intros ->. by rewrite lookup_empty in Hv.
Qed.

Lemma seen_before {V} (d : gmap string V) k :
  dict_truthy d && bool_decide (is_Some (d !! k)) = bool_decide (is_Some (d !! k)).
Proof.
  destruct (bool_decide (is_Some (d !! k))) eqn:E; [|apply andb_false_r].
  apply bool_decide_eq_true_1 in E. by rewrite (dict_truthy_lookup d k E).
Qed.

(** The dictionary of a checklist keeps what it had: of two lines for one
  subject the first counts. *)
Lemma parse_checklist_lines_keeps lines acc w :
  ∃ d w',
    parse_checklist_lines lines None (Some acc) w = (Ok (Entries d), w')
    ∧ acc ⊆ d.
Proof.
  revert acc w. induction lines as [|line lines IH]; intros acc w.
  - by eexists _, _.
  - cbn [parse_checklist_lines].
    destruct (Py.split line) as [|field0 fields]; [apply IH|].
    destruct (scanid_parse _) as [i|].
    + rewrite seen_before. case_bool_decide as Hk.
      * unfold mbind, St_bind, log_info, emit. apply IH.
      * cbn [Py.otruthy].
        match goal with |- context [parse_checklist_lines _ _ (Some ?a) _] =>
          destruct (IH a w) as (d & w' & Hrun & Hsub) end.
        exists d, w'. split; [done|]. etrans; [|exact Hsub].
        apply insert_subseteq. destruct (acc !! _) eqn:E; [|done].
        destruct Hk. eauto.
    + unfold mbind, St_bind, log_error, emit. apply IH.
Qed.

(** Reading for one subject against reading the whole file. *)
Lemma parse_checklist_lines_lookup lines s acc w wd :
  Py.truthy s = true →
  acc !! s = None →
  ∃ d w1 w2,
    parse_checklist_lines lines None (Some acc) wd = (Ok (Entries d), w1)
    ∧ parse_checklist_lines lines (Some s) None w = (Ok (comment_of d s), w2).
Proof.
  intros Hs. revert acc w wd. induction lines as [|line lines IH]; intros acc w wd Hacc.
  - exists acc, wd, w. split; [done|]. unfold comment_of. by rewrite Hacc.
  - cbn [parse_checklist_lines].
    destruct (Py.split line) as [|field0 fields]; [by apply IH|].
    destruct (scanid_parse _) as [i|].
    + rewrite seen_before. cbn [Py.otruthy]. rewrite Hs.
      generalize ((Py.splitext (Py.replace field0 "qc_" "")).1). intros subid.
      destruct (decide (subid = s)) as [->|Hne].
      * (* the first line for [s] *)
        rewrite (bool_decide_eq_false_2 (is_Some (acc !! s)))
          by (rewrite Hacc; by intros [? ?]).
        rewrite (bool_decide_eq_false_2 (Some s ≠ Some s)) by (intros Hx; by apply Hx).
        destruct (parse_checklist_lines_keeps lines
                    (<[s := Py.strip (Py.join " " fields)]> acc) wd)
          as (d & w1 & Hrun & Hsub).
        exists d, w1, w. split; [done|]. unfold comment_of.
        erewrite (lookup_weaken _ d s); [done| |exact Hsub].
        apply lookup_insert_eq.
      * rewrite (bool_decide_eq_true_2 (Some subid ≠ Some s)) by congruence.
        case_bool_decide as Hk.
        -- unfold mbind, St_bind, log_info, emit. by apply IH.
        -- apply IH. by rewrite lookup_insert_ne.
    + unfold mbind, St_bind, log_error, emit. by apply IH.
Qed.

(** X6: with a file path, [read_checklist] for one subject gives what reading
  the whole file gives for that subject (without its session number): the
  comment of the first line for the subject, or [None] when no line is its
  own. *)
Theorem read_checklist_subject_agrees p content subject i w :
  Py.truthy p = true →
  files w !! p = Some content →
  Py.truthy subject = true →
  scanid_parse subject = Some i →
  Py.truthy (get_full_subjectid_with_timepoint i) = true →
  ∃ d w1 w2,
    read_checklist None None None (Some p) w = (Ok (Entries d), w1)
    ∧ read_checklist None (Some subject) None (Some p) w
      = (Ok (comment_of d (get_full_subjectid_with_timepoint i)), w2).
Proof.
  intros Hp Hf Hsub Hparse Hfull.
  unfold read_checklist. cbn [Py.otruthy].
  change (default "" (Some subject)) with subject. rewrite Hp, Hsub, Hparse.
  cbn [orb negb andb bool_decide]. rewrite !orb_true_r. cbn [negb].
  rewrite !andb_false_r.
  erewrite !(bind_ok (mret _)); [|reflexivity..].
  erewrite !(bind_ok (log_info _)); [|reflexivity..].
  rewrite !(bind_ok _ _ _ _ _ (locate_metadata_path _ _ _ _ _ _ Hp)).
  unfold try_except, open_read. unfold mbind, St_bind.
  cbn [files]. rewrite Hf.
  unfold _parse_checklist. cbn [Py.otruthy]. rewrite Hfull.
  match goal with
  | |- context [parse_checklist_lines _ None (Some ∅) ?wd] =>
      match goal with
      | |- context [parse_checklist_lines _ (Some ?s) None ?ws] =>
          destruct (parse_checklist_lines_lookup (Py.readlines content) s ∅ ws wd Hfull)
            as (d & w1 & w2 & Hd & Hs); [apply lookup_empty|]
      end
  end.
  exists d, w1, w2. by rewrite Hd, Hs.
Qed.

(** *** The blacklist *)

Lemma parse_blacklist_lines_keeps lines acc w :
  ∃ d w',
    parse_blacklist_lines lines None None (Some acc) w = (Ok (Entries d), w')
    ∧ acc ⊆ d.
Proof.
  revert acc w. induction lines as [|line lines IH]; intros acc w.
  - by eexists _, _.
  - cbn [parse_blacklist_lines].
    destruct (Py.re_split (Py.strip line)) as [|scan_name comment];
      [unfold mbind, St_bind, log_info, emit; apply IH|].
    destruct (scanid_parse_filename scan_name);
      [|unfold mbind, St_bind, log_info, emit; apply IH].
    destruct (String.eqb scan_name "series"); [apply IH|].
    cbn [Py.otruthy andb]. rewrite seen_before. case_bool_decide as Hk.
    + unfold mbind, St_bind, log_info, emit. apply IH.
    + match goal with |- context [parse_blacklist_lines _ _ _ (Some ?a) _] =>
        destruct (IH a w) as (d & w' & Hrun & Hsub) end.
      exists d, w'. split; [done|]. etrans; [|exact Hsub].
      apply insert_subseteq. destruct (acc !! _) eqn:E; [|done].
      destruct Hk. eauto.
Qed.

Lemma parse_blacklist_lines_lookup lines s subject acc w wd :
  Py.truthy s = true →
  acc !! s = None →
  ∃ d w1 w2,
    parse_blacklist_lines lines None None (Some acc) wd = (Ok (Entries d), w1)
    ∧ parse_blacklist_lines lines (Some s) subject None w = (Ok (comment_of d s), w2).
Proof.
  intros Hs. revert acc w wd. induction lines as [|line lines IH]; intros acc w wd Hacc.
  - exists acc, wd, w. split; [done|]. unfold comment_of. by rewrite Hacc.
  - cbn [parse_blacklist_lines].
    destruct (Py.re_split (Py.strip line)) as [|scan_name comment];
      [unfold mbind, St_bind, log_info, emit; by apply IH|].
    destruct (scanid_parse_filename scan_name);
      [|unfold mbind, St_bind, log_info, emit; by apply IH].
    destruct (String.eqb scan_name "series"); [by apply IH|].
    cbn [Py.otruthy andb]. rewrite Hs, seen_before.
    destruct (decide (scan_name = s)) as [->|Hne].
    + rewrite (bool_decide_eq_false_2 (is_Some (acc !! s)))
        by (rewrite Hacc; by intros [? ?]).
      rewrite (bool_decide_eq_true_2 (Some s = Some s)) by done.
      destruct (parse_blacklist_lines_keeps lines
                  (<[s := Py.strip (Py.join " " comment)]> acc) wd)
        as (d & w1 & Hrun & Hsub).
      exists d, w1, w. split; [done|]. unfold comment_of.
      erewrite (lookup_weaken _ d s); [done| |exact Hsub].
      apply lookup_insert_eq.
    + rewrite (bool_decide_eq_false_2 (Some scan_name = Some s)) by congruence.
      case_bool_decide as Hk.
      * unfold mbind, St_bind, log_info, emit. by apply IH.
      * apply IH. by rewrite lookup_insert_ne.
Qed.

Lemma join_underscore_truthy a l :
  l ≠ [] → Py.truthy (Py.join "_" (a :: l)) = true.
Proof.
  intros Hl. unfold Py.truthy, Py.join. destruct l as [|b l]; [done|].
  cbn [String.concat]. by destruct a.
Qed.

(** X7: with a file path, [read_blacklist] for one scan gives what reading
  the whole file gives for the scan's name as [parse_filename] reads it, put
  together again from identifier, tag, series and description: the comment
  of the first line for it, or [None]; for a scan name that does not parse it
  gives [None] too, and reports the name. *)
Theorem read_blacklist_scan_agrees p content scan w :
  Py.truthy p = true →
  files w !! p = Some content →
  Py.truthy scan = true →
  ∃ d w1 w2,
    read_blacklist None None None None (Some p) w = (Ok (Entries d), w1)
    ∧ read_blacklist None (Some scan) None None (Some p) w
      = (Ok match scanid_parse_filename scan with
            | Some (i, tag, series, descr) =>
                comment_of d (Py.join "_" [ident_str i; tag; series; descr])
            | None => PyNone
            end, w2)
    ∧ (scanid_parse_filename scan = None →
       EvLog "ERROR" ("Invalid scan name: " +:+ scan) ∈ trace w2).
Proof.
  intros Hp Hf Hscan.
  destruct (read_blacklist_path p content w Hp Hf) as (d0 & w0 & Hread0 & _).
  unfold read_blacklist in *. cbn [Py.otruthy] in *.
  change (default "" (Some scan)) with scan. rewrite Hp, Hscan in *.
  cbn [negb] in *. rewrite andb_false_r in *.
  destruct (scanid_parse_filename scan) as [[[[i tag] series] descr]|].
  - rewrite !(bind_ok _ _ _ _ _ (locate_metadata_path _ _ _ _ _ _ Hp)).
    unfold try_except, open_read. unfold mbind, St_bind. rewrite Hf.
    unfold _parse_blacklist. cbn [Py.otruthy].
    rewrite join_underscore_truthy by done.
    destruct (parse_blacklist_lines_lookup (Py.readlines content)
                (Py.join "_" [ident_str i; tag; series; descr]) None ∅ w w)
      as (d & w1 & w2 & Hd & Hs);
      [by apply join_underscore_truthy|apply lookup_empty|].
    exists d, w1, w2. rewrite Hd, Hs. done.
  - exists d0, w0. eexists. split; [exact Hread0|]. split; [reflexivity|].
    intros _. cbn. set_solver.
Qed.

(** Reading for one subject against reading the whole file. *)
Lemma parse_blacklist_lines_subject lines sub accf w wd :
  Py.truthy sub = true →
  ∃ d w1 w2,
    parse_blacklist_lines lines None None (Some accf) wd = (Ok (Entries d), w1)
    ∧ parse_blacklist_lines lines None (Some sub)
        (Some (filter (λ kv, Py.startswith kv.1 sub = true) accf)) w
      = (Ok (Entries (filter (λ kv, Py.startswith kv.1 sub = true) d)), w2).
Proof.
  intros Hs. revert accf w wd. induction lines as [|line lines IH]; intros accf w wd.
  - by exists accf, wd, w.
  - cbn [parse_blacklist_lines].
    destruct (Py.re_split (Py.strip line)) as [|scan_name comment];
      [unfold mbind, St_bind, log_info, emit; by apply IH|].
    destruct (scanid_parse_filename scan_name);
      [|unfold mbind, St_bind, log_info, emit; by apply IH].
    destruct (String.eqb scan_name "series"); [by apply IH|].
    cbn [Py.otruthy andb]. rewrite Hs, !seen_before. cbn [andb].
    change (default "" (Some sub)) with sub.
    destruct (Py.startswith scan_name sub) eqn:Hpre; cbn [negb].
    + assert (Hl : filter (λ kv : string * string, Py.startswith kv.1 sub = true) accf
                     !! scan_name = accf !! scan_name).
      { destruct (accf !! scan_name) as [c|] eqn:E.
        - by apply map_lookup_filter_Some_2.
        - apply map_lookup_filter_None_2. by left. }
      rewrite Hl. case_bool_decide as Hk.
      * unfold mbind, St_bind, log_info, emit. by apply IH.
      * rewrite <-(map_filter_insert_True (λ kv : string * string,
                     Py.startswith kv.1 sub = true)) by done.
        apply IH.
    + case_bool_decide as Hk.
      * unfold mbind, St_bind, log_info, emit. by apply IH.
      * rewrite <-(map_filter_insert_not (λ kv : string * string,
                     Py.startswith kv.1 sub = true) accf scan_name
                     (Py.strip (Py.join " " comment)))
          by (intros y Hy; change (Py.startswith scan_name sub = true) in Hy; congruence).
        apply IH.
Qed.

(** X8: with a file path, [read_blacklist] for a subject gives the entries of
  the whole file whose scan name starts with the subject ID, with the same
  comments. *)
Theorem read_blacklist_subject_filters p content subject w :
  Py.truthy p = true →
  files w !! p = Some content →
  Py.truthy subject = true →
  ∃ d w1 w2,
    read_blacklist None None None None (Some p) w = (Ok (Entries d), w1)
    ∧ read_blacklist None None (Some subject) None (Some p) w
      = (Ok (Entries (filter (λ kv, Py.startswith kv.1 subject = true) d)), w2).
Proof.
  intros Hp Hf Hsub.
  unfold read_blacklist. cbn [Py.otruthy]. rewrite Hp. cbn [negb].
  rewrite andb_false_r.
  rewrite !(bind_ok _ _ _ _ _ (locate_metadata_path _ _ _ _ _ _ Hp)).
  unfold try_except, open_read. unfold mbind, St_bind. rewrite Hf.
  unfold _parse_blacklist. cbn [Py.otruthy].
  destruct (parse_blacklist_lines_subject (Py.readlines content) subject ∅ w w Hsub)
    as (d & w1 & w2 & Hd & Hs).
  rewrite map_filter_empty in Hs.
  exists d, w1, w2. by rewrite Hd, Hs.
Qed.

(** *** Updates that are turned down *)

(** Reading a file makes no write attempt. *)
Lemma parse_checklist_lines_reads lines subject entries w :
  ∃ r w',
    parse_checklist_lines lines subject entries w = (r, w')
    ∧ same_files w w' ∧ write_attempts (trace w') = write_attempts (trace w).
Proof.
  revert entries w. induction lines as [|line lines IH]; intros entries w.
  - by eexists _, _.
  - cbn [parse_checklist_lines].
    assert (Hlog : ∀ lvl msg, ∃ r w',
      (emit (EvLog lvl msg);; parse_checklist_lines lines subject entries) w = (r, w')
      ∧ same_files w w' ∧ write_attempts (trace w') = write_attempts (trace w)).
    { intros lvl msg.
      destruct (IH entries (World (files w) (io w) (waits w)
                              (trace w ++ [EvLog lvl msg])))
        as (r & w' & Hrun & Hs & Hw).
      exists r, w'. split; [exact Hrun|]. split; [exact Hs|].
      rewrite Hw. cbn. unfold write_attempts. rewrite omap_app. cbn.
      by rewrite app_nil_r. }
    destruct (Py.split line) as [|field0 fields]; [apply IH|].
    destruct (scanid_parse _); [|apply Hlog].
    destruct (match entries with Some d => _ | None => false end); [apply Hlog|].
    destruct (Py.otruthy subject).
    + destruct (bool_decide _); [apply IH|]. by eexists _, _.
    + destruct entries; [apply IH|]. by eexists _, _.
Qed.

Lemma parse_blacklist_lines_reads lines scan subject entries w :
  ∃ r w',
    parse_blacklist_lines lines scan subject entries w = (r, w')
    ∧ same_files w w' ∧ write_attempts (trace w') = write_attempts (trace w).
Proof.
  revert entries w. induction lines as [|line lines IH]; intros entries w.
  - by eexists _, _.
  - cbn [parse_blacklist_lines].
    assert (Hlog : ∀ msg, ∃ r w',
      (log_info msg;; parse_blacklist_lines lines scan subject entries) w = (r, w')
      ∧ same_files w w' ∧ write_attempts (trace w') = write_attempts (trace w)).
    { intros msg.
      destruct (IH entries (World (files w) (io w) (waits w)
                              (trace w ++ [EvLog "INFO" msg])))
        as (r & w' & Hrun & Hs & Hw).
      exists r, w'. split; [exact Hrun|]. split; [exact Hs|].
      rewrite Hw. cbn. unfold write_attempts. rewrite omap_app. cbn.
      by rewrite app_nil_r. }
    destruct (Py.re_split (Py.strip line)) as [|scan_name comment]; [apply Hlog|].
    destruct (scanid_parse_filename scan_name); [|apply Hlog].
    destruct (String.eqb scan_name "series"); [apply IH|].
    destruct (Py.otruthy scan).
    + destruct (bool_decide _); [by eexists _, _|apply IH].
    + destruct (_ && _); [apply IH|].
      destruct (match entries with Some d => _ | None => false end); [apply Hlog|].
      destruct entries; [apply IH|]. by eexists _, _.
Qed.

(** An existing file, read by its path: a dictionary, and no write. *)
Lemma read_checklist_reads p content w :
  Py.truthy p = true →
  files w !! p = Some content →
  ∃ old w1,
    read_checklist None None None (Some p) w = (Ok (Entries old), w1)
    ∧ same_files w w1 ∧ write_attempts (trace w1) = write_attempts (trace w).
Proof.
  intros Hp Hf.
  destruct (read_checklist_path p content w Hp Hf) as (old & w1 & Hread & Hs & _ & Hrun).
  exists old, w1. split; [done|]. split; [done|].
  match type of Hrun with parse_checklist_lines ?l ?s ?e ?w0 = _ =>
    destruct (parse_checklist_lines_reads l s e w0) as (r & w' & Hrun' & _ & Hw) end.
  rewrite Hrun in Hrun'. injection Hrun' as <- <-. rewrite Hw. cbn.
  unfold write_attempts. rewrite omap_app. cbn. by rewrite app_nil_r.
Qed.

Lemma read_blacklist_reads p content w :
  Py.truthy p = true →
  files w !! p = Some content →
  ∃ old w1,
    read_blacklist None None None None (Some p) w = (Ok (Entries old), w1)
    ∧ same_files w w1 ∧ write_attempts (trace w1) = write_attempts (trace w).
Proof.
  intros Hp Hf. unfold read_blacklist. cbn [Py.otruthy]. rewrite Hp. cbn [negb].
  rewrite andb_false_r.
  rewrite (bind_ok _ _ _ _ _ (locate_metadata_path _ _ _ _ _ _ Hp)).
  unfold try_except, open_read. unfold mbind at 1. unfold St_bind at 1. rewrite Hf.
  unfold _parse_blacklist. cbn [Py.otruthy].
  destruct (parse_blacklist_lines_total (Py.readlines content) ∅ w)
    as (old & w1 & Hrun & Hs).
  destruct (parse_blacklist_lines_reads (Py.readlines content) None None (Some ∅) w)
    as (r & w' & Hrun' & _ & Hw).
  rewrite Hrun in Hrun'. injection Hrun' as <- <-.
  rewrite Hrun. by exists old, w1.
Qed.

Lemma merge_checklist_bad l entries acc :
  (∃ k v, (k, v) ∈ l
          ∧ match scanid_parse k with
            | None => True
            | Some i => entries !! get_full_subjectid_with_timepoint i = None
            end) →
  ∃ k v, (k, v) ∈ l
    ∧ merge_checklist l entries acc
      = Raise match scanid_parse k with
              | None => MetadataException
                          ("Attempt to add invalid subject ID " +:+ k +:+ " to "
                           +:+ "QC checklist")
              | Some i => KeyError (get_full_subjectid_with_timepoint i)
              end
    ∧ match scanid_parse k with
      | None => True
      | Some i => entries !! get_full_subjectid_with_timepoint i = None
      end.
Proof.
  revert acc. induction l as [|[k v] l IH]; intros acc (k' & v' & Hin & Hbad).
  - by apply elem_of_nil in Hin.
  - cbn [merge_checklist].
    destruct (scanid_parse k) as [i|] eqn:Ek.
    + destruct (entries !! get_full_subjectid_with_timepoint i) as [c|] eqn:Ec.
      * apply elem_of_cons in Hin as [[= -> ->]|Hin].
        { rewrite Ek in Hbad. congruence. }
        destruct (IH (<[get_full_subjectid_with_timepoint i := c]> acc))
          as (k2 & v2 & Hin2 & Hrun & Hbad2); [by eauto|].
        exists k2, v2. split; [by right|]. by split.
      * exists k, v. split; [by left|]. by rewrite Ek.
    + exists k, v. split; [by left|]. by rewrite Ek.
Qed.

(** X9: [update_checklist] with a file path, when a key of the delta is not a
  valid subject ID, or is one with a session number whose ID without it is
  not a key as well, raises ([MetadataException] for the first, [KeyError]
  for the second) before it writes: the file is as it was and no write was
  attempted. *)
Theorem update_checklist_rejects entries p content w :
  Py.truthy p = true →
  files w !! p = Some content →
  (∃ k, k ∈ dom entries
        ∧ match scanid_parse k with
          | None => True
          | Some i => entries !! get_full_subjectid_with_timepoint i = None
          end) →
  ∃ k w',
    k ∈ dom entries
    ∧ update_checklist entries None None (Some p) w
      = (Raise match scanid_parse k with
               | None => MetadataException
                           ("Attempt to add invalid subject ID " +:+ k +:+ " to "
                            +:+ "QC checklist")
               | Some i => KeyError (get_full_subjectid_with_timepoint i)
               end, w')
    ∧ match scanid_parse k with
      | None => True
      | Some i => entries !! get_full_subjectid_with_timepoint i = None
      end
    ∧ files w' = files w
    ∧ write_attempts (trace w') = write_attempts (trace w).
Proof.
  intros Hp Hf (k & [v Hk]%elem_of_dom & Hbad).
  destruct (read_checklist_reads p content w Hp Hf)
    as (old & w1 & Hread & (Hfiles & _) & Hwrites).
  destruct (merge_checklist_bad (dict_items entries) entries old)
    as (k' & v' & Hin & Hrun & Hbad').
  { exists k, v. split; [|done]. rewrite (dict_items_perm entries).
    by apply elem_of_map_to_list. }
  exists k', w1. split.
  { rewrite (dict_items_perm entries) in Hin. apply elem_of_map_to_list in Hin.
    apply elem_of_dom. eauto. }
  split; [|done].
  unfold update_checklist. cbn [Py.otruthy]. rewrite Hp. cbn [negb].
  rewrite andb_false_r.
  rewrite (bind_ok _ _ _ _ _ (locate_metadata_path _ _ _ _ _ _ Hp)).
  rewrite (bind_ok _ _ _ _ _ Hread).
  unfold lift, mbind, St_bind. by rewrite Hrun.
Qed.

Lemma merge_blacklist_bad l acc w :
  (∃ k v, (k, v) ∈ l ∧ scanid_parse_filename k = None) →
  ∃ k v w',
    (k, v) ∈ l ∧ scanid_parse_filename k = None
    ∧ merge_blacklist l acc w
      = (Raise (MetadataException
                  ("Attempt to add invalid scan name " +:+ k +:+ " "
                   +:+ "to blacklist")), w')
    ∧ same_files w w' ∧ write_attempts (trace w') = write_attempts (trace w).
Proof.
  revert acc w. induction l as [|[k v] l IH]; intros acc w (k' & v' & Hin & Hbad).
  - by apply elem_of_nil in Hin.
  - cbn [merge_blacklist].
    destruct (scanid_parse_filename k) as [x|] eqn:Ek.
    + apply elem_of_cons in Hin as [[= -> ->]|Hin]; [congruence|].
      destruct (Py.truthy v); cbn [negb].
      * destruct (IH (<[k := v]> acc) w) as (k2 & v2 & w' & Hin2 & Hb2 & Hrun & Hs & Hw);
          [by eauto|].
        exists k2, v2, w'. split; [by right|]. done.
      * unfold mbind, St_bind, log_error, emit.
        match goal with |- context [merge_blacklist l acc ?w0] =>
          destruct (IH acc w0) as (k2 & v2 & w' & Hin2 & Hb2 & Hrun & Hs & Hw);
            [by eauto|] end.
        exists k2, v2, w'. split; [by right|]. split; [done|]. split; [done|].
        split; [exact Hs|]. rewrite Hw. cbn. unfold write_attempts.
        rewrite omap_app. cbn. by rewrite app_nil_r.
    + exists k, v, w. split; [by left|]. done.
Qed.

(** X10: [update_blacklist] with a file path, when a key of the delta is not a
  valid scan name, raises [MetadataException] for such a key before it
  writes: the file is as it was and no write was attempted, whatever else
  the delta holds. *)
Theorem update_blacklist_rejects entries p content w :
  Py.truthy p = true →
  files w !! p = Some content →
  (∃ k, k ∈ dom entries ∧ scanid_parse_filename k = None) →
  ∃ k w',
    k ∈ dom entries ∧ scanid_parse_filename k = None
    ∧ update_blacklist entries None None (Some p) w
      = (Raise (MetadataException
                  ("Attempt to add invalid scan name " +:+ k +:+ " "
                   +:+ "to blacklist")), w')
    ∧ files w' = files w
    ∧ write_attempts (trace w') = write_attempts (trace w).
Proof.
  intros Hp Hf (k & [v Hk]%elem_of_dom & Hbad).
  destruct (read_blacklist_reads p content w Hp Hf)
    as (old & w1 & Hread & (Hfiles & _) & Hwrites).
  destruct (merge_blacklist_bad (dict_items entries) old w1)
    as (k' & v' & w' & Hin & Hbad' & Hrun & (Hfiles' & _) & Hwrites').
  { exists k, v. split; [|done]. rewrite (dict_items_perm entries).
    by apply elem_of_map_to_list. }
  exists k', w'. split.
  { rewrite (dict_items_perm entries) in Hin. apply elem_of_map_to_list in Hin.
    apply elem_of_dom. eauto. }
  split; [done|]. split; [|split; congruence].
  unfold update_blacklist. cbn [Py.otruthy]. rewrite Hp. cbn [negb].
  rewrite andb_false_r.
  rewrite (bind_ok _ _ _ _ _ (locate_metadata_path _ _ _ _ _ _ Hp)).
  rewrite (bind_ok _ _ _ _ _ Hread).
  unfold mbind, St_bind. by rewrite Hrun.
Qed.

(** X11: the retry count of [write_metadata] is a bound only from above zero.
  With [retry = 0] it raises at once and leaves the file alone; with a
  negative [retry] it never gives up by itself: after any number of failed
  writes it goes on, until a write succeeds or the calls are nested too
  deep. *)
Theorem write_metadata_retry_bounds depth lines path w :
  write_metadata (S depth) lines path 0 w
  = (Raise (MetadataException ("Failed to update " +:+ path)), w)
  ∧ (∀ retry residues rest,
       retry < 0 →
       io w = (WriteFails <$> residues) ++ rest →
       (∀ r, head rest ≠ Some (WriteFails r)) →
       ∃ w',
         write_metadata (S depth) lines path retry w
         = (if bool_decide (length residues ≤ depth)%nat
            then Ok () else Raise RecursionError, w')
         ∧ (if bool_decide (length residues ≤ depth)%nat
            then files w' !! path = Some (Py.writelines lines)
                 ∧ write_attempts (trace w')
                   = write_attempts (trace w)
                     ++ replicate (length residues) false ++ [true]
            else write_attempts (trace w')
                 = write_attempts (trace w) ++ replicate (S depth) false)).
Proof.
  split; [done|].
  intros retry residues rest Hr Hio Hok. case_bool_decide as Hlen.
  - destruct (write_metadata_failures (S depth) lines path retry residues rest w)
      as (fs & Hrun); [lia|lia|done|].
    rewrite Hrun.
    destruct (S depth - length residues)%nat as [|d] eqn:Ed; [lia|].
    cbn [write_metadata]. rewrite bool_decide_eq_false_2 by lia.
    unfold mbind, St_bind, open_write. cbn [io files waits trace].
    destruct rest as [|[|r] rest]; [| |by destruct (Hok r)];
      (eexists; split; [reflexivity|]); cbn [files trace];
      (split; [apply lookup_insert_eq|]);
      unfold write_attempts; rewrite !omap_app.
      all: fold (write_attempts (failed_attempts path retry (waits w) (length residues))).
      all: rewrite failed_attempts_writes.
      all: by rewrite <-app_assoc.
  - (* the first [S depth] writes fail *)
    destruct (write_metadata_failures (S depth) lines path retry
                (take depth residues) ((WriteFails <$> drop depth residues) ++ rest) w)
      as (fs & Hrun).
    { rewrite length_take. lia. }
    { lia. }
    { rewrite Hio, app_assoc, <-fmap_app, take_drop. done. }
    rewrite length_take in Hrun.
    replace (depth `min` length residues)%nat with depth in Hrun by lia.
    replace (S depth - depth)%nat with 1%nat in Hrun by lia.
    destruct (drop depth residues) as [|r rs] eqn:Edrop.
    { apply (f_equal length) in Edrop. rewrite length_drop in Edrop. cbn in Edrop. lia. }
    match type of Hrun with _ = write_metadata _ _ _ _ ?w1 =>
      rewrite (write_metadata_fail_step 0 lines path (retry - Z.of_nat depth) r
                 ((WriteFails <$> rs) ++ rest) w1) in Hrun by (done || lia) end.
    rewrite Hrun. cbn [write_metadata raise].
    eexists. split; [reflexivity|]. cbn [trace].
    unfold write_attempts. rewrite !omap_app.
    fold (write_attempts (failed_attempts path retry (waits w) depth)).
    match goal with |- context [omap _ (failed_attempts ?p ?r ?ws 1)] =>
      fold (write_attempts (failed_attempts p r ws 1)) end.
    rewrite !failed_attempts_writes. cbn [replicate].
    rewrite <-app_assoc. f_equal.
    change (false :: replicate depth false) with (replicate (S depth) false).
    by rewrite replicate_S_end.
Qed.

Lemma read_checklist_missing p w :
  Py.truthy p = true →
  files w !! p = None →
  ∃ w1,
    read_checklist None None None (Some p) w
    = (Raise (MetadataException
                ("Failed to read checklist file " +:+ p +:+ ". Reason - "
                 +:+ "[Errno 2] No such file or directory: '" +:+ p +:+ "'")), w1)
    ∧ files w1 = files w ∧ write_attempts (trace w1) = write_attempts (trace w).
Proof.
  intros Hp Hf. unfold read_checklist. cbn [Py.otruthy]. rewrite Hp.
  cbn [orb negb bool_decide]. rewrite orb_true_r. cbn [negb].
  erewrite (bind_ok (mret None)); [|reflexivity].
  rewrite andb_false_r.
  erewrite (bind_ok (log_info _)); [|reflexivity].
  rewrite (bind_ok _ _ _ _ _ (locate_metadata_path _ _ _ _ _ _ Hp)).
  unfold try_except, open_read. unfold mbind at 1. unfold St_bind at 1.
  cbn [files]. rewrite Hf. unfold raise.
  eexists. split; [reflexivity|]. split; [done|]. cbn [trace].
  unfold write_attempts. rewrite omap_app. cbn. by rewrite app_nil_r.
Qed.

Lemma read_blacklist_missing p w :
  Py.truthy p = true →
  files w !! p = None →
  read_blacklist None None None None (Some p) w
  = (Raise (MetadataException
              ("Failed to read checklist file " +:+ p +:+ ". Reason - "
               +:+ "[Errno 2] No such file or directory: '" +:+ p +:+ "'")), w).
Proof.
  intros Hp Hf. unfold read_blacklist. cbn [Py.otruthy]. rewrite Hp. cbn [negb].
  rewrite andb_false_r.
  rewrite (bind_ok _ _ _ _ _ (locate_metadata_path _ _ _ _ _ _ Hp)).
  unfold try_except, open_read. unfold mbind at 1. unfold St_bind at 1.
  by rewrite Hf.
Qed.

(** X12: neither update makes a metadata file: when there is no file at
  the path, [update_checklist] and [update_blacklist] raise
  [MetadataException] with the reason of the failed read (the blacklist one
  speaks of a checklist file as well), whatever the delta is, and write
  nothing. *)
Theorem update_needs_existing_file entries p w :
  Py.truthy p = true →
  files w !! p = None →
  let reason :=
    MetadataException
      ("Failed to read checklist file " +:+ p +:+ ". Reason - "
       +:+ "[Errno 2] No such file or directory: '" +:+ p +:+ "'") in
  ∃ w1 w2,
    update_checklist entries None None (Some p) w = (Raise reason, w1)
    ∧ update_blacklist entries None None (Some p) w = (Raise reason, w2)
    ∧ files w1 = files w ∧ files w2 = files w
    ∧ write_attempts (trace w1) = write_attempts (trace w)
    ∧ write_attempts (trace w2) = write_attempts (trace w).
Proof.
  intros Hp Hf reason.
  destruct (read_checklist_missing p w Hp Hf) as (w1 & Hread & Hfiles & Hwrites).
  exists w1, w. split; [|split; [|done]].
  - unfold update_checklist. cbn [Py.otruthy]. rewrite Hp. cbn [negb].
    rewrite andb_false_r.
    rewrite (bind_ok _ _ _ _ _ (locate_metadata_path _ _ _ _ _ _ Hp)).
    unfold mbind, St_bind. by rewrite Hread.
  - unfold update_blacklist. cbn [Py.otruthy]. rewrite Hp. cbn [negb].
    rewrite andb_false_r.
    rewrite (bind_ok _ _ _ _ _ (locate_metadata_path _ _ _ _ _ _ Hp)).
    unfold mbind, St_bind. by rewrite (read_blacklist_missing p w Hp Hf).
Qed.

End MetadataLookups.

(** ** bin/dm-proc-enigma.py: the run scripts *)

Section RunScripts.

Import Enigma.

Context `{Env}.

Lemma appends_fwrite f t : appends f t (fwrite f t).
Proof.
  intros w c Hc. exists [Write f t]. unfold fwrite. rewrite Hc. done.
Qed.

Lemma appends_ret f : appends f "" (mret ()).
Proof.
  intros w c Hc. exists []. rewrite app_nil_r_str, insert_id, app_nil_r by done.
  by destruct w.
Qed.

Lemma appends_chmod f mode : appends f "" (chmod f mode).
Proof.
  intros w c Hc. exists [Chmod f mode]. rewrite app_nil_r_str, insert_id by done.
  done.
Qed.

Lemma appends_bind f t1 t2 (m : E unit) (k : unit → E unit) :
  appends f t1 m → appends f t2 (k ()) → appends f (t1 +:+ t2) (m ≫= k).
Proof.
  intros Hm Hk w c Hc. destruct (Hm w c Hc) as (tr1 & Hrun1 & He1 & Hc1).
  unfold mbind, St_bind. rewrite Hrun1.
  match goal with |- context [k () ?w1] =>
    destruct (Hk w1 (c +:+ t1)) as (tr2 & Hrun2 & He2 & Hc2);
      [apply lookup_insert_eq|] end.
  rewrite Hrun2. exists (tr1 ++ tr2). cbn [files dirs tmp_names answers trace].
  rewrite insert_insert_eq, app_assoc_str, <-app_assoc.
  split; [done|]. unfold execs, csvs in *. rewrite !omap_app.
  by rewrite He1, He2, Hc1, Hc2.
Qed.

Lemma appends_if f t1 t2 (b : bool) (m1 m2 : E unit) :
  appends f t1 m1 → appends f t2 m2 →
  appends f (if b then t1 else t2) (if b then m1 else m2).
Proof. by destruct b. Qed.

Lemma appends_when f t (b : bool) (m : E unit) :
  appends f t m → appends f (if b then t else "") (if b then m else mret ()).
Proof. intros Hm. apply appends_if; [done|apply appends_ret]. Qed.

Ltac appends_step :=
  first [ apply appends_fwrite
        | apply appends_chmod
        | apply appends_ret
        | eapply appends_bind
        | eapply appends_when
        | eapply appends_if ].

Lemma open_then_appends text filename (m : E unit) w :
  appends filename text m →
  ∃ tr,
    (open_w filename;; m) w
    = (Ok (), World (<[filename := text]> (files w)) (dirs w) (tmp_names w)
                    (answers w) (trace w ++ tr))
    ∧ execs tr = [] ∧ csvs tr = [].
Proof.
  intros Hm. unfold mbind, St_bind, open_w.
  match goal with |- context [m ?w1] =>
    destruct (Hm w1 "") as (tr & Hrun & He & Hc); [apply lookup_insert_eq|] end.
  rewrite Hrun. exists (OpenW filename :: tr).
  cbn [files dirs tmp_names answers trace]. rewrite insert_insert_eq, <-app_assoc.
  done.
Qed.

(** What [write_run_script] writes for a known script name: a text made of
  the name, the output directory and the two flags. *)
Lemma write_run_script_appends b :
  b ∈ script_names →
  ∃ (T : string → bool → bool → string) (n : nat),
    (∀ o md all filename w,
       Py.basename filename = b →
       ∃ tr,
         write_run_script filename o md all w
         = (Ok (), World (<[filename := T o md all]> (files w)) (dirs w) (tmp_names w)
                         (answers w) (trace w ++ tr))
         ∧ execs tr = [] ∧ csvs tr = [])
    ∧ (∀ o md all,
         String.length (T o md all)
         = (n * String.length o + String.length (T "" md all))%nat).
Proof.
  intros Hb. unfold script_names in Hb.
  apply elem_of_cons in Hb as [->|Hb];
    [|apply elem_of_cons in Hb as [->|Hb]; [|by apply elem_of_nil in Hb]].
  - eexists _, 0%nat. split.
    + intros o md all filename w Hname. unfold write_run_script. rewrite Hname.
      change (String.eqb "run_engimadti.sh" "run_engimadti.sh") with true.
      change (String.eqb "run_engimadti.sh" "concatresults.sh") with false.
      cbv iota.
      change (String.eqb "doInd" "doInd") with true.
      change (String.eqb "doInd" "concat") with false.
      cbv iota.
      apply open_then_appends.
      instantiate (1 := λ o md all, _). cbv beta. repeat appends_step.
    + done.
  - eexists _, 1%nat. split.
    + intros o md all filename w Hname. unfold write_run_script. rewrite Hname.
      change (String.eqb "concatresults.sh" "run_engimadti.sh") with false.
      change (String.eqb "concatresults.sh" "concatresults.sh") with true.
      cbv iota.
      change (String.eqb "concat" "doInd") with false.
      change (String.eqb "concat" "concat") with true.
      cbv iota.
      apply open_then_appends.
      instantiate (1 := λ o md all, _). cbv beta. repeat appends_step.
    + intros o md all. cbv beta. rewrite !length_app_str.
      cbn [String.length]. lia.
Qed.

Lemma basename_script_name b : b ∈ script_names → Py.basename b = b.
Proof.
  unfold script_names. intros Hb.
  apply elem_of_cons in Hb as [->|Hb];
    [|apply elem_of_cons in Hb as [->|Hb]; [|by apply elem_of_nil in Hb]]; done.
Qed.

Lemma script_name_no_slash b :
  b ∈ script_names →
  Py.str_forall (λ x, negb (Ascii.eqb x "/")) b = true ∧ String.prefix "/" b = false.
Proof.
  unfold script_names. intros Hb.
  apply elem_of_cons in Hb as [->|Hb];
    [|apply elem_of_cons in Hb as [->|Hb]; [|by apply elem_of_nil in Hb]];
    split; vm_compute; reflexivity.
Qed.

(** For a known script name, in any directory and on any disk. *)
Lemma write_run_script_known filename b o md all w :
  b ∈ script_names →
  Py.basename filename = b →
  ∃ tr,
    write_run_script filename o md all w
    = (Ok (), World (<[filename := script_text b o md all]> (files w)) (dirs w)
                    (tmp_names w) (answers w) (trace w ++ tr))
    ∧ execs tr = [] ∧ csvs tr = [].
Proof.
  intros Hb Hname.
  destruct (write_run_script_appends b Hb) as (T & n & HT & _).
  destruct (HT o md all b (World ∅ ∅ [] [] []) (basename_script_name b Hb))
    as (tr0 & Hrun0 & _).
  unfold script_text. rewrite Hrun0. cbn [snd files]. rewrite lookup_insert_eq.
  cbn [default]. by apply HT.
Qed.

(** The two flags can be read off the text. *)
Lemma script_text_flags b o md all md' all' :
  b ∈ script_names →
  script_text b o md all = script_text b o md' all' →
  md = md' ∧ all = all'.
Proof.
  intros Hb Heq.
  destruct (write_run_script_appends b Hb) as (T & n & HT & Hlen).
  assert (Htext : ∀ o md all, script_text b o md all = T o md all).
  { intros o0 md0 all0.
    destruct (HT o0 md0 all0 b (World ∅ ∅ [] [] []) (basename_script_name b Hb))
      as (tr0 & Hrun0 & _).
    unfold script_text. rewrite Hrun0. cbn [snd files]. by rewrite lookup_insert_eq. }
  apply (f_equal String.length) in Heq. rewrite !Htext, !(Hlen o) in Heq.
  rewrite <-!Htext in Heq.
  assert (Hclosed : String.length (script_text b "" md all)
                    = String.length (script_text b "" md' all')) by lia.
  clear -Hb Hclosed. unfold script_names in Hb.
  apply elem_of_cons in Hb as [->|Hb];
    [|apply elem_of_cons in Hb as [->|Hb]; [|by apply elem_of_nil in Hb]];
    destruct md, all, md', all';
    first [split; reflexivity | vm_compute in Hclosed; discriminate Hclosed].
Qed.

(** X13: [write_run_script] for one of the two script names replaces the
  content of the file by a text that is made of the base name, the output
  directory and the two flags only -- not of the directory the file is in,
  nor of what the disk held -- and from which the two flags can be read
  off; it touches no other file, runs no command and saves no checklist. *)
Theorem write_run_script_text filename o md all w :
  Py.basename filename ∈ script_names →
  ∃ w',
    write_run_script filename o md all w = (Ok (), w')
    ∧ files w' = <[filename := script_text (Py.basename filename) o md all]> (files w)
    ∧ dirs w' = dirs w
    ∧ execs (trace w') = execs (trace w) ∧ csvs (trace w') = csvs (trace w)
    ∧ (∀ md' all',
         script_text (Py.basename filename) o md' all'
         = script_text (Py.basename filename) o md all →
         md' = md ∧ all' = all).
Proof.
  intros Hb.
  destruct (write_run_script_known filename _ o md all w Hb eq_refl)
    as (tr & Hrun & He & Hc).
  eexists. split; [exact Hrun|]. cbn [files dirs trace].
  rewrite execs_app, csvs_app, He, Hc, !app_nil_r.
  repeat (split; [done|]). intros md' all'. by apply script_text_flags.
Qed.

(** X14: [write_run_script] for any other file name raises
  [UnboundLocalError] for [ENGIMASTEP], after it has opened the file: what
  the file held is lost whatever it was, and the file is not made
  executable. *)
Theorem write_run_script_other_name :
  ∃ text, ∀ filename o md all w,
    Py.basename filename ∉ script_names →
    ∃ w',
      write_run_script filename o md all w
      = (Raise (UnboundLocalError "ENGIMASTEP"), w')
      ∧ files w' = <[filename := text]> (files w)
      ∧ (∀ mode, Chmod filename mode ∉ trace w → Chmod filename mode ∉ trace w').
Proof.
  eexists. intros filename o md all w Hb. unfold script_names in Hb.
  assert (H1 : String.eqb (Py.basename filename) "run_engimadti.sh" = false).
  { apply String.eqb_neq. intros Heq. apply Hb. rewrite Heq. by left. }
  assert (H2 : String.eqb (Py.basename filename) "concatresults.sh" = false).
  { apply String.eqb_neq. intros Heq. apply Hb. rewrite Heq. right. by left. }
  unfold write_run_script. rewrite H1, H2.
  unfold mbind, St_bind, open_w, fwrite, raise.
  cbn [files dirs tmp_names answers trace].
  rewrite !lookup_insert_eq, !insert_insert_eq. cbn [default].
  eexists. split; [reflexivity|]. cbn [files trace].
  split; [reflexivity|].
  intros mode Hm Hin. rewrite !elem_of_app in Hin.
  destruct Hin as [[[[Hin|Hin]|Hin]|Hin]|Hin]; [done|..];
    apply list_elem_of_singleton in Hin; discriminate.
Qed.

Lemma str_prefix_app a b : String.prefix a (a +:+ b) = true.
Proof.
  induction a as [|c a IH]; [apply prefix_nil|].
  change (String c a +:+ b) with (String c (a +:+ b)). cbn [String.prefix].
  destruct (ascii_dec c c); [exact IH|congruence].
Qed.

(** The copy [check_runsh] compares with: its path, its base name, and that
  it is below the temporary directory. *)
Lemma temp_copy t b :
  b ∈ script_names →
  Py.truthy t = true →
  Py.endswith_slash t = false →
  Py.path_join t b = t +:+ "/" +:+ b
  ∧ Py.basename (Py.path_join t b) = b
  ∧ Py.startswith (Py.path_join t b) (t +:+ "/") = true.
Proof.
  intros Hb Ht Hs. destruct (script_name_no_slash b Hb) as [Hno Hpre].
  assert (Hjoin : Py.path_join t b = t +:+ "/" +:+ b).
  { unfold Py.path_join. rewrite Hpre, Hs. unfold Py.truthy in Ht.
    apply negb_true_iff in Ht. by rewrite Ht. }
  rewrite Hjoin. split; [done|]. split.
  - unfold Py.basename.
    change (t +:+ "/" +:+ b) with (t +:+ String "/" b).
    by rewrite rsplit1_last.
  - unfold Py.startswith. rewrite <-app_assoc_str. apply str_prefix_app.
Qed.

Lemma check_runsh_spec filename b o md all dbg c w :
  let t := next_tmp_name w in
  b ∈ script_names →
  Py.basename filename = b →
  files w !! filename = Some c →
  Py.truthy t = true →
  Py.endswith_slash t = false →
  Py.startswith filename (t +:+ "/") = false →
  ∃ w',
    check_runsh filename o md all dbg w
    = ((if String.eqb c (script_text b o md all) then Ok ()
        else Raise (SystemExit ("
Old " +:+ filename +:+ " doesn't match parameters of this run....Exiting"))), w')
    ∧ files w' = filter (λ kv, Py.startswith kv.1 (t +:+ "/") = false) (files w)
    ∧ files w' !! filename = Some c
    ∧ (t ∉ dirs w')
    ∧ execs (trace w') = execs (trace w) ∧ csvs (trace w') = csvs (trace w)
    ∧ tmp_names w' = tail (tmp_names w).
Proof.
  intros t Hb Hname Hc Ht Hs Hout.
  destruct (temp_copy t b Hb Ht Hs) as (Hjoin & Hbase & Hunder).
  unfold check_runsh, make_temp_directory, mkdtemp. fold t. rewrite Hname.
  unfold mbind at 1. unfold St_bind at 1.
  match goal with |- context [write_run_script _ o md all ?w1] =>
    destruct (write_run_script_known (Py.path_join t b) b o md all w1 Hb Hbase)
      as (tr & Hrun & He & Hcs) end.
  rewrite Hrun. cbn [files dirs tmp_names answers trace].
  assert (Hne : Py.path_join t b ≠ filename).
  { intros Heq. rewrite Heq in Hunder. congruence. }
  unfold mbind at 1. unfold St_bind at 1. unfold filecmp.
  cbn [files dirs tmp_names answers trace].
  rewrite lookup_insert_ne by done. rewrite Hc, lookup_insert_eq.
  assert (Hfiles : ∀ tr',
    files (rmtree t (World (<[Py.path_join t b := script_text b o md all]> (files w))
                       ({[t]} ∪ dirs w) (tail (tmp_names w)) (answers w) tr'))
    = filter (λ kv, Py.startswith kv.1 (t +:+ "/") = false) (files w)).
  { intros tr'. unfold rmtree. cbn [files].
    apply map_filter_insert_not. intros y Hy.
    change (Py.startswith (Py.path_join t b) (t +:+ "/") = false) in Hy. congruence. }
  assert (Hkeep : filter (λ kv : string * string, Py.startswith kv.1 (t +:+ "/") = false)
                    (files w) !! filename = Some c).
  { by apply map_lookup_filter_Some_2. }
  destruct (String.eqb c (script_text b o md all)).
  - unfold log, emit. cbn [files dirs tmp_names answers trace].
    eexists. split; [reflexivity|]. rewrite Hfiles.
    split; [done|]. split; [done|]. split; [apply not_elem_of_difference; right; by apply elem_of_singleton|].
    unfold rmtree. cbn [trace]. rewrite !execs_app, !csvs_app, He, Hcs. cbn.
    by rewrite !app_nil_r.
  - unfold mbind, St_bind, log, emit, read_file, raise.
    cbn [files dirs tmp_names answers trace].
    rewrite lookup_insert_ne by done. rewrite Hc.
    cbn [files dirs tmp_names answers trace]. rewrite lookup_insert_eq.
    eexists. split; [reflexivity|]. rewrite Hfiles.
    split; [done|]. split; [done|]. split; [apply not_elem_of_difference; right; by apply elem_of_singleton|].
    unfold rmtree. cbn [trace]. rewrite !execs_app, !csvs_app, He, Hcs. cbn.
    by rewrite !app_nil_r.
Qed.


(** X16: what [write_run_script] wrote, [check_runsh] accepts in a later run
  with the same output directory exactly when the two flags are the same as
  they were; with another [CALC_MD] or [CALC_ALL] it exits. *)
Theorem check_runsh_after_write filename o md all md' all' dbg w :
  Py.basename filename ∈ script_names →
  Py.truthy (next_tmp_name w) = true →
  Py.endswith_slash (next_tmp_name w) = false →
  Py.startswith filename (next_tmp_name w +:+ "/") = false →
  ∃ w1 r w2,
    write_run_script filename o md all w = (Ok (), w1)
    ∧ check_runsh filename o md' all' dbg w1 = (r, w2)
    ∧ (r = Ok () ↔ md' = md ∧ all' = all)
    ∧ files w2 !! filename = files w1 !! filename.
Proof.
  intros Hb Ht Hs Hout.
  destruct (write_run_script_known filename _ o md all w Hb eq_refl)
    as (tr & Hrun & _).
  rewrite Hrun.
  match type of Hrun with _ = (_, ?w1) =>
    destruct (check_runsh_spec filename _ o md' all' dbg
                (script_text (Py.basename filename) o md all) w1 Hb eq_refl)
      as (w2 & Hcheck & _ & Hk & _); [apply lookup_insert_eq|done..|];
    exists w1 end.
  eexists _, w2. split; [reflexivity|]. split; [exact Hcheck|]. cbn [files].
  rewrite lookup_insert_eq. split; [|done].
  destruct (String.eqb_spec (script_text (Py.basename filename) o md all)
              (script_text (Py.basename filename) o md' all')) as [Heq|Hne].
  - split; [intros _|done]. symmetry in Heq. by apply script_text_flags in Heq.
  - split; [discriminate|]. intros [-> ->]. done.
Qed.

(** *** The two scripts of a run *)

Lemma basename_join d b :
  b ∈ script_names → Py.basename (Py.path_join d b) = b.
Proof.
  intros Hb. destruct (script_name_no_slash b Hb) as [Hno Hpre].
  unfold Py.path_join. rewrite Hpre.
  destruct (String.eqb_spec d "") as [->|Hd]; cbn [orb].
  { by apply basename_script_name. }
  unfold Py.endswith_slash, Py.basename.
  destruct (Py.rsplit1 "/" d) as [[a e]|] eqn:Ed; [destruct e as [|c e]|].
  - apply rsplit1_joins in Ed. subst d.
    rewrite app_assoc_str.
    change (String "/" "" +:+ b) with (String "/" b). by rewrite rsplit1_last.
  - change (d +:+ "/" +:+ b) with (d +:+ String "/" b). by rewrite rsplit1_last.
  - change (d +:+ "/" +:+ b) with (d +:+ String "/" b). by rewrite rsplit1_last.
Qed.

Lemma check_runsh_step filename b o md all md' all' dbg w :
  b ∈ script_names →
  Py.basename filename = b →
  files w !! filename = Some (script_text b o md all) →
  apart filename (next_tmp_name w) →
  ∃ w',
    check_runsh filename o md' all' dbg w
    = ((if bool_decide (md' = md ∧ all' = all) then Ok ()
        else Raise (SystemExit ("
Old " +:+ filename +:+ " doesn't match parameters of this run....Exiting"))), w')
    ∧ files w'
      = filter (λ kv, Py.startswith kv.1 (next_tmp_name w +:+ "/") = false) (files w)
    ∧ tmp_names w' = tail (tmp_names w).
Proof.
  intros Hb Hname Hf (Ht & Hs & Hout).
  destruct (temp_copy (next_tmp_name w) b Hb Ht Hs) as (Hjoin & Hbase & Hunder).
  destruct (check_runsh_spec filename b o md' all' dbg _ w Hb Hname Hf Ht Hs Hout)
    as (w' & Hrun & Hfiles & _ & _ & _ & _ & Htmp).
  exists w'. split; [|done]. rewrite Hrun.
  destruct (String.eqb_spec (script_text b o md all) (script_text b o md' all'))
    as [Heq|Hne].
  - symmetry in Heq. apply script_text_flags in Heq; [|done].
    by rewrite bool_decide_eq_true_2.
  - rewrite bool_decide_eq_false_2; [done|]. intros [-> ->]. done.
Qed.

(** X17: on a disk without the two run scripts [write_run_scripts] writes
  both; run again on what it left, with temporary directories the scripts
  are not in, it returns normally exactly when [CALC_MD] and [CALC_ALL] are
  what they were, exits otherwise, and leaves the two scripts as they are
  in both cases. *)
Theorem write_run_scripts_rerun run_dir o md all dbg w :
  let p0 := Py.path_join run_dir "run_engimadti.sh" in
  let p1 := Py.path_join run_dir "concatresults.sh" in
  files w !! p0 = None →
  files w !! p1 = None →
  Forall (λ t, apart p0 t ∧ apart p1 t) (upcoming_tmp_names 2 (tmp_names w)) →
  ∃ w1,
    write_run_scripts script_names run_dir o md all dbg w = (Ok (), w1)
    ∧ files w1 !! p0 = Some (script_text "run_engimadti.sh" o md all)
    ∧ files w1 !! p1 = Some (script_text "concatresults.sh" o md all)
    ∧ ∀ md' all' dbg', ∃ r w2,
        write_run_scripts script_names run_dir o md' all' dbg' w1 = (r, w2)
        ∧ (r = Ok () ↔ md' = md ∧ all' = all)
        ∧ files w2 !! p0 = files w1 !! p0
        ∧ files w2 !! p1 = files w1 !! p1.
Proof.
  intros p0 p1 Hf0 Hf1 Htmp.
  assert (Hb0 : "run_engimadti.sh" ∈ script_names) by (by left).
  assert (Hb1 : "concatresults.sh" ∈ script_names) by (right; by left).
  assert (Hn0 : Py.basename p0 = "run_engimadti.sh") by (by apply basename_join).
  assert (Hn1 : Py.basename p1 = "concatresults.sh") by (by apply basename_join).
  assert (Hne : p0 ≠ p1).
  { intros Heq. rewrite Heq, Hn1 in Hn0. discriminate. }
  (* the first run *)
  unfold script_names at 1. cbn [write_run_scripts]. fold p0 p1.
  unfold mbind at 1. unfold St_bind at 1. unfold isfile at 1.
  rewrite Hf0, bool_decide_eq_false_2 by (by intros [? ?]).
  unfold mbind at 1. unfold St_bind at 1.
  destruct (write_run_script_known p0 _ o md all w Hb0 Hn0) as (tr0 & -> & _).
  unfold mbind at 1. unfold St_bind at 1. unfold isfile at 1.
  cbn [files]. rewrite lookup_insert_ne, Hf1 by done.
  rewrite bool_decide_eq_false_2 by (by intros [? ?]).
  unfold mbind at 1. unfold St_bind at 1.
  match goal with |- context [write_run_script p1 o md all ?w0] =>
    destruct (write_run_script_known p1 _ o md all w0 Hb1 Hn1) as (tr1 & -> & _) end.
  cbn [files dirs tmp_names answers trace].
  eexists. split; [reflexivity|]. cbn [files].
  rewrite lookup_insert_ne, !lookup_insert_eq by done.
  split; [done|]. split; [done|].
  (* the second run *)
  intros md' all' dbg'.
  match goal with |- context [write_run_scripts _ _ _ _ _ _ ?w0] => set (w1 := w0) end.
  assert (Ht1 : apart p0 (next_tmp_name w1) ∧ apart p1 (next_tmp_name w1)).
  { unfold next_tmp_name, w1. cbn [tmp_names].
    destruct (tmp_names w) as [|t ts]; cbn in Htmp; by inversion Htmp. }
  assert (Ht2 : ∀ w', tmp_names w' = tail (tmp_names w1) →
                apart p0 (next_tmp_name w') ∧ apart p1 (next_tmp_name w')).
  { intros w' Hw'. unfold next_tmp_name. rewrite Hw'. unfold w1. cbn [tmp_names].
    destruct (tmp_names w) as [|t [|t' ts]]; cbn in Htmp;
      inversion Htmp as [|? ? _ Htl]; by inversion Htl. }
  assert (Hw0 : files w1 !! p0 = Some (script_text "run_engimadti.sh" o md all)).
  { unfold w1. cbn [files]. by rewrite lookup_insert_ne, lookup_insert_eq. }
  assert (Hw1 : files w1 !! p1 = Some (script_text "concatresults.sh" o md all)).
  { unfold w1. cbn [files]. by rewrite lookup_insert_eq. }
  destruct (check_runsh_step p0 _ o md all md' all' dbg' w1 Hb0 Hn0 Hw0 (proj1 Ht1))
    as (w2 & Hrun0 & Hfiles2 & Htmp2).
  assert (Hk0 : files w2 !! p0 = files w1 !! p0).
  { rewrite Hfiles2, Hw0. apply map_lookup_filter_Some_2; [done|]. apply Ht1. }
  assert (Hk1 : files w2 !! p1 = files w1 !! p1).
  { rewrite Hfiles2, Hw1. apply map_lookup_filter_Some_2; [done|]. apply Ht1. }
  unfold script_names. cbn [write_run_scripts]. fold p0 p1.
  unfold mbind at 1. unfold St_bind at 1. unfold isfile at 1.
  rewrite bool_decide_eq_true_2 by (rewrite Hw0; by eexists).
  unfold mbind at 1. unfold St_bind at 1. rewrite Hrun0.
  case_bool_decide as Hflags.
  - destruct Hflags as [-> ->].
    unfold mbind at 1. unfold St_bind at 1. unfold isfile at 1.
    rewrite bool_decide_eq_true_2 by (rewrite Hk1, Hw1; by eexists).
    unfold mbind at 1. unfold St_bind at 1.
    destruct (check_runsh_step p1 _ o md all md all dbg' w2 Hb1 Hn1)
      as (w3 & Hrun1 & Hfiles3 & _).
    { by rewrite Hk1. }
    { by apply Ht2. }
    rewrite Hrun1, bool_decide_eq_true_2 by done.
    eexists _, w3. split; [reflexivity|]. split; [done|].
    rewrite Hfiles3. split.
    + transitivity (Some (script_text "run_engimadti.sh" o md all)); [|by symmetry].
      apply map_lookup_filter_Some_2; [by rewrite Hk0|]. by apply Ht2.
    + transitivity (Some (script_text "concatresults.sh" o md all)); [|by symmetry].
      apply map_lookup_filter_Some_2; [by rewrite Hk1|]. by apply Ht2.
  - eexists _, w2. split; [reflexivity|]. split; [|split; [by rewrite Hk0|by rewrite Hk1]].
    split; [discriminate|]. intros Hsame. by destruct Hflags.
Qed.

End RunScripts.

(** ** bin/dm-proc-enigma.py: the ends of [main] *)

Section DriverFacts.

Import Enigma.

Context `{Env}.

Lemma makedirs_spec path w :
  ∃ w',
    makedirs path w = (Ok (), w')
    ∧ files w' = files w ∧ tmp_names w' = tmp_names w ∧ answers w' = answers w
    ∧ dirs w ⊆ dirs w' ∧ dirs w' ⊆ {[path]} ∪ dirs w
    ∧ (on_disk w path = false → path ∈ dirs w')
    ∧ writes (trace w') = writes (trace w)
    ∧ execs (trace w') = execs (trace w)
    ∧ csvs (trace w') = csvs (trace w).
Proof.
  unfold makedirs, mbind, St_bind, exists_, on_disk.
  destruct (bool_decide (is_Some (files w !! path))) eqn:Ef; cbn [orb].
  - exists w. repeat (split; [done|]). split; [set_solver|]. split; [done|]. done.
  - destruct (bool_decide (path ∈ dirs w)) eqn:Ed.
    + exists w. apply bool_decide_eq_true_1 in Ed.
      repeat (split; [done|]). split; [set_solver|]. done.
    + eexists. split; [reflexivity|]. cbn [files dirs tmp_names answers trace].
      rewrite writes_app, execs_app, csvs_app. cbn. rewrite !app_nil_r.
      repeat (split; [done|]). split; [set_solver|]. split; [done|].
      split; [set_solver|]. done.
Qed.

(** X18: when [get_subject_list] finds no subject, [main] logs that there is
  nothing to process and exits with code 1: by then it has made the log and
  the bin directory where they were missing, and nothing else -- no run
  script is written or checked, no file changes, no command is run and no
  checklist is saved. *)
Theorem main_without_subjects args w :
  let config := datman_config (arg_config args) (arg_system args) (arg_study args) in
  let output_dir := get_path config "enigmaDTI" in
  let log_dir := Py.path_join output_dir "logs" in
  let run_dir := Py.path_join output_dir "bin" in
  (∀ w0, files w0 = files w →
     get_subject_list w0 (get_path config "dtifit") (subject_filter args)
       (QC_file args) = []) →
  ∃ w',
    main args w = (Raise (SystemExit "1"), w')
    ∧ files w' = files w
    ∧ dirs w ⊆ dirs w' ∧ dirs w' ⊆ {[log_dir; run_dir]} ∪ dirs w
    ∧ (on_disk w log_dir = false → log_dir ∈ dirs w')
    ∧ (on_disk w run_dir = false → run_dir ∈ dirs w')
    ∧ Log "INFO" "No outstanding scans to process." ∈ trace w'
    ∧ writes (trace w') = writes (trace w)
    ∧ execs (trace w') = execs (trace w)
    ∧ csvs (trace w') = csvs (trace w).
Proof.
  intros config output_dir log_dir run_dir Hnone. unfold main. cbv zeta.
  fold config. fold output_dir. fold log_dir. fold run_dir.
  destruct (makedirs_spec log_dir w)
    as (w1 & Hrun1 & Hf1 & _ & _ & Hd1 & Hd1' & Hl1 & Hw1 & He1 & Hc1).
  rewrite (bind_ok _ _ _ _ _ Hrun1).
  destruct (makedirs_spec run_dir w1)
    as (w2 & Hrun2 & Hf2 & _ & _ & Hd2 & Hd2' & Hl2 & Hw2 & He2 & Hc2).
  rewrite (bind_ok _ _ _ _ _ Hrun2).
  unfold mbind, St_bind, log, emit, get_world, raise.
  cbn [files dirs tmp_names answers trace].
  rewrite Hnone by (cbn; congruence). cbn [length bool_decide decide_rel].
  rewrite bool_decide_eq_true_2 by done.
  eexists. split; [reflexivity|]. cbn [files dirs trace].
  rewrite !writes_app, !execs_app, !csvs_app. cbn. rewrite !app_nil_r.
  split; [congruence|]. split; [by etrans|].
  split.
  { intros x Hx. apply Hd2' in Hx. rewrite !elem_of_union, !elem_of_singleton.
    apply elem_of_union in Hx as [Hx%elem_of_singleton|Hx]; [by left; right|].
    apply Hd1' in Hx. apply elem_of_union in Hx as [Hx%elem_of_singleton|Hx];
      [by left; left|by right]. }
  split; [intros Hl; by apply Hd2, Hl1|]. split.
  { intros Hr. apply Hl2. unfold on_disk in *. by rewrite Hf1. }
  split; [apply elem_of_app; right; by apply list_elem_of_singleton|].
  split; [congruence|]. split; congruence.
Qed.


End DriverFacts.

(** ** datman/dashboard.py: look-ups and get-or-create *)

Section DashboardLookups.

Import Dashboard.

Context `{Scanid} `{DashEnv}.

(** X20: with [create=False] and no matching session, [get_add_session]
  only reads: it returns [None] when the name parses, its site is one of
  the study and the date (if given) parses, raises [DashboardException]
  otherwise, and in each case leaves every table as it was and commits
  nothing. *)
Theorem get_add_session_lookup_only study name date w :
  session_query w study name = [] →
  ∃ r w',
    get_add_session (Some study) name date false w = (r, w')
    ∧ same_rows w w'
    ∧ r = match scanid_parse name with
          | None => Raise (DashboardException ("Invalid session name:" +:+ name))
          | Some ident =>
              if bool_decide (Forall (λ site, site_name site ≠ ident_site ident)
                                (sites study))
              then Raise (DashboardException "Invalid site")
              else if Py.otruthy date
                      && bool_decide (strptime (default "" date) = None)
              then Raise (DashboardException "Invalid date")
              else Ok RetNone
          end.
Proof.
  intros Hq. unfold get_add_session.
  destruct (scanid_parse name) as [ident|].
  { destruct (filter _ (sites study)) as [|site0 rest] eqn:Es.
    - rewrite bool_decide_eq_true_2.
      + eexists _, _. split; [reflexivity|]. by repeat split.
      + apply Forall_forall. intros site Hin Hname.
        assert (Hf : site ∈ filter (λ site, site_name site = ident_site ident)
                       (sites study)) by (by apply list_elem_of_filter).
        rewrite Es in Hf. by apply elem_of_nil in Hf.
    - rewrite bool_decide_eq_false_2.
      2:{ intros Hall. rewrite Forall_forall in Hall.
          assert (Hf : site0 ∈ filter (λ site, site_name site = ident_site ident)
                         (sites study)) by (rewrite Es; by left).
          apply list_elem_of_filter in Hf as [Hname Hin]. by apply (Hall site0). }
      unfold mbind at 1. unfold St_bind at 1.
      destruct (Py.otruthy date) eqn:Ed; cbn [andb].
      + destruct (strptime (default "" date)) as [d|] eqn:Ep.
        * rewrite bool_decide_eq_false_2 by done.
          unfold mbind, St_bind, mret, St_ret, get_db, log. rewrite Hq. cbn.
          eexists _, _. split; [reflexivity|]. by repeat split.
        * rewrite bool_decide_eq_true_2 by done.
          unfold mbind, St_bind, log, raise.
          eexists _, _. split; [reflexivity|]. by repeat split.
      + unfold mbind, St_bind, mret, St_ret, get_db, log. rewrite Hq. cbn.
        eexists _, _. split; [reflexivity|]. by repeat split. }
  unfold mbind, St_bind, log, raise.
  eexists _, _. split; [reflexivity|]. by repeat split.
Qed.

(** X21: [get_add_scan] never makes a second copy of a scan it cannot tell
  apart: when more than one row matches it raises [DashboardException],
  whatever [create] is, and when none matches and [create] is [False] it
  returns [None]; in both cases every table is as it was and nothing is
  committed. *)
Theorem get_add_scan_lookup_only study name create w id tag series desc repeat :
  scanid_parse_filename name = Some (id, tag, series, desc) →
  scan_repeat id = Ok repeat →
  let qry := scan_query w (get_full_subjectid_with_timepoint id) (nickname study)
               (ident_str id +:+ "_" +:+ tag +:+ "_" +:+ series) repeat in
  ((1 < length qry)%nat →
     ∃ w', get_add_scan (Some study) name create w
           = (Raise (DashboardException "Scan not unique"), w')
           ∧ same_rows w w')
  ∧ (qry = [] → create = false →
     ∃ w', get_add_scan (Some study) name create w = (Ok None, w')
           ∧ same_rows w w').
Proof.
  intros Hparse Hrep qry. split.
  - intros Hlen. unfold get_add_scan. rewrite Hparse. cbv zeta.
    unfold lift, mbind, St_bind, get_db. rewrite Hrep. fold qry.
    rewrite bool_decide_eq_false_2 by lia. rewrite bool_decide_eq_true_2 by lia.
    unfold log, raise. eexists. split; [reflexivity|]. by repeat split.
  - intros Hq ->. unfold get_add_scan. rewrite Hparse. cbv zeta.
    unfold lift, mbind, St_bind, get_db. rewrite Hrep. fold qry. rewrite Hq.
    cbn [length]. rewrite bool_decide_eq_false_2 by lia.
    rewrite bool_decide_eq_false_2 by lia. cbn [negb].
    unfold log, mret, St_ret. eexists. split; [reflexivity|]. by repeat split.
Qed.

(** X22: [get_add_session_scan_link] is a get-or-create: for a session and
  a scan that have their keys and no link yet, a call whose commit goes
  through stores one link, and every later call, with whatever new name and
  [is_primary], returns this link and changes nothing. *)
Theorem get_add_session_scan_link_idempotent ts sc nn p w :
  is_Some (session_id ts) →
  is_Some (scan_id sc) →
  link_query w ts sc = [] →
  head (db_ok w) ≠ Some false →
  ∃ link w',
    get_add_session_scan_link ts sc nn p w = (Ok link, w')
    ∧ links w' = links w ++ [link]
    ∧ ∀ nn' p', get_add_session_scan_link ts sc nn' p' w' = (Ok link, w').
Proof.
  intros Hs Hsc Hq Hok.
  unfold get_add_session_scan_link at 1. unfold mbind, St_bind, get_db.
  rewrite Hq. cbn [length]. rewrite bool_decide_eq_false_2 by lia.
  unfold commit, mbind, St_bind, db_attempt.
  destruct (db_ok w) as [|[] rest] eqn:Eok; [| |done]; cbn.
  all: eexists _, _; split; [reflexivity|]; split; [reflexivity|].
  all: intros nn' p'; unfold get_add_session_scan_link, mbind, St_bind, get_db.
  all: unfold link_query in *; cbn [links]; rewrite filter_app, Hq.
  all: rewrite filter_cons_True by (by cbn); rewrite filter_nil; cbn [app length].
  all: by rewrite bool_decide_eq_true_2.
Qed.

(** *** Get or create *)

Lemma upsert_fresh {A} (key : A → option Z) row (rows : list A) :
  (∀ r, r ∈ rows → key r ≠ key row) → upsert key row rows = rows ++ [row].
Proof.
  intros Hfresh. unfold upsert. rewrite bool_decide_eq_false_2; [done|].
  intros (r & Hin & Hkey & _)%Exists_exists. by apply (Hfresh r).
Qed.

Lemma upsert_stored {A} (key : A → option Z) row (rows : list A) :
  is_Some (key row) → row ∈ rows → (∀ r, r ∈ rows → key r = key row → r = row) →
  upsert key row rows = rows.
Proof.
  intros Hkey Hin Huniq. unfold upsert. rewrite bool_decide_eq_true_2.
  - clear Hin. induction rows as [|r rows IH]; [done|]. cbn [fmap list_fmap].
    rewrite IH by (intros r' Hr'; apply Huniq; by right). f_equal.
    case_bool_decide as Hk; [|done]. symmetry. apply Huniq; [by left|done].
  - apply Exists_exists. by exists row.
Qed.

Lemma commit_session_new s w :
  session_id s = None →
  head (db_ok w) ≠ Some false →
  (∀ r, r ∈ sessions w → session_id r ≠ Some (next_id w)) →
  ∃ w',
    commit_session (Some s) w = (Ok (Some (set_session_id (next_id w) s)), w')
    ∧ sessions w' = sessions w ++ [set_session_id (next_id w) s]
    ∧ studies w' = studies w ∧ scans w' = scans w ∧ links w' = links w
    ∧ scantype_rows w' = scantype_rows w
    ∧ db_ok w' = tail (db_ok w) ∧ next_id w' = next_id w + 1.
Proof.
  intros Hid Hok Hfresh. unfold commit_session, mbind, St_bind, db_attempt.
  rewrite Hid.
  destruct (db_ok w) as [|[] rest] eqn:Eok; [| |done];
    unfold fresh_id, put_session, mret, St_ret;
    cbn [studies sessions scans links scantype_rows db_ok next_id dlog];
    rewrite upsert_fresh by (intros r Hr; by apply Hfresh);
    eexists; (split; [reflexivity|]); cbn; by rewrite ?Eok.
Qed.

Lemma commit_session_stored s w :
  is_Some (session_id s) →
  s ∈ sessions w →
  (∀ r, r ∈ sessions w → session_id r = session_id s → r = s) →
  head (db_ok w) ≠ Some false →
  ∃ w',
    commit_session (Some s) w = (Ok (Some s), w')
    ∧ sessions w' = sessions w
    ∧ studies w' = studies w ∧ scans w' = scans w ∧ links w' = links w
    ∧ scantype_rows w' = scantype_rows w
    ∧ db_ok w' = tail (db_ok w) ∧ next_id w' = next_id w.
Proof.
  intros [i Hid] Hin Huniq Hok. unfold commit_session, mbind, St_bind, db_attempt.
  rewrite Hid.
  destruct (db_ok w) as [|[] rest] eqn:Eok; [| |done];
    unfold put_session, mret, St_ret;
    cbn [studies sessions scans links scantype_rows db_ok next_id dlog];
    rewrite upsert_stored
      by first [exact Hin | exact Huniq | rewrite Hid; by eexists];
    eexists; (split; [reflexivity|]); cbn; by rewrite ?Eok.
Qed.

Lemma get_add_session_creates study name date w ident site0 rest c :
  scanid_parse name = Some ident →
  filter (λ site, site_name site = ident_site ident) (sites study) = site0 :: rest →
  (Py.otruthy date = true → is_Some (strptime (default "" date))) →
  check_checklist name (nickname study) = Ok c →
  session_query w study name = [] →
  (∀ r, r ∈ sessions w → session_id r ≠ Some (next_id w)) →
  head (db_ok w) ≠ Some false →
  let s := new_session study name site0 (parsed_date date) c (next_id w) in
  ∃ w',
    get_add_session (Some study) name date true w = (Ok (RetSession s), w')
    ∧ sessions w' = sessions w ++ [s]
    ∧ studies w' = studies w ∧ scans w' = scans w ∧ links w' = links w
    ∧ scantype_rows w' = scantype_rows w
    ∧ db_ok w' = tail (db_ok w) ∧ next_id w' = next_id w + 1.
Proof.
  intros Hparse Hsite Hdate Hcl Hq Hfresh Hok s.
  unfold get_add_session. rewrite Hparse, Hsite.
  unfold mbind at 1. unfold St_bind at 1.
  assert (Hd : (if Py.otruthy date then
       match strptime (default "" date) with
       | Some d => mret (DateTime d)
       | None =>
           log "ERROR" ("Invalid date:" +:+ default "" date +:+ " for session:"
                        +:+ name);;
           raise (DashboardException "Invalid date")
       end
     else mret (match date with Some s => DateStr s | None => DateNone end)) w
    = (Ok (parsed_date date), w)).
  { unfold parsed_date. destruct (Py.otruthy date); [|done].
    by destruct (Hdate eq_refl) as [d ->]. }
  rewrite Hd. clear Hd.
  unfold mbind, St_bind, mret, St_ret, get_db, raise, try_except, log.
  rewrite Hq. cbn [length]. rewrite bool_decide_eq_false_2 by lia.
  rewrite bool_decide_eq_true_2 by lia. rewrite Hcl.
  unfold s, new_session.
  destruct (Py.otruthy c) eqn:Ec; cbn [cl_comment].
  1: case_bool_decide as Hne;
       [|rewrite Hne in Ec; cbn in Ec; congruence].
  all: unfold commit_session, mbind, St_bind, db_attempt, fresh_id, put_session,
         mret, St_ret;
       cbn [studies sessions scans links scantype_rows db_ok next_id dlog];
       (destruct (db_ok w) as [|[] oks] eqn:Eok; [| |done]);
       cbn [studies sessions scans links scantype_rows db_ok next_id dlog session_id
            set_cl_comment set_session_id];
       rewrite upsert_fresh by (intros r Hr; by apply Hfresh);
       (eexists; split; [reflexivity|]); cbn; by rewrite ?Eok.
Qed.

Lemma parsed_date_truthy date :
  pydate_truthy (parsed_date date) = true → ∃ d, parsed_date date = DateTime d.
Proof.
  unfold parsed_date. destruct (Py.otruthy date) eqn:Ed.
  - destruct (strptime (default "" date)); [by eexists|done].
  - destruct date as [s0|]; [|done]. cbn in *. congruence.
Qed.

Lemma get_add_session_finds study name date create w ident site0 rest c s :
  scanid_parse name = Some ident →
  filter (λ site, site_name site = ident_site ident) (sites study) = site0 :: rest →
  (Py.otruthy date = true → is_Some (strptime (default "" date))) →
  check_checklist name (nickname study) = Ok c →
  session_query w study name = [s] →
  (pydate_truthy (parsed_date date) = true → session_date s = parsed_date date) →
  (Py.otruthy c = true → cl_comment s = c) →
  is_Some (session_id s) →
  (∀ r, r ∈ sessions w → session_id r = session_id s → r = s) →
  head (db_ok w) ≠ Some false →
  ∃ w',
    get_add_session (Some study) name date create w = (Ok (RetSession s), w')
    ∧ sessions w' = sessions w
    ∧ studies w' = studies w ∧ scans w' = scans w ∧ links w' = links w
    ∧ scantype_rows w' = scantype_rows w
    ∧ db_ok w' = tail (db_ok w) ∧ next_id w' = next_id w.
Proof.
  intros Hparse Hsite Hdate Hcl Hq Hsame Hcomment [i Hid] Huniq Hok.
  assert (Hin : s ∈ sessions w).
  { assert (Hs : s ∈ session_query w study name) by (rewrite Hq; by left).
    unfold session_query in Hs. by apply list_elem_of_filter in Hs as [_ Hs]. }
  unfold get_add_session. rewrite Hparse, Hsite.
  unfold mbind at 1. unfold St_bind at 1.
  assert (Hd : (if Py.otruthy date then
       match strptime (default "" date) with
       | Some d => mret (DateTime d)
       | None =>
           log "ERROR" ("Invalid date:" +:+ default "" date +:+ " for session:"
                        +:+ name);;
           raise (DashboardException "Invalid date")
       end
     else mret (match date with Some s => DateStr s | None => DateNone end)) w
    = (Ok (parsed_date date), w)).
  { unfold parsed_date. destruct (Py.otruthy date); [|done].
    by destruct (Hdate eq_refl) as [d ->]. }
  rewrite Hd. clear Hd.
  unfold mbind, St_bind, mret, St_ret, get_db, raise, try_except, log.
  rewrite Hq. cbn [length head]. rewrite bool_decide_eq_true_2 by done.
  rewrite Hcl.
  assert (Hupsert : upsert session_id s (sessions w) = sessions w).
  { apply upsert_stored; [by rewrite Hid|done|done]. }
  assert (Hcommit : ∀ l,
    ∃ w', (let (r, w'0) :=
             commit_session (Some s)
               (Db (studies w) (sessions w) (scans w) (links w) (scantype_rows w)
                   (db_ok w) (next_id w) l) in
           match r with
           | Ok a => (Ok (Some a), w'0)
           | Raise e => (Raise e, w'0)
           end)
          = (Ok (Some (Some s)), w')
          ∧ sessions w' = sessions w
          ∧ studies w' = studies w ∧ scans w' = scans w ∧ links w' = links w
          ∧ scantype_rows w' = scantype_rows w
          ∧ db_ok w' = tail (db_ok w) ∧ next_id w' = next_id w).
  { intros l. unfold commit_session, mbind, St_bind, db_attempt, put_session,
      mret, St_ret.
    cbn [studies sessions scans links scantype_rows db_ok next_id dlog].
    rewrite Hid.
    destruct (db_ok w) as [|[] oks] eqn:Eok; [| |done];
      cbn [studies sessions scans links scantype_rows db_ok next_id dlog];
      rewrite Hupsert; eexists; (split; [reflexivity|]); by cbn. }
  assert (Hcl' : ∀ w0 : db,
    (if Py.otruthy c
     then if bool_decide (c ≠ cl_comment s)
          then λ w : db, (Ok (Some (set_cl_comment c s)), w)
          else λ w : db, (Ok (Some s), w)
     else λ w : db, (Ok (Some s), w)) w0 = (Ok (Some s), w0)).
  { intros w0. destruct (Py.otruthy c) eqn:Ec; [|done].
    rewrite bool_decide_eq_false_2; [done|]. intros Hne. apply Hne. symmetry.
    by apply Hcomment. }
  destruct (pydate_truthy (parsed_date date)) eqn:Et.
  - destruct (parsed_date_truthy date Et) as [d Hd]. rewrite (Hsame eq_refl), Hd.
    rewrite String.eqb_refl. cbn [negb]. rewrite Hcl'.
    match goal with |- context [commit_session (Some s) (Db _ _ _ _ _ _ _ ?l)] =>
      destruct (Hcommit l) as (w' & Hrun & Hrest) end.
    rewrite Hrun. by exists w'.
  - rewrite Hcl'.
    match goal with |- context [commit_session (Some s) (Db _ _ _ _ _ _ _ ?l)] =>
      destruct (Hcommit l) as (w' & Hrun & Hrest) end.
    rewrite Hrun. by exists w'.
Qed.

(** X23: [get_add_session] with [create=True] is a get-or-create: for a
  name that parses, a site of the study, a date that parses and a checklist
  that can be read, when no session matches, no stored session has the next
  key and the commits go through, it stores one new session -- with the
  checklist comment, if there is one -- and every later call with the same
  name and date returns this session and leaves the table as it is. *)
Theorem get_add_session_get_or_create study name date w ident site0 rest c :
  scanid_parse name = Some ident →
  filter (λ site, site_name site = ident_site ident) (sites study) = site0 :: rest →
  (Py.otruthy date = true → is_Some (strptime (default "" date))) →
  check_checklist name (nickname study) = Ok c →
  session_query w study name = [] →
  (∀ r, r ∈ sessions w → session_id r ≠ Some (next_id w)) →
  (∀ ok, ok ∈ take 2 (db_ok w) → ok = true) →
  ∃ s w',
    get_add_session (Some study) name date true w = (Ok (RetSession s), w')
    ∧ sessions w' = sessions w ++ [s]
    ∧ session_id s = Some (next_id w) ∧ session_name s = name
    ∧ session_study s = study_id study
    ∧ cl_comment s = (if Py.otruthy c then c else None)
    ∧ ∀ create, ∃ w'',
        get_add_session (Some study) name date create w' = (Ok (RetSession s), w'')
        ∧ sessions w'' = sessions w'.
Proof.
  intros Hparse Hsite Hdate Hcl Hq Hfresh Hoks.
  assert (Hok1 : head (db_ok w) ≠ Some false).
  { destruct (db_ok w) as [|ok oks]; [done|]. intros [= ->].
    by specialize (Hoks false ltac:(by left)). }
  assert (Hok2 : head (tail (db_ok w)) ≠ Some false).
  { destruct (db_ok w) as [|ok [|ok' oks]]; [done..|]. intros [= ->].
    by specialize (Hoks false ltac:(right; by left)). }
  destruct (get_add_session_creates study name date w ident site0 rest c
              Hparse Hsite Hdate Hcl Hq Hfresh Hok1)
    as (w' & Hrun & Hsess & _ & _ & _ & _ & Hdb & _).
  set (s := new_session study name site0 (parsed_date date) c (next_id w)) in *.
  exists s, w'. split; [done|]. split; [done|]. repeat (split; [done|]).
  intros create.
  assert (Hq' : session_query w' study name = [s]).
  { unfold session_query in *. rewrite Hsess, filter_app, Hq.
    by rewrite filter_cons_True, filter_nil. }
  assert (Hdate' : pydate_truthy (parsed_date date) = true →
                   session_date s = parsed_date date) by done.
  assert (Hc' : Py.otruthy c = true → cl_comment s = c).
  { unfold s, new_session. cbn. by intros ->. }
  assert (Hid' : is_Some (session_id s)) by (by eexists).
  assert (Huniq : ∀ r, r ∈ sessions w' → session_id r = session_id s → r = s).
  { rewrite Hsess. intros r [Hr|Hr%list_elem_of_singleton]%elem_of_app Hid; [|done].
    by apply Hfresh in Hr. }
  assert (Hok' : head (db_ok w') ≠ Some false) by (by rewrite Hdb).
  destruct (get_add_session_finds study name date create w' ident site0 rest c s
              Hparse Hsite Hdate Hcl Hq' Hdate' Hc' Hid' Huniq Hok')
    as (w'' & Hrun' & Hsess' & _).
  by exists w''.
Qed.

Lemma oracle_first_two (oks : list bool) :
  bool_decide (false ∈ take 2 oks)
  = negb match oks with
         | [] => true
         | [a] => a
         | a :: b :: _ => a && b
         end.
Proof. by destruct oks as [|[] [|[] ?]]. Qed.

(** X24: when [get_add_scan] with [create=True] finds no scan, it gets or
  makes the session first (its own commit), and then stores the new scan
  together with a link to the session that is marked primary: both or
  neither. If the flush or the commit of the scan fails the call raises and
  neither the scan nor the link is stored, while the session stays. *)
Theorem get_add_scan_creates_primary
    study name w id tag series desc repeat sess w1 t ts bl :
  scanid_parse_filename name = Some (id, tag, series, desc) →
  scan_repeat id = Ok repeat →
  scan_query w (get_full_subjectid_with_timepoint id) (nickname study)
    (ident_str id +:+ "_" +:+ tag +:+ "_" +:+ series) repeat = [] →
  get_add_session (Some study) (get_full_subjectid_with_timepoint id) None true w
  = (Ok (RetSession sess), w1) →
  filter (λ t, scantype_name t = tag) (scantype_rows w1) = t :: ts →
  t ∈ scantypes study →
  check_blacklist name (nickname study) = Ok bl →
  (∀ r, r ∈ scans w1 → scan_id r ≠ Some (next_id w1)) →
  let scan_name := ident_str id +:+ "_" +:+ tag +:+ "_" +:+ series in
  let sc := new_scan scan_name series desc t repeat bl (next_id w1) in
  let link := primary_link scan_name sess (next_id w1) in
  ∃ r w',
    get_add_scan (Some study) name true w = (r, w')
    ∧ sessions w' = sessions w1
    ∧ (if bool_decide (false ∈ take 2 (db_ok w1))
       then (r = Raise (IOError "sqlalchemy.exc.SQLAlchemyError")
             ∨ r = Raise (DashboardException ""))
            ∧ scans w' = scans w1 ∧ links w' = links w1
       else r = Ok (Some sc)
            ∧ scans w' = scans w1 ++ [sc] ∧ links w' = links w1 ++ [link]).
Proof.
  intros Hparse Hrep Hq Hsess Htype Hvalid Hbl Hfresh scan_name sc link.
  rewrite oracle_first_two.
  unfold get_add_scan. rewrite Hparse. cbv zeta.
  unfold lift, mbind, St_bind, get_db. rewrite Hrep, Hq. cbn [length].
  rewrite !bool_decide_eq_false_2 by lia. cbn [negb]. rewrite Hsess.
  unfold get_scantype, mbind, St_bind, get_db. rewrite Htype.
  unfold mret at 1. unfold St_ret at 1.
  rewrite (bool_decide_eq_true_2 (t ∈ scantypes study)) by done. cbn [negb].
  rewrite Hbl.
  unfold sc, link, new_scan, primary_link. fold scan_name.
  unfold try_except, reconcile_blacklist, commit, fresh_id, put_scan, put_link,
    db_attempt, log, raise, mbind, St_bind, mret, St_ret.
  assert (Hbl' : (Py.otruthy bl = true ∧ bl ≠ None) ∨ Py.otruthy bl = false).
  { destruct (Py.otruthy bl) eqn:Ebl; [left|by right]. split; [done|].
    intros ->. cbn in Ebl. congruence. }
  destruct (db_ok w1) as [|[] [|[] oks']] eqn:Eok; cbn [negb andb];
    cbn [studies sessions scans links scantype_rows db_ok next_id dlog
         set_scan_id bl_comment scan_id];
    rewrite ?Eok;
    (destruct Hbl' as [[Hbl1 Hne]|Hbl1]; rewrite ?Hbl1; cbn [negb andb];
     [rewrite ?(bool_decide_eq_false_2 (bl = None)) by done
     |destruct (bool_decide (bl = None))]);
    cbn [negb andb studies sessions scans links scantype_rows db_ok next_id dlog
         set_scan_id set_bl_comment bl_comment scan_id];
    rewrite ?upsert_fresh by (intros r Hr; by apply Hfresh);
    eexists _, _; (split; [reflexivity|]); cbn;
    first [done | split; [done|]; split; [by left|done]
          | split; [done|]; split; [by right|done]].
Qed.

End DashboardLookups.

(** ** The further properties on concrete inputs *)

Section MetadataExamples.

Import Demo Utils.

#[local] Existing Instance scanid.
#[local] Existing Instance interpreter.
#[local] Existing Instance config.
#[local] Existing Instance no_dashboard.

(** The comment of [subject_A], and the dictionary it is taken from. *)
Lemma read_checklist_subject_agrees_witness :
  ∃ d w1 w2,
    read_checklist None None None (Some checklist_path) (disk checklist_AB blacklist_XZ)
    = (Ok (Entries d), w1)
    ∧ read_checklist None (Some subject_A) None (Some checklist_path)
        (disk checklist_AB blacklist_XZ)
      = (Ok (comment_of d subject_A), w2).
Proof.
  apply (read_checklist_subject_agrees checklist_path checklist_AB subject_A ident_A
           (disk checklist_AB blacklist_XZ)); reflexivity.
Defined.

(** The comment of [scan_X]. *)
Lemma read_blacklist_scan_agrees_witness :
  ∃ d w1 w2,
    read_blacklist None None None None (Some blacklist_path)
      (disk checklist_AB blacklist_XZ)
    = (Ok (Entries d), w1)
    ∧ read_blacklist None (Some scan_X) None None (Some blacklist_path)
        (disk checklist_AB blacklist_XZ)
      = (Ok (comment_of d scan_X), w2).
Proof.
  destruct (read_blacklist_scan_agrees blacklist_path blacklist_XZ scan_X
              (disk checklist_AB blacklist_XZ))
    as (d & w1 & w2 & Hall & Hone & _); [reflexivity..|].
  exists d, w1, w2. split; [exact Hall|exact Hone].
Defined.

(** The blacklisted scans of [subject_A]. *)
Lemma read_blacklist_subject_filters_witness :
  ∃ d w1 w2,
    read_blacklist None None None None (Some blacklist_path)
      (disk checklist_AB blacklist_XZ)
    = (Ok (Entries d), w1)
    ∧ read_blacklist None None (Some subject_A) None (Some blacklist_path)
        (disk checklist_AB blacklist_XZ)
      = (Ok (Entries (filter (λ kv, Py.startswith kv.1 subject_A = true) d)), w2).
Proof.
  apply (read_blacklist_subject_filters blacklist_path blacklist_XZ subject_A
           (disk checklist_AB blacklist_XZ)); reflexivity.
Defined.

(** A key that is no subject ID. *)
Lemma update_checklist_rejects_witness :
  ∃ k w',
    k ∈ dom bogus_delta
    ∧ update_checklist bogus_delta None None (Some checklist_path)
        (disk checklist_AB blacklist_XZ)
      = (Raise match scanid_parse k with
               | None => MetadataException
                           ("Attempt to add invalid subject ID " +:+ k +:+ " to "
                            +:+ "QC checklist")
               | Some i => KeyError (get_full_subjectid_with_timepoint i)
               end, w')
    ∧ files w' = files (disk checklist_AB blacklist_XZ).
Proof.
  destruct (update_checklist_rejects bogus_delta checklist_path checklist_AB
              (disk checklist_AB blacklist_XZ))
    as (k & w' & Hk & Hrun & _ & Hfiles & _).
  - reflexivity.
  - reflexivity.
  - exists "bogus". split; [|exact I]. apply elem_of_dom. eexists. reflexivity.
  - exists k, w'. split; [exact Hk|]. split; [exact Hrun|exact Hfiles].
Defined.

(** A key that is no scan name. *)
Lemma update_blacklist_rejects_witness :
  ∃ k w',
    k ∈ dom bogus_delta ∧ scanid_parse_filename k = None
    ∧ update_blacklist bogus_delta None None (Some blacklist_path)
        (disk checklist_AB blacklist_XZ)
      = (Raise (MetadataException
                  ("Attempt to add invalid scan name " +:+ k +:+ " "
                   +:+ "to blacklist")), w')
    ∧ files w' = files (disk checklist_AB blacklist_XZ).
Proof.
  destruct (update_blacklist_rejects bogus_delta blacklist_path blacklist_XZ
              (disk checklist_AB blacklist_XZ))
    as (k & w' & Hk & Hbad & Hrun & Hfiles & _).
  - reflexivity.
  - reflexivity.
  - exists "bogus". split; [|reflexivity]. apply elem_of_dom. eexists. reflexivity.
  - exists k, w'. split; [exact Hk|]. split; [exact Hbad|]. split; [exact Hrun|exact Hfiles].
Defined.

(** A path at which there is no file. *)
Lemma update_needs_existing_file_witness :
  ∃ w1 w2,
    (update_checklist {[subject_A := "ok"]} None None (Some "/archive/new/checklist.csv")
       (disk checklist_AB blacklist_XZ)).2 = w1
    ∧ (update_blacklist {[subject_A := "ok"]} None None (Some "/archive/new/checklist.csv")
         (disk checklist_AB blacklist_XZ)).2 = w2
    ∧ files w1 = files (disk checklist_AB blacklist_XZ)
    ∧ files w2 = files (disk checklist_AB blacklist_XZ).
Proof.
  destruct (update_needs_existing_file {[subject_A := "ok"]} "/archive/new/checklist.csv"
              (disk checklist_AB blacklist_XZ))
    as (w1 & w2 & Hc & Hb & Hf1 & Hf2 & _); [reflexivity..|].
  exists w1, w2. rewrite Hc, Hb. split; [reflexivity|]. split; [reflexivity|].
  split; [exact Hf1|exact Hf2].
Defined.

End MetadataExamples.

Section DashboardExamples.

Import Demo Dashboard.

#[local] Existing Instance scanid.

(** A look-up of [subject_B], which the database does not have. *)
Lemma get_add_session_lookup_only_witness :
  ∃ w',
    get_add_session (H0 := dash_env None) (Some study) subject_B None false unlinked
    = (Ok RetNone, w')
    ∧ same_rows unlinked w'.
Proof.
  destruct (get_add_session_lookup_only (H0 := dash_env None) study subject_B None
              unlinked)
    as (r & w' & Hrun & Hsame & Hr); [reflexivity|].
  exists w'. split; [|exact Hsame]. rewrite Hrun, Hr. reflexivity.
Defined.

(** [subject_B] is made by the first call and found by the second. *)
Lemma get_add_session_get_or_create_witness :
  ∃ s w',
    get_add_session (H0 := dash_env None) (Some study) subject_B (Some "2018-01-02")
      true unlinked
    = (Ok (RetSession s), w')
    ∧ sessions w' = sessions unlinked ++ [s]
    ∧ ∀ create, ∃ w'',
        get_add_session (H0 := dash_env None) (Some study) subject_B
          (Some "2018-01-02") create w'
        = (Ok (RetSession s), w'')
        ∧ sessions w'' = sessions w'.
Proof.
  destruct (get_add_session_get_or_create (H0 := dash_env None) study subject_B
              (Some "2018-01-02") unlinked ident_B site_CMH [] None)
    as (s & w' & Hrun & Hsess & _ & _ & _ & _ & Hagain).
  - reflexivity.
  - reflexivity.
  - intros _. vm_compute. eauto.
  - reflexivity.
  - reflexivity.
  - intros r Hr. apply list_elem_of_singleton in Hr as ->. discriminate.
  - intros ok Hok. by apply elem_of_nil in Hok.
  - exists s, w'. split; [exact Hrun|]. split; [exact Hsess|exact Hagain].
Defined.

(** [scan_X] is stored without a link: no row matches. *)
Lemma get_add_scan_lookup_only_witness :
  ∃ w',
    get_add_scan (H0 := dash_env None) (Some study) scan_X false unlinked = (Ok None, w')
    ∧ same_rows unlinked w'.
Proof.
  destruct (get_add_scan_lookup_only (H0 := dash_env None) study scan_X false unlinked
              ident_X "T1" "02" "SagT1" (Some 1))
    as [_ Hnone]; [reflexivity|reflexivity|].
  apply Hnone; reflexivity.
Defined.

(** [scan_X] is made for the session of [subject_A], with the comment of the
  blacklist. *)
Lemma get_add_scan_creates_primary_witness :
  ∃ sc link w',
    get_add_scan (H0 := dash_env (Some "bad")) (Some study) scan_X true sessions_only
    = (Ok (Some sc), w')
    ∧ scans w' = [sc] ∧ links w' = [link]
    ∧ is_primary link = Some true ∧ bl_comment sc = Some "bad".
Proof.
  destruct (get_add_scan_creates_primary (H0 := dash_env (Some "bad")) study scan_X
              sessions_only ident_X "T1" "02" "SagT1" (Some 1)
              (session_row 1 subject_A)
              (get_add_session (H0 := dash_env (Some "bad")) (Some study) subject_A
                 None true sessions_only).2
              type_T1 [] (Some "bad"))
    as (r & w' & Hrun & _ & Hcase).
  - reflexivity.
  - reflexivity.
  - reflexivity.
  - vm_compute. reflexivity.
  - vm_compute. reflexivity.
  - by left.
  - reflexivity.
  - intros r Hr. vm_compute in Hr. by apply elem_of_nil in Hr.
  - destruct Hcase as (-> & Hscans & Hlinks).
    eexists _, _, w'. split; [exact Hrun|]. split; [exact Hscans|].
    split; [exact Hlinks|]. split; reflexivity.
Defined.

(** The link between [subject_A] and its scan, asked for twice. *)
Lemma get_add_session_scan_link_idempotent_witness :
  ∃ link w',
    get_add_session_scan_link (session_row 1 subject_A) (scan_row None) None false
      unlinked
    = (Ok link, w')
    ∧ links w' = [link]
    ∧ get_add_session_scan_link (session_row 1 subject_A) (scan_row None)
        (Some "other") true w'
      = (Ok link, w').
Proof.
  destruct (get_add_session_scan_link_idempotent (session_row 1 subject_A)
              (scan_row None) None false unlinked)
    as (link & w' & Hrun & Hlinks & Hagain).
  - by eexists.
  - by eexists.
  - reflexivity.
  - discriminate.
  - exists link, w'. split; [exact Hrun|]. split; [exact Hlinks|apply Hagain].
Defined.

End DashboardExamples.

Section RunScriptExamples.

Import Demo Enigma.

#[local] Existing Instance enigma_env.

(** The run script of the examples, on an empty disk. *)
Lemma write_run_script_text_witness :
  ∃ w',
    write_run_script run_script output_dir false false empty_disk = (Ok (), w')
    ∧ files w' = {[run_script := script_text "run_engimadti.sh" output_dir false false]}.
Proof.
  destruct (write_run_script_text run_script output_dir false false empty_disk)
    as (w' & Hrun & Hfiles & _).
  - by left.
  - exists w'. split; [exact Hrun|exact Hfiles].
Defined.


(** The run script written without [--calc-MD], checked with it. *)
Lemma check_runsh_after_write_witness :
  ∃ w1 r w2,
    write_run_script run_script output_dir false false empty_disk = (Ok (), w1)
    ∧ check_runsh run_script output_dir true false false w1 = (r, w2)
    ∧ r ≠ Ok ().
Proof.
  destruct (check_runsh_after_write run_script output_dir false false true false false
              empty_disk)
    as (w1 & r & w2 & Hwrite & Hcheck & Hiff & _).
  - by left.
  - reflexivity.
  - reflexivity.
  - reflexivity.
  - exists w1, r, w2. split; [exact Hwrite|]. split; [exact Hcheck|].
    intros Hok. apply Hiff in Hok as [Hmd _]. discriminate.
Defined.

(** The two scripts written without [--calc-MD], and a second run with it. *)
Lemma write_run_scripts_rerun_witness :
  ∃ w1 r w2,
    write_run_scripts script_names run_dir output_dir false false false empty_disk
    = (Ok (), w1)
    ∧ write_run_scripts script_names run_dir output_dir true false false w1 = (r, w2)
    ∧ r ≠ Ok ()
    ∧ files w2 !! run_script = files w1 !! run_script.
Proof.
  destruct (write_run_scripts_rerun run_dir output_dir false false false empty_disk)
    as (w1 & Hrun & Hf0 & _ & Hagain).
  - reflexivity.
  - reflexivity.
  - vm_compute. repeat constructor.
  - destruct (Hagain true false false) as (r & w2 & Hrun2 & Hiff & Hk0 & _).
    exists w1, r, w2. split; [exact Hrun|]. split; [exact Hrun2|]. split.
    + intros Hok. apply Hiff in Hok as [Hmd _]. discriminate.
    + exact Hk0.
Defined.

End RunScriptExamples.

Section IdleExamples.

Import Demo Enigma.

#[local] Existing Instance idle_env.

(** Nothing to process, on an empty disk. *)
Lemma main_without_subjects_witness :
  ∃ w',
    main (args false) empty_disk = (Raise (SystemExit "1"), w')
    ∧ files w' = ∅
    ∧ log_dir ∈ dirs w' ∧ run_dir ∈ dirs w'
    ∧ writes (trace w') = [] ∧ execs (trace w') = [] ∧ csvs (trace w') = [].
Proof.
  destruct (main_without_subjects (args false) empty_disk)
    as (w' & Hrun & Hfiles & _ & _ & Hlog & Hbin & _ & Hw & He & Hc).
  - intros w0 _. reflexivity.
  - exists w'. split; [exact Hrun|]. split; [exact Hfiles|].
    split; [apply Hlog; reflexivity|]. split; [apply Hbin; reflexivity|].
    split; [exact Hw|]. split; [exact He|exact Hc].
Defined.

End IdleExamples.
